(** * Discord Notes web client: validation, authentication state and requests

    A shallow embedding of [frontend/src/App.js] (both revisions kept in the
    file) together with the bot surface described in
    [DISCORD_BOT_INTEGRATION.md], and the properties the specification
    states about them.

    JavaScript values are an inductive type, strings are sequences of
    UTF-16 code units, objects used as maps ([localStorage], the axios
    default headers, the [errors] object of [validateForm]) are finite
    maps, and the handlers are state transformers over the browser world
    that also record every HTTP request they issue. *)

From Stdlib Require Import ZArith NArith List Ascii String Bool Lia.
From stdpp Require Import gmap strings list fin_maps pretty.
Import ListNotations.

Local Open Scope Z_scope.

#[local] Set Warnings "-register-all".

(** ** JavaScript strings and values *)

Module Js.

(** A JavaScript string is a sequence of UTF-16 code units; [length]
    counts code units. *)
Abbreviation jsstring := (list N).

(** An ASCII literal of the source as a JavaScript string. *)
Definition lit (s : string) : jsstring :=
  map N_of_ascii (list_ascii_of_string s).

(** WhiteSpace and LineTerminator code points of ECMAScript, the ones
    [String.prototype.trim] strips. *)
Definition is_whitespace (c : N) : bool :=
  ((9 <=? c) && (c <=? 13) || (c =? 32) || (c =? 160) || (c =? 5760)
   || (8192 <=? c) && (c <=? 8202) || (c =? 8232) || (c =? 8233)
   || (c =? 8239) || (c =? 8287) || (c =? 12288) || (c =? 65279))%N.

Fixpoint trimStart (s : jsstring) : jsstring :=
  match s with
  | c :: r => if is_whitespace c then trimStart r else s
  | [] => []
  end.

Definition trimEnd (s : jsstring) : jsstring := rev (trimStart (rev s)).

Definition trim (s : jsstring) : jsstring := trimEnd (trimStart s).

(** The class [\d] of a regular expression: ASCII digits only. *)
Definition is_digit (c : N) : bool := ((48 <=? c) && (c <=? 57))%N.

(** [s.match(/^\d+$/)] is non-null: without the [m] flag the anchors are
    the two ends of the input, so the whole string is one or more
    digits. *)
Definition matches_digits (s : jsstring) : bool :=
  match s with
  | [] => false
  | _ => forallb is_digit s
  end.

Inductive jsval : Type :=
| JUndefined
| JNull
| JBool (b : bool)
| JNum (z : Z)          (* an integer-valued number in the safe range *)
| JStr (s : jsstring)
| JArr (elems : list jsval)
| JObj (fields : list (string * jsval)).

(** ToBoolean. *)
Definition truthy (v : jsval) : bool :=
  match v with
  | JUndefined | JNull => false
  | JBool b => b
  | JNum z => negb (z =? 0)
  | JStr s => match s with [] => false | _ => true end
  | JArr _ | JObj _ => true
  end.

(** [a || b] and [a && b]. The right operand is evaluated only when the
    left one does not decide the result, and may then raise a TypeError
    ([None]). *)
Definition js_or (a : jsval) (b : option jsval) : option jsval :=
  if truthy a then Some a else b.
Definition js_and (a : jsval) (b : option jsval) : option jsval :=
  if truthy a then b else Some a.

(** [a || b] with a right operand that is a literal. *)
Definition js_or_else (a b : jsval) : jsval := if truthy a then a else b.

Definition is_nullish (v : jsval) : bool :=
  match v with
  | JUndefined | JNull => true
  | _ => false
  end.

Fixpoint assoc (k : string) (fields : list (string * jsval)) : jsval :=
  match fields with
  | [] => JUndefined
  | (k', v) :: r => if String.eqb k k' then v else assoc k r
  end.

(** [v.k] for a property name [k] that no prototype defines: [None] is
    the TypeError raised on [null] and [undefined]. *)
Definition get_prop (v : jsval) (k : string) : option jsval :=
  match v with
  | JUndefined | JNull => None
  | JObj fields => Some (assoc k fields)
  | _ => Some JUndefined
  end.

(** [v?.k]. *)
Definition opt_prop (v : jsval) (k : string) : jsval :=
  match get_prop v k with
  | Some x => x
  | None => JUndefined
  end.

Definition isArray (v : jsval) : bool :=
  match v with
  | JArr _ => true
  | _ => false
  end.

(** ToString, as a template literal and [localStorage.setItem] apply
    it. An array is its elements joined by a comma, [null] and
    [undefined] elements giving the empty string. *)
Fixpoint to_string (v : jsval) : jsstring :=
  match v with
  | JUndefined => lit "undefined"
  | JNull => lit "null"
  | JBool true => lit "true"
  | JBool false => lit "false"
  | JNum z => lit (pretty z)
  | JStr s => s
  | JArr elems =>
      (fix join (l : list jsval) : jsstring :=
         match l with
         | [] => []
         | x :: r =>
             (if is_nullish x then [] else to_string x)
               ++ match r with [] => [] | _ => lit "," ++ join r end
         end) elems
  | JObj _ => lit "[object Object]"
  end.

(** [Array.prototype.join(sep)]. *)
Fixpoint join (sep : jsstring) (l : list jsval) : jsstring :=
  match l with
  | [] => []
  | x :: r =>
      (if is_nullish x then [] else to_string x)
        ++ match r with [] => [] | _ => sep ++ join sep r end
  end.

(** The Number nearest to a non-negative integer: 53 significant bits,
    ties to the even significand. *)
Definition to_number (n : Z) : Z :=
  let e := Z.log2 n in
  if e <? 53 then n
  else
    let sh := e - 52 in
    let q := Z.shiftr n sh in
    let r := Z.land n (Z.ones sh) in
    let half := Z.shiftl 1 (sh - 1) in
    let q' := if r <? half then q
              else if half <? r then q + 1
              else if Z.even q then q else q + 1 in
    Z.shiftl q' sh.

Definition digit_value (c : N) : Z := Z.of_N c - 48.

(** The integer a digit sequence denotes in radix 10. *)
Definition decimal_value (s : jsstring) : Z :=
  fold_left (fun acc c => 10 * acc + digit_value c) s 0.

Fixpoint take_digits (s : jsstring) : jsstring :=
  match s with
  | c :: r => if is_digit c then c :: take_digits r else []
  | [] => []
  end.

(** [parseInt(s)] with no radix on a string that carries no sign and no
    [0x] prefix (the call site passes a string of digits): leading white
    space is skipped, the longest prefix of digits is read, and the
    result is the nearest Number; [None] is NaN. *)
Definition parseInt (s : jsstring) : option Z :=
  match take_digits (trimStart s) with
  | [] => None
  | ds => Some (to_number (decimal_value ds))
  end.

(** [x < y] for a possibly-NaN [x]: a comparison with NaN is false. *)
Definition num_lt (x : option Z) (y : Z) : bool :=
  match x with
  | Some v => v <? y
  | None => false
  end.

End Js.

Import Js.

(** ** Validation utilities (App.js, lines 21-43)

    Each validator returns the message of the first rule the input
    breaks, or [null]. *)

Module Validation.

Definition validateDiscordUserId (id : jsstring) : jsval :=
  if negb (truthy (JStr id)) || negb (truthy (JStr (trim id)))
  then JStr (lit "Discord User ID is required")
  else
    let trimmedId := trim id in
    if negb (matches_digits trimmedId)
    then JStr (lit "Discord User ID must contain only numbers")
    else if (length trimmedId <? 17)%nat || (19 <? length trimmedId)%nat
    then JStr (lit "Discord User ID must be 17-19 digits long")
    else if num_lt (parseInt trimmedId) 100000000000000000
    then JStr (lit "Invalid Discord User ID - please check your ID")
    else JNull.

Definition validateUsername (username : jsstring) : jsval :=
  if negb (truthy (JStr username)) || negb (truthy (JStr (trim username)))
  then JStr (lit "Username is required")
  else
    let trimmed := trim username in
    if (length trimmed <? 2)%nat
    then JStr (lit "Username must be at least 2 characters long")
    else if (32 <? length trimmed)%nat
    then JStr (lit "Username must be no more than 32 characters long")
    else JNull.

Definition validatePassword (password : jsstring) : jsval :=
  if negb (truthy (JStr password))
  then JStr (lit "Password is required")
  else if (length password <? 6)%nat
  then JStr (lit "Password must be at least 6 characters long")
  else JNull.

End Validation.

Import Validation.

(** ** HTTP through axios *)

Module Http.

Inductive http_method := GET | POST | PUT | DELETE.

(** What axios puts on the wire: the request's own arguments and the
    default headers of [axios.defaults.headers.common] at the time of
    the call. [req_data] is [JUndefined] for a request without body. *)
Record request := {
  req_method : http_method;
  req_url : jsstring;
  req_data : jsval;
  req_params : list (string * jsval);
  req_headers : gmap string jsstring
}.

(** The error object of a rejected call; the code reads its [response]
    property only, [JUndefined] when no response came. *)
Record AxiosError := { response : jsval }.

(** The promise axios returns either resolves with a response, of which
    the code reads [data], or rejects with an error object. *)
Inductive outcome :=
| Resolved (data : jsval)
| Rejected (error : AxiosError).

(** An exception of the language itself, such as the TypeError of
    destructuring [null], is an error object without [response]. *)
Definition TypeError : AxiosError := {| response := JUndefined |}.

(** The backend as the client sees it: the answer to the [n]-th request
    of a session. *)
Abbreviation server := (nat -> request -> outcome).

End Http.

Import Http.

(** ** Component state *)

Module AuthProvider.

Record state := {
  user : jsval;
  token : jsval;
  loading : bool
}.

Definition setUser (v : jsval) (s : state) : state :=
  {| user := v; token := token s; loading := loading s |}.
Definition setToken (v : jsval) (s : state) : state :=
  {| user := user s; token := v; loading := loading s |}.
Definition setLoading (b : bool) (s : state) : state :=
  {| user := user s; token := token s; loading := b |}.

End AuthProvider.

Module Auth.

Record state := {
  isLogin : bool;
  discordUserId : jsstring;
  username : jsstring;
  password : jsstring;
  showPassword : bool;
  error : jsval;
  fieldErrors : gmap string jsval;
  loading : bool
}.

Definition setError (v : jsval) (s : state) : state :=
  {| isLogin := isLogin s; discordUserId := discordUserId s;
     username := username s; password := password s;
     showPassword := showPassword s; error := v;
     fieldErrors := fieldErrors s; loading := loading s |}.
Definition setFieldErrors (m : gmap string jsval) (s : state) : state :=
  {| isLogin := isLogin s; discordUserId := discordUserId s;
     username := username s; password := password s;
     showPassword := showPassword s; error := error s;
     fieldErrors := m; loading := loading s |}.
Definition setLoading (b : bool) (s : state) : state :=
  {| isLogin := isLogin s; discordUserId := discordUserId s;
     username := username s; password := password s;
     showPassword := showPassword s; error := error s;
     fieldErrors := fieldErrors s; loading := b |}.

Definition setIsLogin (b : bool) (s : state) : state :=
  {| isLogin := b; discordUserId := discordUserId s;
     username := username s; password := password s;
     showPassword := showPassword s; error := error s;
     fieldErrors := fieldErrors s; loading := loading s |}.
Definition setDiscordUserId (v : jsstring) (s : state) : state :=
  {| isLogin := isLogin s; discordUserId := v;
     username := username s; password := password s;
     showPassword := showPassword s; error := error s;
     fieldErrors := fieldErrors s; loading := loading s |}.
Definition setUsername (v : jsstring) (s : state) : state :=
  {| isLogin := isLogin s; discordUserId := discordUserId s;
     username := v; password := password s;
     showPassword := showPassword s; error := error s;
     fieldErrors := fieldErrors s; loading := loading s |}.
Definition setPassword (v : jsstring) (s : state) : state :=
  {| isLogin := isLogin s; discordUserId := discordUserId s;
     username := username s; password := v;
     showPassword := showPassword s; error := error s;
     fieldErrors := fieldErrors s; loading := loading s |}.
Definition setShowPassword (b : bool) (s : state) : state :=
  {| isLogin := isLogin s; discordUserId := discordUserId s;
     username := username s; password := password s;
     showPassword := b; error := error s;
     fieldErrors := fieldErrors s; loading := loading s |}.

End Auth.

Module Dashboard.

Record state := {
  notes : jsval;
  searchTerm : jsstring;
  loading : bool;
  searchLoading : bool;
  editingNote : jsval;
  editContent : jsval
}.

Definition setNotes (v : jsval) (s : state) : state :=
  {| notes := v; searchTerm := searchTerm s; loading := loading s;
     searchLoading := searchLoading s; editingNote := editingNote s;
     editContent := editContent s |}.
Definition setLoading (b : bool) (s : state) : state :=
  {| notes := notes s; searchTerm := searchTerm s; loading := b;
     searchLoading := searchLoading s; editingNote := editingNote s;
     editContent := editContent s |}.
Definition setSearchLoading (b : bool) (s : state) : state :=
  {| notes := notes s; searchTerm := searchTerm s; loading := loading s;
     searchLoading := b; editingNote := editingNote s;
     editContent := editContent s |}.
Definition setEditingNote (v : jsval) (s : state) : state :=
  {| notes := notes s; searchTerm := searchTerm s; loading := loading s;
     searchLoading := searchLoading s; editingNote := v;
     editContent := editContent s |}.
Definition setEditContent (v : jsval) (s : state) : state :=
  {| notes := notes s; searchTerm := searchTerm s; loading := loading s;
     searchLoading := searchLoading s; editingNote := editingNote s;
     editContent := v |}.

Definition setSearchTerm (v : jsstring) (s : state) : state :=
  {| notes := notes s; searchTerm := v; loading := loading s;
     searchLoading := searchLoading s; editingNote := editingNote s;
     editContent := editContent s |}.

End Dashboard.

(** ** The browser world and its effects *)

Module Browser.

Record World := {
  localStorage : gmap string jsstring;
  headers_common : gmap string jsstring;  (* axios.defaults.headers.common *)
  provider : AuthProvider.state;
  auth : Auth.state;
  dashboard : Dashboard.state;
  sent : list request;                    (* requests issued, oldest first *)
  console : list string                   (* console.error labels *)
}.

(** An effectful computation: a transformer of the world. *)
Definition Eff (A : Type) : Type := World -> A * World.

#[global] Instance Eff_ret : MRet Eff := fun A a w => (a, w).
#[global] Instance Eff_bind : MBind Eff :=
  fun A B k m w => let (a, w') := m w in k a w'.
Definition get : Eff World := fun w => (w, w).
Definition modify (f : World -> World) : Eff unit := fun w => (tt, f w).

Definition exec {A} (m : Eff A) (w : World) : World := snd (m w).
Definition eval {A} (m : Eff A) (w : World) : A := fst (m w).

Definition with_localStorage f (w : World) : World :=
  {| localStorage := f (localStorage w); headers_common := headers_common w;
     provider := provider w; auth := auth w; dashboard := dashboard w;
     sent := sent w; console := console w |}.
Definition with_headers f (w : World) : World :=
  {| localStorage := localStorage w; headers_common := f (headers_common w);
     provider := provider w; auth := auth w; dashboard := dashboard w;
     sent := sent w; console := console w |}.
Definition with_provider f (w : World) : World :=
  {| localStorage := localStorage w; headers_common := headers_common w;
     provider := f (provider w); auth := auth w; dashboard := dashboard w;
     sent := sent w; console := console w |}.
Definition with_auth f (w : World) : World :=
  {| localStorage := localStorage w; headers_common := headers_common w;
     provider := provider w; auth := f (auth w); dashboard := dashboard w;
     sent := sent w; console := console w |}.
Definition with_dashboard f (w : World) : World :=
  {| localStorage := localStorage w; headers_common := headers_common w;
     provider := provider w; auth := auth w; dashboard := f (dashboard w);
     sent := sent w; console := console w |}.
Definition with_sent f (w : World) : World :=
  {| localStorage := localStorage w; headers_common := headers_common w;
     provider := provider w; auth := auth w; dashboard := dashboard w;
     sent := f (sent w); console := console w |}.
Definition with_console f (w : World) : World :=
  {| localStorage := localStorage w; headers_common := headers_common w;
     provider := provider w; auth := auth w; dashboard := dashboard w;
     sent := sent w; console := f (console w) |}.

(** [localStorage.setItem(k, v)] stores the string of [v]. *)
Definition setItem (k : string) (v : jsval) : Eff unit :=
  modify (with_localStorage (fun m => <[k := to_string v]> m)).
Definition removeItem (k : string) : Eff unit :=
  modify (with_localStorage (fun m => delete k m)).
(** [localStorage.getItem(k)]: the stored string, or [null]. *)
Definition getItem (k : string) (w : World) : jsval :=
  match localStorage w !! k with
  | Some s => JStr s
  | None => JNull
  end.

(** [axios.defaults.headers.common[k] = v] and [delete ...[k]]. *)
Definition set_header (k : string) (v : jsstring) : Eff unit :=
  modify (with_headers (fun m => <[k := v]> m)).
Definition delete_header (k : string) : Eff unit :=
  modify (with_headers (fun m => delete k m)).

Definition in_provider (f : AuthProvider.state -> AuthProvider.state) : Eff unit :=
  modify (with_provider f).
Definition in_auth (f : Auth.state -> Auth.state) : Eff unit :=
  modify (with_auth f).
Definition in_dashboard (f : Dashboard.state -> Dashboard.state) : Eff unit :=
  modify (with_dashboard f).

Definition console_error (label : string) : Eff unit :=
  modify (with_console (fun l => l ++ [label])).

(** One axios call: the request goes out with the default headers of
    the moment and the server's answer comes back. *)
Definition axios (net : server) (m : http_method) (url : jsstring)
           (data : jsval) (params : list (string * jsval)) : Eff outcome :=
  fun w =>
    let req := {| req_method := m; req_url := url; req_data := data;
                  req_params := params; req_headers := headers_common w |} in
    (net (length (sent w)) req, with_sent (fun l => l ++ [req]) w).

(** [await p] inside a [try] block: the data of the response when the
    promise resolves, control passing to [catch] when it rejects. *)
Definition await {A} (p : Eff outcome) (k : jsval -> Eff (A + AxiosError))
  : Eff (A + AxiosError) :=
  r ← p;
  match r with
  | Resolved data => k data
  | Rejected error => mret (inr error)
  end.

(** [try { body } catch (error) { handler }]. *)
Definition try_catch {A} (body : Eff (A + AxiosError))
           (handler : AxiosError -> Eff A) : Eff A :=
  r ← body;
  match r with
  | inl a => mret a
  | inr error => handler error
  end.

(** What awaiting an async function gives: its return value, or the
    exception it raised. *)
Inductive completion (A : Type) :=
| Returned (a : A)
| Threw.
Arguments Returned {A} a.
Arguments Threw {A}.

Record AuthResult := { success : bool; error : jsval }.

Inductive screen := LoadingScreen | DashboardScreen | AuthScreen.

End Browser.

Import Browser.


(** ** The application, current revision (App.js, lines 1-562) *)

Module Revised.

Section App.

Variable net : server.
Variable BACKEND_URL : jsval.    (* process.env.REACT_APP_BACKEND_URL *)

Definition API : jsstring := to_string BACKEND_URL ++ lit "/api".

(** *** AuthProvider *)

Definition logout : Eff unit :=
  removeItem "token";;
  delete_header "Authorization";;
  in_provider (AuthProvider.setToken JNull);;
  in_provider (AuthProvider.setUser JNull).

Definition fetchUser : Eff unit :=
  try_catch
    (await (axios net GET (API ++ lit "/auth/me") JUndefined [])
       (fun data =>
          in_provider (AuthProvider.setUser data);;
          mret (inl tt)))
    (fun error =>
       console_error "Failed to fetch user:";;
       logout);;
  in_provider (AuthProvider.setLoading false).

(** The effect that depends on [token]: it runs after the first
    render and after every render in which [token] changed. *)
Definition useEffect_token : Eff unit :=
  w ← get;
  let token := AuthProvider.token (provider w) in
  if truthy token
  then set_header "Authorization" (lit "Bearer " ++ to_string token);;
       fetchUser
  else in_provider (AuthProvider.setLoading false).

(** The initial values of the three [useState] hooks. *)
Definition AuthProvider_init (w : World) : AuthProvider.state :=
  {| AuthProvider.user := JNull;
     AuthProvider.token := getItem "token" w;
     AuthProvider.loading := true |}.

(** Mounting the provider: initial state, first render, effect. *)
Definition mount : Eff unit :=
  w ← get;
  in_provider (fun _ => AuthProvider_init w);;
  useEffect_token.

(** [error.response?.data?.detail]. *)
Definition detail_of (error : AxiosError) : jsval :=
  opt_prop (opt_prop (response error) "data") "detail".

(** [error.response.data.detail]: [None] is a TypeError. *)
Definition strict_detail (error : AxiosError) : option jsval :=
  data ← get_prop (response error) "data"; get_prop data "detail".

(** [detail.map(e => e.msg).join(', ')]: [None] is a TypeError, of
    [map] on a non-array or of [e.msg] on a nullish element. *)
Definition join_msgs (detail : jsval) : option jsval :=
  match detail with
  | JArr elems =>
      msgs ← mapM (fun e => get_prop e "msg") elems;
      Some (JStr (join (lit ", ") msgs))
  | _ => None
  end.

Definition login (discordUserId password : jsstring)
  : Eff (completion AuthResult) :=
  try_catch
    (await (axios net POST (API ++ lit "/auth/login")
              (JObj [("discord_user_id"%string, JStr discordUserId);
                     ("password"%string, JStr password)]) [])
       (fun data =>
          match get_prop data "access_token" with
          | None => mret (inr TypeError)
          | Some access_token =>
              setItem "token" access_token;;
              set_header "Authorization"
                (lit "Bearer " ++ to_string access_token);;
              in_provider (AuthProvider.setToken access_token);;
              mret (inl (Returned {| success := true;
                                     error := JUndefined |}))
          end))
    (fun error =>
       let errorMessage :=
         js_or (detail_of error)
           (cond ← js_and (detail_of error)
                     (d ← strict_detail error; Some (JBool (isArray d)));
            if truthy cond
            then d ← strict_detail error; join_msgs d
            else Some (JStr (lit "Login failed"))) in
       mret (match errorMessage with
             | Some errorMessage =>
                 Returned {| success := false; error := errorMessage |}
             | None => Threw
             end)).

Definition register (discordUserId username password : jsstring)
  : Eff (completion AuthResult) :=
  try_catch
    (await (axios net POST (API ++ lit "/auth/register")
              (JObj [("discord_user_id"%string, JStr discordUserId);
                     ("username"%string, JStr username);
                     ("password"%string, JStr password)]) [])
       (fun data =>
          match get_prop data "access_token" with
          | None => mret (inr TypeError)
          | Some access_token =>
              setItem "token" access_token;;
              set_header "Authorization"
                (lit "Bearer " ++ to_string access_token);;
              in_provider (AuthProvider.setToken access_token);;
              mret (inl (Returned {| success := true;
                                     error := JUndefined |}))
          end))
    (fun error =>
       let errorMessage :=
         js_or (detail_of error)
           (cond ← js_and (detail_of error)
                     (d ← strict_detail error; Some (JBool (isArray d)));
            if truthy cond
            then d ← strict_detail error; join_msgs d
            else Some (JStr (lit "Registration failed"))) in
       mret (match errorMessage with
             | Some errorMessage =>
                 Returned {| success := false; error := errorMessage |}
             | None => Threw
             end)).

(** *** Auth *)

Definition validateForm : Eff bool :=
  w ← get;
  let form := auth w in
  let errors : gmap string jsval := ∅ in
  let discordIdError := validateDiscordUserId (Auth.discordUserId form) in
  let errors := if truthy discordIdError
                then <["discordUserId"%string := discordIdError]> errors
                else errors in
  let errors :=
    if negb (Auth.isLogin form)
    then let usernameError := validateUsername (Auth.username form) in
         if truthy usernameError
         then <["username"%string := usernameError]> errors
         else errors
    else errors in
  let passwordError := validatePassword (Auth.password form) in
  let errors := if truthy passwordError
                then <["password"%string := passwordError]> errors
                else errors in
  in_auth (Auth.setFieldErrors errors);;
  mret (Nat.eqb (size errors) 0).

Definition handleSubmit : Eff (completion unit) :=
  w ← get;
  let form := auth w in
  in_auth (Auth.setError (JStr []));;
  in_auth (Auth.setFieldErrors ∅);;
  valid ← validateForm;
  if negb valid then mret (Returned tt)
  else
    in_auth (Auth.setLoading true);;
    result ← (if Auth.isLogin form
              then login (trim (Auth.discordUserId form))
                     (Auth.password form)
              else register (trim (Auth.discordUserId form))
                     (trim (Auth.username form)) (Auth.password form));
    match result with
    | Threw => mret Threw
    | Returned result =>
        (if negb (success result)
         then in_auth (Auth.setError (error result))
         else mret tt);;
        in_auth (Auth.setLoading false);;
        mret (Returned tt)
    end.

Definition toggleMode : Eff unit :=
  w ← get;
  in_auth (Auth.setIsLogin (negb (Auth.isLogin (auth w))));;
  in_auth (Auth.setError (JStr []));;
  in_auth (Auth.setFieldErrors ∅);;
  in_auth (Auth.setDiscordUserId []);;
  in_auth (Auth.setUsername []);;
  in_auth (Auth.setPassword []).

(** [fieldErrors.k]: the property, [undefined] when the object has none. *)
Definition field_error (errors : gmap string jsval) (k : string) : jsval :=
  default JUndefined (errors !! k).

(** The [onChange] handlers of the three inputs. [value] is
    [e.target.value]; the update of [fieldErrors] is the functional one,
    [prev => ({ ...prev, k: null })]. *)
Definition onChange_discordUserId (value : jsstring) : Eff unit :=
  w ← get;
  in_auth (Auth.setDiscordUserId value);;
  if truthy (field_error (Auth.fieldErrors (auth w)) "discordUserId")
  then in_auth (fun prev =>
                  Auth.setFieldErrors
                    (<["discordUserId"%string := JNull]> (Auth.fieldErrors prev))
                    prev)
  else mret tt.

Definition onChange_username (value : jsstring) : Eff unit :=
  w ← get;
  in_auth (Auth.setUsername value);;
  if truthy (field_error (Auth.fieldErrors (auth w)) "username")
  then in_auth (fun prev =>
                  Auth.setFieldErrors
                    (<["username"%string := JNull]> (Auth.fieldErrors prev))
                    prev)
  else mret tt.

Definition onChange_password (value : jsstring) : Eff unit :=
  w ← get;
  in_auth (Auth.setPassword value);;
  if truthy (field_error (Auth.fieldErrors (auth w)) "password")
  then in_auth (fun prev =>
                  Auth.setFieldErrors
                    (<["password"%string := JNull]> (Auth.fieldErrors prev))
                    prev)
  else mret tt.

(** The [onClick] of the eye button. *)
Definition onClick_showPassword : Eff unit :=
  w ← get;
  in_auth (Auth.setShowPassword (negb (Auth.showPassword (auth w)))).

(** *** Dashboard *)

(** [fetchNotes(search = '')]: [None] is a call with no argument. *)
Definition fetchNotes (arg : option jsstring) : Eff unit :=
  let search := default [] arg in
  try_catch
    (in_dashboard (Dashboard.setLoading (bool_decide (search = [])));;
     in_dashboard (Dashboard.setSearchLoading
                     (bool_decide (search ≠ [])));;
     let params := if truthy (JStr search)
                   then [("search"%string, JStr search)]
                   else [] in
     await (axios net GET (API ++ lit "/notes") JUndefined params)
       (fun data =>
          in_dashboard (Dashboard.setNotes data);;
          mret (inl tt)))
    (fun error => console_error "Failed to fetch notes:");;
  in_dashboard (Dashboard.setLoading false);;
  in_dashboard (Dashboard.setSearchLoading false).

Definition handleSearch : Eff unit :=
  w ← get;
  fetchNotes (Some (Dashboard.searchTerm (dashboard w))).

Definition handleSaveEdit (noteId : jsval) : Eff unit :=
  w ← get;
  let editContent := Dashboard.editContent (dashboard w) in
  let searchTerm := Dashboard.searchTerm (dashboard w) in
  try_catch
    (await (axios net PUT (API ++ lit "/notes/" ++ to_string noteId)
              (JObj [("content"%string, editContent)]) [])
       (fun _ =>
          in_dashboard (Dashboard.setEditingNote JNull);;
          fetchNotes (Some searchTerm);;
          mret (inl tt)))
    (fun error => console_error "Failed to update note:").

(** [confirmed] is the answer of [window.confirm]. *)
Definition handleDelete (confirmed : bool) (noteId : jsval) : Eff unit :=
  w ← get;
  let searchTerm := Dashboard.searchTerm (dashboard w) in
  if confirmed
  then
    try_catch
      (await (axios net DELETE (API ++ lit "/notes/" ++ to_string noteId)
                JUndefined [])
         (fun _ =>
            fetchNotes (Some searchTerm);;
            mret (inl tt)))
      (fun error => console_error "Failed to delete note:")
  else mret tt.

(** [handleEdit(note)]: [Threw] is the TypeError of reading a property
    of a nullish [note]. *)
Definition handleEdit (note : jsval) : Eff (completion unit) :=
  match get_prop note "id" with
  | None => mret Threw
  | Some id =>
      in_dashboard (Dashboard.setEditingNote id);;
      match get_prop note "content" with
      | None => mret Threw
      | Some content =>
          in_dashboard (Dashboard.setEditContent content);;
          mret (Returned tt)
      end
  end.

(** The [onChange] of the search input and of the edit area. *)
Definition onChange_searchTerm (value : jsstring) : Eff unit :=
  in_dashboard (Dashboard.setSearchTerm value).

Definition onChange_editContent (value : jsstring) : Eff unit :=
  in_dashboard (Dashboard.setEditContent (JStr value)).

(** The [onClick] of the Clear button. *)
Definition onClick_clear : Eff unit :=
  in_dashboard (Dashboard.setSearchTerm []);;
  fetchNotes None.

(** The [onClick] of the Cancel button of the editor. *)
Definition onClick_cancel : Eff unit :=
  in_dashboard (Dashboard.setEditingNote JNull).

(** The effect of the dashboard with no dependency: it runs once, after
    the first render. *)
Definition useEffect_dashboard : Eff unit := fetchNotes None.

(** *** AppRouter *)

Definition AppRouter (w : World) : screen :=
  if AuthProvider.loading (provider w) then LoadingScreen
  else if truthy (AuthProvider.user (provider w)) then DashboardScreen
  else AuthScreen.

End App.

End Revised.

(** ** The application, first revision (App.js, lines 563-1021)

    Its [AuthProvider] differs from the current one in the [catch] blocks
    of [login] and [register] only. *)

Module Original.

Section App.

Variable net : server.
Variable BACKEND_URL : jsval.

Definition API : jsstring := to_string BACKEND_URL ++ lit "/api".

Definition detail_of (error : AxiosError) : jsval :=
  opt_prop (opt_prop (response error) "data") "detail".

Definition login (discordUserId password : jsstring)
  : Eff (completion AuthResult) :=
  try_catch
    (await (axios net POST (API ++ lit "/auth/login")
              (JObj [("discord_user_id"%string, JStr discordUserId);
                     ("password"%string, JStr password)]) [])
       (fun data =>
          match get_prop data "access_token" with
          | None => mret (inr TypeError)
          | Some access_token =>
              setItem "token" access_token;;
              set_header "Authorization"
                (lit "Bearer " ++ to_string access_token);;
              in_provider (AuthProvider.setToken access_token);;
              mret (inl (Returned {| success := true;
                                     error := JUndefined |}))
          end))
    (fun error =>
       mret (Returned {| success := false;
                         error := js_or_else (detail_of error)
                                    (JStr (lit "Login failed")) |})).

Definition register (discordUserId username password : jsstring)
  : Eff (completion AuthResult) :=
  try_catch
    (await (axios net POST (API ++ lit "/auth/register")
              (JObj [("discord_user_id"%string, JStr discordUserId);
                     ("username"%string, JStr username);
                     ("password"%string, JStr password)]) [])
       (fun data =>
          match get_prop data "access_token" with
          | None => mret (inr TypeError)
          | Some access_token =>
              setItem "token" access_token;;
              set_header "Authorization"
                (lit "Bearer " ++ to_string access_token);;
              in_provider (AuthProvider.setToken access_token);;
              mret (inl (Returned {| success := true;
                                     error := JUndefined |}))
          end))
    (fun error =>
       mret (Returned {| success := false;
                         error := js_or_else (detail_of error)
                                    (JStr (lit "Registration failed")) |})).

(** The form of the first revision has no [showPassword] and no
    [fieldErrors]; its handlers leave those two fields of the state
    alone. *)
Definition handleSubmit : Eff (completion unit) :=
  w ← get;
  let form := auth w in
  in_auth (Auth.setError (JStr []));;
  in_auth (Auth.setLoading true);;
  if negb (truthy (JStr (trim (Auth.discordUserId form))))
  then in_auth (Auth.setError (JStr (lit "Discord User ID is required")));;
       in_auth (Auth.setLoading false);;
       mret (Returned tt)
  else if negb (truthy (JStr (trim (Auth.password form))))
  then in_auth (Auth.setError (JStr (lit "Password is required")));;
       in_auth (Auth.setLoading false);;
       mret (Returned tt)
  else
    let finish (result : completion AuthResult) : Eff (completion unit) :=
      match result with
      | Threw => mret Threw
      | Returned result =>
          (if negb (success result)
           then in_auth (Auth.setError (error result))
           else mret tt);;
          in_auth (Auth.setLoading false);;
          mret (Returned tt)
      end in
    if Auth.isLogin form
    then result ← login (Auth.discordUserId form) (Auth.password form);
         finish result
    else if negb (truthy (JStr (trim (Auth.username form))))
    then in_auth (Auth.setError
                    (JStr (lit "Username is required for registration")));;
         in_auth (Auth.setLoading false);;
         mret (Returned tt)
    else result ← register (Auth.discordUserId form) (Auth.username form)
                    (Auth.password form);
         finish result.

(** The [onClick] of the mode link: the fields keep what was typed. *)
Definition onClick_mode : Eff unit :=
  w ← get;
  in_auth (Auth.setIsLogin (negb (Auth.isLogin (auth w)))).

(** [fetchNotes(search = '')] of the first revision: one loading flag,
    raised for every fetch. *)
Definition fetchNotes (arg : option jsstring) : Eff unit :=
  let search := default [] arg in
  try_catch
    (in_dashboard (Dashboard.setLoading true);;
     let params := if truthy (JStr search)
                   then [("search"%string, JStr search)]
                   else [] in
     await (axios net GET (API ++ lit "/notes") JUndefined params)
       (fun data =>
          in_dashboard (Dashboard.setNotes data);;
          mret (inl tt)))
    (fun error => console_error "Failed to fetch notes:");;
  in_dashboard (Dashboard.setLoading false).

End App.

End Original.

(** ** The bot surface of the backend

    The server is not part of the source tree; the integration guide
    lists its endpoints and the specification (sections 3, 4.2 and 7)
    says what they do. *)

Module NoteAccess.

(** Modelled from the spec: the Note record of section 3, whose
    declaration lives in the backend. Identifiers and text are opaque
    strings, the four context tags are independently optional. *)
Record Note := {
  owner_external_id : string;
  content : string;
  server_id : option string;
  server_name : option string;
  channel_id : option string;
  channel_name : option string;
  created_at : Z;
  updated_at : Z
}.

(** Modelled from the spec: the error taxonomy of section 7. *)
Inductive failure := Conflict | Unauthorized | Forbidden | NotFound | Validation.

(** Modelled from the spec: the result of an operation, a value or one
    failure of the taxonomy. *)
Inductive result (A : Type) :=
| Ok (a : A)
| Err (e : failure).
Arguments Ok {A} a.
Arguments Err {A} e.

(** Modelled from the spec: the Note Store, notes keyed by their id. *)
Abbreviation NoteStore := (gmap string Note).

(** Modelled from the spec: [delete_note(account, note_id)] of the
    authenticated surface, absent from the source tree. Unknown id:
    [NotFound]; a note of another account: [Forbidden]; otherwise the
    note is removed. *)
Definition delete_note (account_external_id note_id : string)
           (store : NoteStore) : result NoteStore :=
  match store !! note_id with
  | None => Err NotFound
  | Some note =>
      if String.eqb (owner_external_id note) account_external_id
      then Ok (delete note_id store)
      else Err Forbidden
  end.

(** Modelled from the spec: [bot_delete_note(note_id)] behind
    [DELETE /bot/notes/{id}], absent from the source tree. It takes no
    credential and no account; it deletes by id, an unknown id being
    [NotFound] as everywhere in the taxonomy. *)
Definition bot_delete_note (note_id : string) (store : NoteStore)
  : result NoteStore :=
  match store !! note_id with
  | None => Err NotFound
  | Some _ => Ok (delete note_id store)
  end.

End NoteAccess.

(** ** The bot of the integration guide (DISCORD_BOT_INTEGRATION.md)

    The guide's example is a Node process of its own: it has its own
    axios defaults, a console, and replies to Discord messages. *)

Module Bot.

Record BotWorld := {
  bot_headers : gmap string jsstring;     (* axios.defaults.headers.common *)
  bot_sent : list request;                (* requests issued, oldest first *)
  bot_console : list string;              (* console.error labels *)
  replies : list jsstring                 (* message.reply texts, oldest first *)
}.

Definition BotEff (A : Type) : Type := BotWorld -> A * BotWorld.

#[global] Instance BotEff_ret : MRet BotEff := fun A a w => (a, w).
#[global] Instance BotEff_bind : MBind BotEff :=
  fun A B k m w => let (a, w') := m w in k a w'.

Definition run {A} (m : BotEff A) (w : BotWorld) : BotWorld := snd (m w).
Definition value {A} (m : BotEff A) (w : BotWorld) : A := fst (m w).

Definition console_error (label : string) : BotEff unit :=
  fun w => (tt, {| bot_headers := bot_headers w; bot_sent := bot_sent w;
                   bot_console := bot_console w ++ [label];
                   replies := replies w |}).

(** [message.reply(text)]. *)
Definition reply (text : jsstring) : BotEff unit :=
  fun w => (tt, {| bot_headers := bot_headers w; bot_sent := bot_sent w;
                   bot_console := bot_console w;
                   replies := replies w ++ [text] |}).

(** One axios call of the bot. *)
Definition axios (net : server) (m : http_method) (url : jsstring)
           (data : jsval) : BotEff outcome :=
  fun w =>
    let req := {| req_method := m; req_url := url; req_data := data;
                  req_params := []; req_headers := bot_headers w |} in
    (net (length (bot_sent w)) req,
     {| bot_headers := bot_headers w; bot_sent := bot_sent w ++ [req];
        bot_console := bot_console w; replies := replies w |}).

Definition await {A} (p : BotEff outcome) (k : jsval -> BotEff (A + AxiosError))
  : BotEff (A + AxiosError) :=
  r ← p;
  match r with
  | Resolved data => k data
  | Rejected error => mret (inr error)
  end.

Definition try_catch {A} (body : BotEff (A + AxiosError))
           (handler : AxiosError -> BotEff A) : BotEff A :=
  r ← body;
  match r with
  | inl a => mret a
  | inr error => handler error
  end.

(** A parameter with a default value: the default replaces [undefined]. *)
Definition default_param (d v : jsval) : jsval :=
  match v with
  | JUndefined => d
  | _ => v
  end.

(** *** Built-ins the bot uses *)

(** [s.split(' ')]: the pieces between single spaces, at least one. *)
Fixpoint split_space (s : jsstring) : list jsstring :=
  match s with
  | [] => [[]]
  | c :: r =>
      if (c =? 32)%N then [] :: split_space r
      else match split_space r with
           | piece :: pieces => (c :: piece) :: pieces
           | [] => [[c]]
           end
  end.

(** The characters [encodeURIComponent] leaves alone: ASCII letters and
    digits and [- _ . ! ~ * ' ( )]. *)
Definition is_unreserved (c : N) : bool :=
  ((65 <=? c) && (c <=? 90) || (97 <=? c) && (c <=? 122)
   || (48 <=? c) && (c <=? 57)
   || (c =? 45) || (c =? 95) || (c =? 46) || (c =? 33) || (c =? 126)
   || (c =? 42) || (c =? 39) || (c =? 40) || (c =? 41))%N.

(** An unreserved character or a percent sign. *)
Definition uri_safe (c : N) : Prop := is_unreserved c = true \/ c = 37%N.

Definition hex_digit (n : N) : N := (if n <? 10 then 48 + n else 55 + n)%N.

(** [%XX] for one octet, in upper-case hexadecimal. *)
Definition percent (b : N) : jsstring :=
  [37%N; hex_digit (b / 16); hex_digit (b mod 16)].

(** The UTF-8 octets of a code point. *)
Definition utf8 (v : N) : list N :=
  (if v <? 128 then [v]
   else if v <? 2048 then [192 + v / 64; 128 + v mod 64]
   else if v <? 65536
   then [224 + v / 4096; 128 + (v / 64) mod 64; 128 + v mod 64]
   else [240 + v / 262144; 128 + (v / 4096) mod 64;
         128 + (v / 64) mod 64; 128 + v mod 64])%N.

Definition is_high_surrogate (c : N) : bool := ((55296 <=? c) && (c <=? 56319))%N.
Definition is_low_surrogate (c : N) : bool := ((56320 <=? c) && (c <=? 57343))%N.

(** [encodeURIComponent(s)]: [None] is the URIError raised on a surrogate
    without its pair. *)
Fixpoint encodeURIComponent (s : jsstring) : option jsstring :=
  match s with
  | [] => Some []
  | c :: r =>
      if is_unreserved c
      then option_map (cons c) (encodeURIComponent r)
      else if is_low_surrogate c then None
      else if is_high_surrogate c
      then match r with
           | k :: r' =>
               if is_low_surrogate k
               then option_map
                      (app (concat (map percent
                                      (utf8 ((c - 55296) * 1024
                                             + (k - 56320) + 65536)%N))))
                      (encodeURIComponent r')
               else None
           | [] => None
           end
      else option_map (app (concat (map percent (utf8 c))))
             (encodeURIComponent r)
  end.

(** [v.length]: [None] is the TypeError on [null] and [undefined]. *)
Definition js_length (v : jsval) : option jsval :=
  match v with
  | JUndefined | JNull => None
  | JArr l => Some (JNum (Z.of_nat (length l)))
  | JStr s => Some (JNum (Z.of_nat (length s)))
  | JObj fields => Some (assoc "length" fields)
  | _ => Some JUndefined
  end.

(** [v === 0]. *)
Definition is_zero (v : jsval) : bool :=
  match v with
  | JNum z => z =? 0
  | _ => false
  end.

Section NotesBot.

Variable net : server.

(** The lower-casing of [String.prototype.toLowerCase], whose table is
    Unicode's. *)
Variable toLowerCase : jsstring -> jsstring.

Definition API_BASE : jsstring :=
  lit "https://discord-notes.preview.emergentagent.com/api".

(** *** class NotesBot *)

Definition addNote (userId content serverInfo : jsval) : BotEff jsval :=
  let serverInfo := default_param (JObj []) serverInfo in
  try_catch
    (match
        (server_id ← get_prop serverInfo "serverId";
         server_name ← get_prop serverInfo "serverName";
         channel_id ← get_prop serverInfo "channelId";
         channel_name ← get_prop serverInfo "channelName";
         Some (JObj [("discord_user_id"%string, userId);
                     ("content"%string, content);
                     ("server_id"%string, server_id);
                     ("server_name"%string, server_name);
                     ("channel_id"%string, channel_id);
                     ("channel_name"%string, channel_name)]))
      with
      | None => mret (inr TypeError)
      | Some body =>
          await (axios net POST (API_BASE ++ lit "/notes") body)
            (fun data => mret (inl data))
      end)
    (fun error => console_error "Failed to add note:";; mret JNull).

Definition getUserNotes (userId limit : jsval) : BotEff jsval :=
  let limit := default_param (JNum 10) limit in
  try_catch
    (await (axios net GET
              (API_BASE ++ lit "/bot/notes/" ++ to_string userId
                 ++ lit "?limit=" ++ to_string limit) JUndefined)
       (fun data => mret (inl data)))
    (fun error => console_error "Failed to get notes:";; mret (JArr [])).

Definition searchNotes (userId query limit : jsval) : BotEff jsval :=
  let limit := default_param (JNum 5) limit in
  try_catch
    (match encodeURIComponent (to_string query) with
     | None => mret (inr TypeError)
     | Some q =>
         await (axios net GET
                  (API_BASE ++ lit "/bot/notes/" ++ to_string userId
                     ++ lit "/search?q=" ++ q
                     ++ lit "&limit=" ++ to_string limit) JUndefined)
           (fun data => mret (inl data))
     end)
    (fun error => console_error "Failed to search notes:";; mret (JArr [])).

Definition deleteNote (noteId : jsval) : BotEff jsval :=
  try_catch
    (await (axios net DELETE
              (API_BASE ++ lit "/bot/notes/" ++ to_string noteId) JUndefined)
       (fun _ => mret (inl (JBool true))))
    (fun error => console_error "Failed to delete note:";; mret (JBool false)).

(** *** The [messageCreate] handler *)

(** The parts of a Discord message the handler reads. *)
Record Message := {
  author_bot : jsval;     (* message.author.bot *)
  author_id : jsval;      (* message.author.id *)
  content : jsstring;     (* message.content *)
  guild : jsval;          (* message.guild, null outside a server *)
  channel : jsval         (* message.channel *)
}.

(** [text.substring(0, n)] followed by [...] when [text] is longer. *)
Definition preview (n : nat) (text : jsstring) : jsstring :=
  take n text ++ (if (n <? length text)%nat then lit "..." else []).

(** The line of one note in the answer to [!notes]; [None] is a
    TypeError: a nullish note, or a content that is not a string. *)
Definition notes_line (note : jsval) (index : nat) : option jsval :=
  content ← get_prop note "content";
  match content with
  | JStr text =>
      id ← get_prop note "id";
      Some (JStr (to_string (JNum (Z.of_nat index + 1)) ++ lit ". **"
                    ++ preview 50 text ++ lit "** (ID: " ++ to_string id
                    ++ lit ")"))
  | _ => None
  end.

(** The line of one note in the answer to [!search]; it starts with a
    bullet, U+2022. *)
Definition search_line (note : jsval) : option jsval :=
  content ← get_prop note "content";
  match content with
  | JStr text =>
      id ← get_prop note "id";
      Some (JStr ([8226%N] ++ lit " **" ++ preview 100 text
                    ++ lit "** (ID: " ++ to_string id ++ lit ")"))
  | _ => None
  end.

(** [notes.map((note, index) => ...)], on an array only. *)
Fixpoint map_indexed (f : jsval -> nat -> option jsval) (l : list jsval)
         (index : nat) : option (list jsval) :=
  match l with
  | [] => Some []
  | x :: r =>
      y ← f x index;
      ys ← map_indexed f r (S index);
      Some (y :: ys)
  end.

(** The emoji of the replies, as UTF-16. *)
Definition check_mark : jsstring := [9989%N].              (* U+2705 *)
Definition cross_mark : jsstring := [10060%N].             (* U+274C *)
Definition memo : jsstring := [55357%N; 56541%N].          (* U+1F4DD *)
Definition magnifier : jsstring := [55357%N; 56589%N].     (* U+1F50D *)

Definition on_note (message : Message) (args : list jsstring)
  : BotEff (completion unit) :=
  if bool_decide (args !! 1%nat = Some (lit "add")) && (2 <? length args)%nat
  then
    let content := join (lit " ") (map JStr (drop 2 args)) in
    match
      (channelId ← get_prop (channel message) "id";
       channelName ← get_prop (channel message) "name";
       Some (JObj [("serverId"%string, opt_prop (guild message) "id");
                   ("serverName"%string, opt_prop (guild message) "name");
                   ("channelId"%string, channelId);
                   ("channelName"%string, channelName)]))
    with
    | None => mret Threw
    | Some serverInfo =>
        note ← addNote (author_id message) (JStr content) serverInfo;
        (if truthy note
         then reply (check_mark ++ lit " Note saved! ID: "
                       ++ to_string (opt_prop note "id"))
         else reply (cross_mark ++ lit " Failed to save note."));;
        mret (Returned tt)
    end
  else mret (Returned tt).

Definition on_notes (message : Message) : BotEff (completion unit) :=
  notes ← getUserNotes (author_id message) (JNum 5);
  match js_length notes with
  | None => mret Threw
  | Some len =>
      if is_zero len
      then reply (memo ++ lit " You have no notes yet.");;
           mret (Returned tt)
      else
        match notes with
        | JArr l =>
            match map_indexed notes_line l 0 with
            | None => mret Threw
            | Some lines =>
                reply (memo ++ lit " Your recent notes:" ++ [10%N]
                         ++ join [10%N] lines);;
                mret (Returned tt)
            end
        | _ => mret Threw
        end
  end.

Definition on_search (message : Message) (args : list jsstring)
  : BotEff (completion unit) :=
  if (1 <? length args)%nat
  then
    let query := join (lit " ") (map JStr (drop 1 args)) in
    results ← searchNotes (author_id message) (JStr query) JUndefined;
    match js_length results with
    | None => mret Threw
    | Some len =>
        if is_zero len
        then reply (magnifier ++ lit " No notes found for " ++ [34%N] ++ query
                      ++ [34%N] ++ lit ".");;
             mret (Returned tt)
        else
          match results with
          | JArr l =>
              match map_indexed (fun note _ => search_line note) l 0 with
              | None => mret Threw
              | Some lines =>
                  reply (magnifier ++ lit " Search results for " ++ [34%N]
                           ++ query ++ [34%N] ++ lit ":" ++ [10%N]
                           ++ join [10%N] lines);;
                  mret (Returned tt)
              end
          | _ => mret Threw
          end
    end
  else mret (Returned tt).

Definition on_delete (message : Message) (args : list jsstring)
  : BotEff (completion unit) :=
  if (1 <? length args)%nat
  then
    let noteId := default [] (args !! 1%nat) in
    success ← deleteNote (JStr noteId);
    (if truthy success
     then reply (check_mark ++ lit " Note deleted successfully!")
     else reply (cross_mark ++ lit " Failed to delete note. Check the note ID."));;
    mret (Returned tt)
  else mret (Returned tt).

Definition on_messageCreate (message : Message) : BotEff (completion unit) :=
  if truthy (author_bot message) then mret (Returned tt)
  else
    let args := split_space (content message) in
    let command := toLowerCase (default [] (args !! 0%nat)) in
    if bool_decide (command = lit "!note") then on_note message args
    else if bool_decide (command = lit "!notes") then on_notes message
    else if bool_decide (command = lit "!search") then on_search message args
    else if bool_decide (command = lit "!delete") then on_delete message args
    else mret (Returned tt).

End NotesBot.

(** *** Vocabulary for the properties *)

(** A word: no space in it. *)
Definition no_space (s : jsstring) : Prop :=
  forallb (fun c => negb (c =? 32)%N) s = true.

(** A call of the API by the bot: at most one request, sent under the
    default headers, which stay as they are, and no reply. *)
Definition api_call (w w' : BotWorld) : Prop :=
  bot_headers w' = bot_headers w
  /\ replies w' = replies w
  /\ exists new, bot_sent w' = bot_sent w ++ new
                 /\ (length new <= 1)%nat
                 /\ Forall (fun r => req_headers r = bot_headers w) new.

(** What handling one message may do to the bot: the axios defaults stay,
    at most one request goes out, under those defaults, at most one reply
    is given, and a handler that sent a request and returned did reply. *)
Definition handled (w w' : BotWorld) (result : completion unit) : Prop :=
  bot_headers w' = bot_headers w
  /\ (exists new, bot_sent w' = bot_sent w ++ new
                  /\ (length new <= 1)%nat
                  /\ Forall (fun r => req_headers r = bot_headers w) new)
  /\ (exists out, replies w' = replies w ++ out /\ (length out <= 1)%nat)
  /\ (result = Returned tt -> bot_sent w' <> bot_sent w ->
      exists text, replies w' = replies w ++ [text]).

End Bot.

(** ** Requests, credentials and sessions, as the specification speaks of them *)

Module Requests.

(** The request the specification expects of [login]: a POST to
    [/auth/login] whose body has the two fields and nothing else, under
    the default headers of the moment. *)
Definition login_request (BACKEND_URL : jsval) (discordUserId password : jsstring)
           (w : World) : request :=
  {| req_method := POST;
     req_url := Revised.API BACKEND_URL ++ lit "/auth/login";
     req_data := JObj [("discord_user_id"%string, JStr discordUserId);
                       ("password"%string, JStr password)];
     req_params := [];
     req_headers := headers_common w |}.

(** The request expected of [register]: the three fields. *)
Definition register_request (BACKEND_URL : jsval)
           (discordUserId username password : jsstring) (w : World) : request :=
  {| req_method := POST;
     req_url := Revised.API BACKEND_URL ++ lit "/auth/register";
     req_data := JObj [("discord_user_id"%string, JStr discordUserId);
                       ("username"%string, JStr username);
                       ("password"%string, JStr password)];
     req_params := [];
     req_headers := headers_common w |}.

(** The current-account fetch, [GET /auth/me]. *)
Definition me_request (BACKEND_URL : jsval) (w : World) : request :=
  {| req_method := GET;
     req_url := Revised.API BACKEND_URL ++ lit "/auth/me";
     req_data := JUndefined;
     req_params := [];
     req_headers := headers_common w |}.

(** The list request, [GET /notes], with the given query parameters. *)
Definition notes_request (BACKEND_URL : jsval)
           (params : list (string * jsval)) (w : World) : request :=
  {| req_method := GET;
     req_url := Revised.API BACKEND_URL ++ lit "/notes";
     req_data := JUndefined;
     req_params := params;
     req_headers := headers_common w |}.

(** [Bearer <token>]. *)
Definition bearer (tok : jsstring) : jsstring := lit "Bearer " ++ tok.

(** The token is persisted and installed as the default credential. *)
Definition installed (tok : jsstring) (w : World) : Prop :=
  localStorage w !! "token"%string = Some tok
  /\ headers_common w !! "Authorization"%string = Some (bearer tok).

(** The request carries the token as a bearer credential. *)
Definition carries (tok : jsstring) (r : request) : Prop :=
  req_headers r !! "Authorization"%string = Some (bearer tok).

(** What the user does on the dashboard, each step calling the API. *)
Inductive dashboard_call :=
| CallFetchNotes (arg : option jsstring)
| CallHandleSearch
| CallHandleSaveEdit (noteId : jsval)
| CallHandleDelete (confirmed : bool) (noteId : jsval).

Definition run_call (net : server) (BACKEND_URL : jsval) (c : dashboard_call)
  : Eff unit :=
  match c with
  | CallFetchNotes arg => Revised.fetchNotes net BACKEND_URL arg
  | CallHandleSearch => Revised.handleSearch net BACKEND_URL
  | CallHandleSaveEdit noteId => Revised.handleSaveEdit net BACKEND_URL noteId
  | CallHandleDelete confirmed noteId =>
      Revised.handleDelete net BACKEND_URL confirmed noteId
  end.

Fixpoint run_calls (net : server) (BACKEND_URL : jsval)
         (cs : list dashboard_call) : Eff unit :=
  match cs with
  | [] => mret tt
  | c :: r => run_call net BACKEND_URL c;; run_calls net BACKEND_URL r
  end.

(** From [w] on, as long as the credential stays installed, whatever the
    user does on the dashboard goes out with the token. *)
Definition dashboard_carries (net : server) (BACKEND_URL : jsval)
           (tok : jsstring) (w : World) : Prop :=
  installed tok w ->
  forall cs : list dashboard_call,
    let w' := exec (run_calls net BACKEND_URL cs) w in
    installed tok w'
    /\ exists new, sent w' = sent w ++ new /\ Forall (carries tok) new.

(** [w'] comes from [w] by API calls that left the credentials alone:
    storage, default headers and provider state are the same, and every
    request issued in between went out under those default headers. *)
Definition same_credentials (w w' : World) : Prop :=
  localStorage w' = localStorage w
  /\ headers_common w' = headers_common w
  /\ provider w' = provider w
  /\ exists new, sent w' = sent w ++ new
       /\ Forall (fun r => req_headers r = headers_common w) new.

End Requests.

Import Requests.

(** Unfolds the sequencing of effects, leaving the world transformers
    [with_...] and the calls of [net] in place. *)
Ltac eff_run :=
  cbv beta iota zeta delta
    [try_catch await axios setItem removeItem set_header delete_header
     in_provider in_auth in_dashboard console_error modify get
     mbind Eff_bind mret Eff_ret exec eval fst snd].

(** ** Sample data *)

Module Samples.

Definition backend : jsval := JStr (lit "http://localhost:8001").

Definition alice_id : jsstring := lit "111111111111111111".

Definition fresh_form : Auth.state :=
  {| Auth.isLogin := true;
     Auth.discordUserId := alice_id;
     Auth.username := [];
     Auth.password := lit "secret1";
     Auth.showPassword := false;
     Auth.error := JStr [];
     Auth.fieldErrors := ∅;
     Auth.loading := false |}.

(** A registration form whose id is too short. *)
Definition short_id_form : Auth.state :=
  {| Auth.isLogin := false;
     Auth.discordUserId := lit "12345";
     Auth.username := lit "alice";
     Auth.password := lit "secret1";
     Auth.showPassword := false;
     Auth.error := JStr [];
     Auth.fieldErrors := ∅;
     Auth.loading := false |}.

Definition empty_dashboard : Dashboard.state :=
  {| Dashboard.notes := JArr [];
     Dashboard.searchTerm := [];
     Dashboard.loading := true;
     Dashboard.searchLoading := false;
     Dashboard.editingNote := JNull;
     Dashboard.editContent := JStr [] |}.

(** The page just loaded, nobody signed in. *)
Definition signed_out (form : Auth.state) : World :=
  {| localStorage := ∅;
     headers_common := {[ "Content-Type"%string := lit "application/json" ]};
     provider := {| AuthProvider.user := JNull;
                    AuthProvider.token := JNull;
                    AuthProvider.loading := false |};
     auth := form;
     dashboard := empty_dashboard;
     sent := [];
     console := [] |}.

(** The page reloaded with a token left in [localStorage]. *)
Definition returning : World :=
  with_localStorage (fun m => <["token"%string := lit "tok-1"]> m)
    (signed_out fresh_form).

Definition unauthorized : AxiosError :=
  {| response :=
       JObj [("status"%string, JNum 401);
             ("data"%string,
              JObj [("detail"%string,
                     JStr (lit "Incorrect Discord User ID or password"))])] |}.

(** A server that refuses everything. *)
Definition refusing : server := fun _ _ => Rejected unauthorized.

Definition token_response : jsval :=
  JObj [("access_token"%string, JStr (lit "tok-1"));
        ("token_type"%string, JStr (lit "bearer"))].

(** A server that answers every request with a token response. *)
Definition granting : server := fun _ _ => Resolved token_response.

Definition milk : NoteAccess.Note :=
  {| NoteAccess.owner_external_id := "111111111111111111";
     NoteAccess.content := "buy milk";
     NoteAccess.server_id := None;
     NoteAccess.server_name := None;
     NoteAccess.channel_id := None;
     NoteAccess.channel_name := None;
     NoteAccess.created_at := 0;
     NoteAccess.updated_at := 0 |}.

Definition one_note : gmap string NoteAccess.Note :=
  {[ "n1"%string := milk ]}.

End Samples.

(** ** More sample data *)

Module Scenes.

Definition alice_account : jsval :=
  JObj [("discord_user_id"%string, JStr (lit "111111111111111111"));
        ("username"%string, JStr (lit "alice"))].

(** A server that grants every POST a token and answers every GET with
    Alice's account. *)
Definition welcoming : server :=
  fun _ r =>
    match req_method r with
    | POST => Resolved Samples.token_response
    | _ => Resolved alice_account
    end.

(** Lower-casing of the ASCII letters, other code units unchanged. *)
Definition ascii_lower (s : jsstring) : jsstring :=
  map (fun c => if ((65 <=? c) && (c <=? 90))%N then (c + 32)%N else c) s.

(** The bot just started. *)
Definition bot_start : Bot.BotWorld :=
  {| Bot.bot_headers := {[ "Content-Type"%string := lit "application/json" ]};
     Bot.bot_sent := [];
     Bot.bot_console := [];
     Bot.replies := [] |}.

Definition general : jsval :=
  JObj [("id"%string, JStr (lit "456")); ("name"%string, JStr (lit "general"))].

(** A message typed by Alice in a direct conversation. *)
Definition typed (text : string) : Bot.Message :=
  {| Bot.author_bot := JBool false;
     Bot.author_id := JStr (lit "111111111111111111");
     Bot.content := lit text;
     Bot.guild := JNull;
     Bot.channel := general |}.

(** A server that stores every note under the id [n1]. *)
Definition storing : server :=
  fun _ _ => Resolved (JObj [("id"%string, JStr (lit "n1"))]).

End Scenes.

(** Unfolds the sequencing of the bot's effects. *)
Ltac bot_run :=
  cbv beta iota zeta delta
    [Bot.try_catch Bot.await Bot.axios Bot.console_error Bot.reply
     mbind Bot.BotEff_bind mret Bot.BotEff_ret Bot.run Bot.value fst snd].

(** * Properties *)

(** ** Strings and numbers *)

Section StringFacts.

Lemma trim_nil : trim [] = [].
Proof. reflexivity. Qed.

Lemma truthy_JStr (s : jsstring) : truthy (JStr s) = true <-> s <> [].
Proof. destruct s; simpl; split; congruence. Qed.

Lemma truthy_lit_cons a s : truthy (JStr (lit (String a s))) = true.
Proof. reflexivity. Qed.

Lemma is_digit_not_whitespace c : is_digit c = true -> is_whitespace c = false.
Proof.
  unfold is_digit. intros [H1%N.leb_le H2%N.leb_le]%andb_prop.
  assert (Hc : (c = 48 \/ c = 49 \/ c = 50 \/ c = 51 \/ c = 52 \/ c = 53
                \/ c = 54 \/ c = 55 \/ c = 56 \/ c = 57)%N) by lia.
  repeat destruct Hc as [-> | Hc]; try subst c; reflexivity.
Qed.

Lemma take_digits_all (s : jsstring) :
  forallb is_digit s = true -> take_digits s = s.
Proof.
  induction s as [|c r IH]; simpl; [reflexivity|].
  intros [Hc Hr]%andb_prop. rewrite Hc, IH; auto.
Qed.

Lemma digit_value_range c : is_digit c = true -> 0 <= digit_value c <= 9.
Proof.
  unfold is_digit, digit_value.
  intros [H1%N.leb_le H2%N.leb_le]%andb_prop. lia.
Qed.

Lemma fold_decimal_nonneg (s : jsstring) : forall acc,
  forallb is_digit s = true -> 0 <= acc ->
  0 <= fold_left (fun a c => 10 * a + digit_value c) s acc.
Proof.
  induction s as [|c r IH]; simpl; intros acc H Hacc; [assumption|].
  apply andb_prop in H as [Hc Hr]. apply IH; [assumption|].
  pose proof (digit_value_range c Hc). lia.
Qed.

Lemma decimal_value_nonneg (s : jsstring) :
  forallb is_digit s = true -> 0 <= decimal_value s.
Proof. intros H. apply fold_decimal_nonneg; [assumption|lia]. Qed.

Lemma parseInt_digits (s : jsstring) :
  matches_digits s = true ->
  parseInt s = Some (to_number (decimal_value s)).
Proof.
  unfold matches_digits, parseInt. destruct s as [|c r]; [discriminate|].
  intros H. assert (Hc : is_digit c = true).
  { simpl in H. apply andb_prop in H. tauto. }
  cbn [trimStart]. rewrite (is_digit_not_whitespace c Hc).
  rewrite (take_digits_all _ H). reflexivity.
Qed.

Lemma to_number_small n : 0 <= n -> Z.log2 n < 53 -> n < 2 ^ 53.
Proof.
  intros Hn He. destruct (Z.eq_dec n 0) as [->|Hz]; [reflexivity|].
  apply Z.log2_lt_pow2; lia.
Qed.

Lemma to_number_threshold n :
  0 <= n ->
  (to_number n <? 100000000000000000) = (n <? 99999999999999992).
Proof.
  intros Hn. unfold to_number.
  destruct (Z.ltb_spec (Z.log2 n) 53) as [He|He].
  - pose proof (to_number_small n Hn He) as Hs.
    change (2 ^ 53) with 9007199254740992 in Hs.
    destruct (Z.ltb_spec n 100000000000000000), (Z.ltb_spec n 99999999999999992); lia.
  - assert (Hpos : 0 < n).
    { destruct (Z.eq_dec n 0) as [->|]; [simpl in He|]; lia. }
    pose proof (Z.log2_spec n Hpos) as [Hlo Hhi].
    set (e := Z.log2 n) in *.
    set (sh := e - 52).
    assert (Hsh : 1 <= sh) by (unfold sh; lia).
    rewrite Z.shiftr_div_pow2, Z.land_ones, !Z.shiftl_mul_pow2 by lia.
    set (P := 2 ^ sh). set (H := 2 ^ (sh - 1)).
    assert (HP : P = 2 * H).
    { unfold P, H. replace sh with (Z.succ (sh - 1)) at 1 by lia.
      rewrite Z.pow_succ_r by lia. reflexivity. }
    assert (HH : 1 <= H).
    { unfold H. pose proof (Z.pow_pos_nonneg 2 (sh - 1)). lia. }
    assert (Hlo' : 2 ^ 52 * P <= n).
    { unfold P. rewrite <- Z.pow_add_r by lia. replace (52 + sh) with e by (unfold sh; lia). exact Hlo. }
    assert (Hhi' : n < 2 ^ 53 * P).
    { unfold P. rewrite <- Z.pow_add_r by lia. replace (53 + sh) with (Z.succ e) by (unfold sh; lia). exact Hhi. }
    change (2 ^ 52) with 4503599627370496 in Hlo'.
    change (2 ^ 53) with 9007199254740992 in Hhi'.
    pose proof (Z.div_mod n P ltac:(lia)) as Hdm.
    pose proof (Z.mod_pos_bound n P ltac:(lia)) as Hr.
    set (q := n / P) in *. set (r := n mod P) in *.
    assert (Hq : 4503599627370496 <= q < 9007199254740992) by nia.
    rewrite Z.mul_1_l.
    destruct (Z.le_gt_cases 5 sh) as [Hbig|Hsmall].
    + (* the value is at least 2^57 *)
      assert (32 <= P).
      { unfold P. change 32 with (2 ^ 5). apply Z.pow_le_mono_r; lia. }
      assert (Hres : forall q', q <= q' -> (q' * P <? 100000000000000000) = (n <? 99999999999999992)).
      { intros q' Hq'. 
        destruct (Z.ltb_spec (q' * P) 100000000000000000), (Z.ltb_spec n 99999999999999992); nia. }
      destruct (r <? H); [apply Hres; lia|].
      destruct (H <? r); [apply Hres; lia|].
      destruct (Z.even q); apply Hres; lia.
    + assert (HshC : sh = 1 \/ sh = 2 \/ sh = 3 \/ sh = 4) by lia.
      assert (HPH : (P = 2 /\ H = 1) \/ (P = 4 /\ H = 2) \/ (P = 8 /\ H = 4) \/ (P = 16 /\ H = 8)).
      { unfold P, H. clearbody sh. destruct HshC as [ -> | [ -> | [ -> | -> ] ] ]; simpl; lia. }
      clearbody P H q r. clear HshC Hsmall Hsh sh Hlo Hhi He e.
      destruct (Z.ltb_spec r H) as [C1|C1].
      { destruct (Z.ltb_spec (q * P) 100000000000000000), (Z.ltb_spec n 99999999999999992); lia. }
      destruct (Z.ltb_spec H r) as [C2|C2].
      { destruct (Z.ltb_spec ((q + 1) * P) 100000000000000000), (Z.ltb_spec n 99999999999999992); lia. }
      destruct (Z.even q) eqn:Ev.
      { apply Z.even_spec in Ev as [k Hk].
        destruct (Z.ltb_spec (q * P) 100000000000000000), (Z.ltb_spec n 99999999999999992); lia. }
      { assert (Od : Z.odd q = true) by (rewrite <- Z.negb_even, Ev; reflexivity).
        apply Z.odd_spec in Od as [k Hk].
        destruct (Z.ltb_spec ((q + 1) * P) 100000000000000000), (Z.ltb_spec n 99999999999999992); lia. }
Qed.

End StringFacts.

(** ** The validators *)

(** C6. [validateUsername] returns [null] for exactly the inputs whose
    trimmed value is non-empty and 2 to 32 code units long; a trimmed name
    that is shorter or longer gets an error message, a non-empty string. *)
Theorem validateUsername_null_iff (username : jsstring) :
  (validateUsername username = JNull <->
   trim username <> [] /\ (2 <= length (trim username) <= 32)%nat)
  /\ ((length (trim username) < 2 \/ 32 < length (trim username))%nat ->
      exists msg, validateUsername username = JStr msg /\ msg <> []).
Proof.
  unfold validateUsername.
  assert (Hempty : username = [] -> trim username = []) by (intros ->; reflexivity).
  destruct username as [|c r] eqn:Hu.
  - cbn. split; [split; [discriminate|intros [H _]; congruence]|].
    intros _. eexists; split; [reflexivity|discriminate].
  - rewrite <- Hu in *. clear Hempty.
    replace (truthy (JStr username)) with true by (rewrite Hu; reflexivity).
    cbn [negb orb].
    destruct (trim username) as [|t ts] eqn:Ht.
    + cbn. split; [split; [discriminate|intros [H _]; congruence]|].
      intros _. eexists; split; [reflexivity|discriminate].
    + cbn [truthy negb].
      destruct (Nat.ltb_spec (length (t :: ts)) 2) as [H2|H2].
      * split; [split; [discriminate|intros [_ H]; lia]|].
        intros _. eexists; split; [reflexivity|discriminate].
      * destruct (Nat.ltb_spec 32 (length (t :: ts))) as [H32|H32].
        -- split; [split; [discriminate|intros [_ H]; lia]|].
           intros _. eexists; split; [reflexivity|discriminate].
        -- split; [split; [intros _; split; [discriminate|lia]|reflexivity]|].
           intros H. lia.
Qed.

Lemma validateUsername_null_iff_witness :
  (length (trim (lit " a ")) < 2 \/ 32 < length (trim (lit " a ")))%nat
  /\ exists msg, validateUsername (lit " a ") = JStr msg /\ msg <> [].
Proof.
  assert (H : (length (trim (lit " a ")) < 2
               \/ 32 < length (trim (lit " a ")))%nat).
  { left. vm_compute. lia. }
  split; [exact H|].
  exact (proj2 (validateUsername_null_iff (lit " a ")) H).
Defined.

(** C9, as the code has it. [validateDiscordUserId] accepts an input
    exactly when its trimmed value is one or more digits, 17 to 19 of
    them, and the Number [parseInt] returns for it is at least 10^17.
    That Number is the double nearest to the integer the digits denote,
    so the last condition holds exactly from 99999999999999992 on: every
    17-digit id below that is rejected, the eight from there to
    99999999999999999 are accepted. *)
Theorem validateDiscordUserId_null_iff (id : jsstring) :
  (validateDiscordUserId id = JNull <->
   matches_digits (trim id) = true
   /\ (17 <= length (trim id) <= 19)%nat
   /\ exists v, parseInt (trim id) = Some v /\ 100000000000000000 <= v)
  /\ (validateDiscordUserId id = JNull <->
      matches_digits (trim id) = true
      /\ (17 <= length (trim id) <= 19)%nat
      /\ 99999999999999992 <= decimal_value (trim id)).
Proof.
  assert (Hcore :
    validateDiscordUserId id = JNull <->
    matches_digits (trim id) = true
    /\ (17 <= length (trim id) <= 19)%nat
    /\ num_lt (parseInt (trim id)) 100000000000000000 = false).
  { unfold validateDiscordUserId.
    destruct id as [|c r] eqn:Hid.
    { cbn. split; [discriminate|intros [H _]; discriminate]. }
    rewrite <- Hid. 
    replace (truthy (JStr id)) with true by (rewrite Hid; reflexivity).
    cbn [negb orb].
    destruct (trim id) as [|t ts] eqn:Ht.
    { cbn. split; [discriminate|intros [H _]; discriminate]. }
    cbn [truthy negb].
    destruct (matches_digits (t :: ts)) eqn:Hm; cbn [negb];
      [|split; [discriminate|intros [H _]; discriminate]].
    destruct (Nat.ltb_spec (length (t :: ts)) 17) as [H17|H17]; cbn [orb];
      [split; [discriminate|intros (_ & H & _); lia]|].
    destruct (Nat.ltb_spec 19 (length (t :: ts))) as [H19|H19];
      [split; [discriminate|intros (_ & H & _); lia]|].
    destruct (num_lt (parseInt (t :: ts)) 100000000000000000);
      [split; [discriminate|intros (_ & _ & H); discriminate]|].
    split; [intros _; repeat split; lia|reflexivity]. }
  split; rewrite Hcore; split; intros (Hm & Hlen & Hnum);
    (split; [exact Hm|split; [exact Hlen|]]);
    pose proof (parseInt_digits _ Hm) as Hp;
    assert (Hd : forallb is_digit (trim id) = true)
      by (unfold matches_digits in Hm; destruct (trim id); [discriminate|exact Hm]);
    pose proof (decimal_value_nonneg _ Hd) as Hnn;
    pose proof (to_number_threshold _ Hnn) as Hthr.
  - exists (to_number (decimal_value (trim id))). split; [exact Hp|].
    rewrite Hp in Hnum. cbn [num_lt] in Hnum. apply Z.ltb_ge in Hnum. exact Hnum.
  - destruct Hnum as (v & Hv & Hge). rewrite Hv. cbn [num_lt]. apply Z.ltb_ge. exact Hge.
  - rewrite Hp in Hnum. cbn [num_lt] in Hnum. rewrite Hthr in Hnum.
    apply Z.ltb_ge in Hnum. exact Hnum.
  - rewrite Hp. cbn [num_lt]. rewrite Hthr. apply Z.ltb_ge. exact Hnum.
Qed.

(** C9 as stated fails: the 17-digit id 99999999999999999 denotes an
    integer below 10^17 and is accepted, because [parseInt] rounds it up
    to 10^17. *)
Lemma validateDiscordUserId_accepts_17_digits :
  validateDiscordUserId (lit "99999999999999999") = JNull
  /\ length (trim (lit "99999999999999999")) = 17%nat
  /\ decimal_value (trim (lit "99999999999999999")) < 100000000000000000
  /\ parseInt (trim (lit "99999999999999999")) = Some 100000000000000000.
Proof. vm_compute. repeat split. Qed.

(** ** Running the handlers *)

Section Runs.

Variable net : server.
Variable BACKEND_URL : jsval.

Lemma catch_message_total (fallback : string) (error : AxiosError) :
  js_or (Revised.detail_of error)
    (cond ← js_and (Revised.detail_of error)
              (d ← Revised.strict_detail error; Some (JBool (isArray d)));
     if truthy cond
     then d ← Revised.strict_detail error; Revised.join_msgs d
     else Some (JStr (lit fallback)))
  = Some (js_or_else (Revised.detail_of error) (JStr (lit fallback))).
Proof.
  unfold js_or, js_and, js_or_else.
  destruct (truthy (Revised.detail_of error)) eqn:Ht; [reflexivity|].
  cbn. rewrite Ht. reflexivity.
Qed.

Lemma login_run (discordUserId password : jsstring) (w : World) :
  Revised.login net BACKEND_URL discordUserId password w =
  let req := login_request BACKEND_URL discordUserId password w in
  let w1 := with_sent (fun l => l ++ [req]) w in
  match net (length (sent w)) req with
  | Resolved data =>
      match get_prop data "access_token" with
      | Some access_token =>
          (Returned {| success := true; error := JUndefined |},
           with_provider (AuthProvider.setToken access_token)
             (with_headers (fun m => <["Authorization"%string :=
                                        lit "Bearer " ++ to_string access_token]> m)
                (with_localStorage
                   (fun m => <["token"%string := to_string access_token]> m) w1)))
      | None =>
          (Returned {| success := false; error := JStr (lit "Login failed") |}, w1)
      end
  | Rejected e =>
      (Returned {| success := false;
                   error := js_or_else (Revised.detail_of e)
                              (JStr (lit "Login failed")) |}, w1)
  end.
Proof.
  unfold Revised.login, login_request.
  pose proof (catch_message_total "Login failed") as Hc. revert Hc.
  eff_run. intros Hc.
  destruct (net _ _) as [data|e].
  - destruct (get_prop data "access_token"); [reflexivity|].
    rewrite Hc. reflexivity.
  - rewrite Hc. reflexivity.
Qed.

Lemma register_run (discordUserId username password : jsstring) (w : World) :
  Revised.register net BACKEND_URL discordUserId username password w =
  let req := register_request BACKEND_URL discordUserId username password w in
  let w1 := with_sent (fun l => l ++ [req]) w in
  match net (length (sent w)) req with
  | Resolved data =>
      match get_prop data "access_token" with
      | Some access_token =>
          (Returned {| success := true; error := JUndefined |},
           with_provider (AuthProvider.setToken access_token)
             (with_headers (fun m => <["Authorization"%string :=
                                        lit "Bearer " ++ to_string access_token]> m)
                (with_localStorage
                   (fun m => <["token"%string := to_string access_token]> m) w1)))
      | None =>
          (Returned {| success := false;
                       error := JStr (lit "Registration failed") |}, w1)
      end
  | Rejected e =>
      (Returned {| success := false;
                   error := js_or_else (Revised.detail_of e)
                              (JStr (lit "Registration failed")) |}, w1)
  end.
Proof.
  unfold Revised.register, register_request.
  pose proof (catch_message_total "Registration failed") as Hc. revert Hc.
  eff_run. intros Hc.
  destruct (net _ _) as [data|e].
  - destruct (get_prop data "access_token"); [reflexivity|].
    rewrite Hc. reflexivity.
  - rewrite Hc. reflexivity.
Qed.

Lemma original_login_run (discordUserId password : jsstring) (w : World) :
  Original.login net BACKEND_URL discordUserId password w =
  let req := login_request BACKEND_URL discordUserId password w in
  let w1 := with_sent (fun l => l ++ [req]) w in
  match net (length (sent w)) req with
  | Resolved data =>
      match get_prop data "access_token" with
      | Some access_token =>
          (Returned {| success := true; error := JUndefined |},
           with_provider (AuthProvider.setToken access_token)
             (with_headers (fun m => <["Authorization"%string :=
                                        lit "Bearer " ++ to_string access_token]> m)
                (with_localStorage
                   (fun m => <["token"%string := to_string access_token]> m) w1)))
      | None =>
          (Returned {| success := false; error := JStr (lit "Login failed") |}, w1)
      end
  | Rejected e =>
      (Returned {| success := false;
                   error := js_or_else (Revised.detail_of e)
                              (JStr (lit "Login failed")) |}, w1)
  end.
Proof.
  unfold Original.login, login_request. eff_run.
  destruct (net _ _) as [data|e]; [|reflexivity].
  destruct (get_prop data "access_token"); reflexivity.
Qed.

Lemma fetchUser_run (w : World) :
  Revised.fetchUser net BACKEND_URL w =
  let req := me_request BACKEND_URL w in
  let w1 := with_sent (fun l => l ++ [req]) w in
  (tt,
   with_provider (AuthProvider.setLoading false)
     match net (length (sent w)) req with
     | Resolved data => with_provider (AuthProvider.setUser data) w1
     | Rejected _ =>
         with_provider (AuthProvider.setUser JNull)
           (with_provider (AuthProvider.setToken JNull)
              (with_headers (fun m => delete "Authorization"%string m)
                 (with_localStorage (fun m => delete "token"%string m)
                    (with_console (fun l => l ++ ["Failed to fetch user:"%string])
                       w1))))
     end).
Proof.
  unfold Revised.fetchUser, Revised.logout, me_request. eff_run.
  destruct (net _ _); reflexivity.
Qed.

Lemma fetchNotes_run (arg : option jsstring) (w : World) :
  Revised.fetchNotes net BACKEND_URL arg w =
  let search := default [] arg in
  let params := if truthy (JStr search)
                then [("search"%string, JStr search)] else [] in
  let req := notes_request BACKEND_URL params w in
  let w1 := with_sent (fun l => l ++ [req])
              (with_dashboard (Dashboard.setSearchLoading (bool_decide (search <> [])))
                 (with_dashboard (Dashboard.setLoading (bool_decide (search = []))) w)) in
  (tt,
   with_dashboard (Dashboard.setSearchLoading false)
     (with_dashboard (Dashboard.setLoading false)
        match net (length (sent w)) req with
        | Resolved data => with_dashboard (Dashboard.setNotes data) w1
        | Rejected _ =>
            with_console (fun l => l ++ ["Failed to fetch notes:"%string]) w1
        end)).
Proof.
  unfold Revised.fetchNotes, notes_request. eff_run.
  destruct (net _ _); reflexivity.
Qed.

Lemma same_credentials_refl (w : World) : same_credentials w w.
Proof.
  repeat split. exists []. split; [symmetry; apply app_nil_r|constructor].
Qed.

Lemma same_credentials_trans (w1 w2 w3 : World) :
  same_credentials w1 w2 -> same_credentials w2 w3 -> same_credentials w1 w3.
Proof.
  intros (Hl1 & Hh1 & Hp1 & n1 & Hs1 & Hf1) (Hl2 & Hh2 & Hp2 & n2 & Hs2 & Hf2).
  repeat split; try congruence.
  exists (n1 ++ n2). split.
  - rewrite Hs2, Hs1. symmetry. apply app_assoc.
  - apply Forall_app. split; [exact Hf1|].
    rewrite <- Hh1. exact Hf2.
Qed.

Lemma fetchNotes_same_credentials (arg : option jsstring) (w : World) :
  same_credentials w (exec (Revised.fetchNotes net BACKEND_URL arg) w).
Proof.
  unfold exec. rewrite fetchNotes_run. cbv zeta. cbn [snd].
  set (req := notes_request _ _ _).
  assert (Hreq : req_headers req = headers_common w) by reflexivity.
  destruct (net _ _); repeat split;
    (exists [req]; split; [reflexivity|repeat constructor; exact Hreq]).
Qed.

Lemma handleSearch_same_credentials (w : World) :
  same_credentials w (exec (Revised.handleSearch net BACKEND_URL) w).
Proof. apply fetchNotes_same_credentials. Qed.

Lemma handleSaveEdit_same_credentials (noteId : jsval) (w : World) :
  same_credentials w (exec (Revised.handleSaveEdit net BACKEND_URL noteId) w).
Proof.
  unfold Revised.handleSaveEdit. eff_run.
  set (req := Build_request PUT _ _ _ _).
  assert (Hreq : req_headers req = headers_common w) by reflexivity.
  assert (Hstep : forall f g, same_credentials w
            (with_console f (with_dashboard g (with_sent (fun l => l ++ [req]) w)))).
  { intros f g. repeat split.
    exists [req]. split; [reflexivity|repeat constructor; exact Hreq]. }
  destruct (net _ _) as [data|e].
  - set (w2 := with_dashboard _ _).
    pose proof (fetchNotes_same_credentials
                  (Some (Dashboard.searchTerm (dashboard w))) w2) as Hf.
    unfold exec in Hf.
    destruct (Revised.fetchNotes _ _ _ w2) as [u w3]. cbn [snd] in *.
    refine (same_credentials_trans _ w2 _ _ Hf).
    apply (Hstep (fun l => l) (Dashboard.setEditingNote JNull)).
  - cbn [snd]. apply (Hstep _ (fun d => d)).
Qed.

Lemma handleDelete_same_credentials (confirmed : bool) (noteId : jsval)
      (w : World) :
  same_credentials w
    (exec (Revised.handleDelete net BACKEND_URL confirmed noteId) w).
Proof.
  unfold Revised.handleDelete. eff_run.
  destruct confirmed; [|apply same_credentials_refl].
  set (req := Build_request DELETE _ _ _ _).
  assert (Hreq : req_headers req = headers_common w) by reflexivity.
  assert (Hstep : forall f, same_credentials w
            (with_console f (with_sent (fun l => l ++ [req]) w))).
  { intros f. repeat split.
    exists [req]. split; [reflexivity|repeat constructor; exact Hreq]. }
  destruct (net _ _) as [data|e].
  - set (w2 := with_sent _ _).
    pose proof (fetchNotes_same_credentials
                  (Some (Dashboard.searchTerm (dashboard w))) w2) as Hf.
    unfold exec in Hf.
    destruct (Revised.fetchNotes _ _ _ w2) as [u w3]. cbn [snd] in *.
    refine (same_credentials_trans _ w2 _ _ Hf).
    apply (Hstep (fun l => l)).
  - cbn [snd]. apply Hstep.
Qed.

Lemma run_calls_same_credentials (cs : list dashboard_call) : forall w : World,
  same_credentials w (exec (run_calls net BACKEND_URL cs) w).
Proof.
  induction cs as [|c r IH]; intros w; [apply same_credentials_refl|].
  cbn [run_calls]. unfold exec in *. eff_run.
  assert (Hc : same_credentials w (snd (run_call net BACKEND_URL c w))).
  { destruct c; cbn [run_call].
    - apply fetchNotes_same_credentials.
    - apply handleSearch_same_credentials.
    - apply handleSaveEdit_same_credentials.
    - apply handleDelete_same_credentials. }
  destruct (run_call net BACKEND_URL c w) as [u w2]. cbn [snd] in Hc.
  exact (same_credentials_trans _ _ _ Hc (IH w2)).
Qed.

Lemma useEffect_token_run (w : World) :
  Revised.useEffect_token net BACKEND_URL w =
  if truthy (AuthProvider.token (provider w))
  then Revised.fetchUser net BACKEND_URL
         (with_headers
            (fun m => <["Authorization"%string :=
                         lit "Bearer " ++ to_string (AuthProvider.token (provider w))]> m)
            w)
  else (tt, with_provider (AuthProvider.setLoading false) w).
Proof.
  unfold Revised.useEffect_token. eff_run.
  destruct (truthy (AuthProvider.token (provider w))); reflexivity.
Qed.

Lemma mount_run (w : World) :
  Revised.mount net BACKEND_URL w =
  Revised.useEffect_token net BACKEND_URL
    (with_provider (fun _ => Revised.AuthProvider_init w) w).
Proof. reflexivity. Qed.

Lemma same_credentials_carries (tok : jsstring) (w w' : World) :
  installed tok w -> same_credentials w w' ->
  installed tok w'
  /\ exists new, sent w' = sent w ++ new /\ Forall (carries tok) new.
Proof.
  intros [Hls Hh] (Hl & Hc & _ & new & Hs & Hf). split.
  - split; [rewrite Hl|rewrite Hc]; assumption.
  - exists new. split; [exact Hs|].
    eapply Forall_impl; [exact Hf|]. intros r Hr. unfold carries.
    rewrite Hr. exact Hh.
Qed.

Lemma dashboard_carries_holds (tok : jsstring) (w : World) :
  dashboard_carries net BACKEND_URL tok w.
Proof.
  intros Hi cs. apply same_credentials_carries; [exact Hi|].
  apply run_calls_same_credentials.
Qed.

Lemma fetchUser_carries (tok : jsstring) (w : World) :
  headers_common w !! "Authorization"%string = Some (bearer tok) ->
  let w' := exec (Revised.fetchUser net BACKEND_URL) w in
  (exists r, sent w' = sent w ++ [r] /\ r = me_request BACKEND_URL w
             /\ carries tok r)
  /\ (forall data,
        net (length (sent w)) (me_request BACKEND_URL w) = Resolved data ->
        localStorage w' = localStorage w
        /\ headers_common w' = headers_common w
        /\ AuthProvider.user (provider w') = data).
Proof.
  intros Hh. cbv zeta. unfold exec. rewrite fetchUser_run. cbv zeta. cbn [snd].
  split.
  - exists (me_request BACKEND_URL w).
    split; [destruct (net _ _); reflexivity|]. split; [reflexivity|exact Hh].
  - intros data Hd. rewrite Hd. repeat split.
Qed.

End Runs.

(** ** Authentication state *)

(** C4. When the POST of [login] is rejected, [login] returns
    [{success: false, error}] with a non-empty [error] (the [detail] of the
    response when it has one, [Login failed] otherwise) and the world is
    the one before the call with the request added to the log: nothing is
    written to [localStorage], no header is installed, and the provider's
    [token] and [user] are untouched. *)
Theorem login_failure_leaves_state (net : server) (BACKEND_URL : jsval)
        (discordUserId password : jsstring) (w : World) (e : AxiosError) :
  net (length (sent w)) (login_request BACKEND_URL discordUserId password w)
  = Rejected e ->
  let result := eval (Revised.login net BACKEND_URL discordUserId password) w in
  let w' := exec (Revised.login net BACKEND_URL discordUserId password) w in
  (exists msg, result = Returned {| success := false; error := msg |}
               /\ truthy msg = true
               /\ msg = js_or_else (Revised.detail_of e) (JStr (lit "Login failed")))
  /\ localStorage w' = localStorage w
  /\ headers_common w' = headers_common w
  /\ provider w' = provider w
  /\ w' = with_sent
            (fun l => l ++ [login_request BACKEND_URL discordUserId password w]) w.
Proof.
  intros Hnet. unfold eval, exec. rewrite login_run. cbv zeta. rewrite Hnet.
  cbn [fst snd]. split; [|repeat split].
  eexists. split; [reflexivity|]. split; [|reflexivity].
  unfold js_or_else. destruct (truthy (Revised.detail_of e)) eqn:Ht; [exact Ht|reflexivity].
Qed.

(** C3. [register] sends one request, a POST to [/auth/register] whose
    body is exactly [{discord_user_id, username, password}]; [login] sends
    one request, a POST to [/auth/login] whose body is exactly
    [{discord_user_id, password}]; when the response resolves, each takes
    the [access_token] property of its data as the token. *)
Theorem credentials_requests (net : server) (BACKEND_URL : jsval)
        (discordUserId username password : jsstring) (w : World) :
  (exists r,
      sent (exec (Revised.register net BACKEND_URL discordUserId username password) w)
      = sent w ++ [r]
      /\ req_method r = POST
      /\ req_url r = Revised.API BACKEND_URL ++ lit "/auth/register"
      /\ req_data r = JObj [("discord_user_id"%string, JStr discordUserId);
                            ("username"%string, JStr username);
                            ("password"%string, JStr password)]
      /\ forall data access_token,
          net (length (sent w)) r = Resolved data ->
          get_prop data "access_token" = Some access_token ->
          eval (Revised.register net BACKEND_URL discordUserId username password) w
          = Returned {| success := true; error := JUndefined |}
          /\ AuthProvider.token
               (provider (exec (Revised.register net BACKEND_URL
                                  discordUserId username password) w))
             = access_token)
  /\ (exists r,
      sent (exec (Revised.login net BACKEND_URL discordUserId password) w)
      = sent w ++ [r]
      /\ req_method r = POST
      /\ req_url r = Revised.API BACKEND_URL ++ lit "/auth/login"
      /\ req_data r = JObj [("discord_user_id"%string, JStr discordUserId);
                            ("password"%string, JStr password)]
      /\ forall data access_token,
          net (length (sent w)) r = Resolved data ->
          get_prop data "access_token" = Some access_token ->
          eval (Revised.login net BACKEND_URL discordUserId password) w
          = Returned {| success := true; error := JUndefined |}
          /\ AuthProvider.token
               (provider (exec (Revised.login net BACKEND_URL
                                  discordUserId password) w))
             = access_token).
Proof.
  split.
  - exists (register_request BACKEND_URL discordUserId username password w).
    unfold eval, exec. rewrite register_run. cbv zeta.
    split; [|repeat split].
    + destruct (net _ _) as [data|e]; [|reflexivity].
      destruct (get_prop data "access_token"); reflexivity.
    + rewrite H, H0. reflexivity.
    + rewrite H, H0. reflexivity.
  - exists (login_request BACKEND_URL discordUserId password w).
    unfold eval, exec. rewrite login_run. cbv zeta.
    split; [|repeat split].
    + destruct (net _ _) as [data|e]; [|reflexivity].
      destruct (get_prop data "access_token"); reflexivity.
    + rewrite H, H0. reflexivity.
    + rewrite H, H0. reflexivity.
Qed.


(** ** The form gate *)

Lemma validator_null_or_truthy (v : jsval) (s : jsstring) :
  v = validateDiscordUserId s \/ v = validateUsername s \/ v = validatePassword s ->
  (v = JNull /\ truthy v = false) \/ (v <> JNull /\ truthy v = true).
Proof.
  unfold validateDiscordUserId, validateUsername, validatePassword.
  intros [-> | [-> | ->]];
    repeat match goal with
           | |- context [if ?c then _ else _] => destruct c
           end;
    first [left; split; [reflexivity|reflexivity]
          |right; split; [discriminate|reflexivity]].
Qed.

Lemma validateForm_valid_iff (w : World) :
  exists errors,
    Revised.validateForm w
    = (Nat.eqb (size errors) 0, with_auth (Auth.setFieldErrors errors) w)
    /\ (Nat.eqb (size errors) 0 = true <->
        validateDiscordUserId (Auth.discordUserId (auth w)) = JNull
        /\ (Auth.isLogin (auth w) = false ->
            validateUsername (Auth.username (auth w)) = JNull)
        /\ validatePassword (Auth.password (auth w)) = JNull).
Proof.
  unfold Revised.validateForm. eff_run.
  eexists. split; [reflexivity|].
  rewrite Nat.eqb_eq, map_size_empty_iff.
  destruct (validator_null_or_truthy _ (Auth.discordUserId (auth w))
              (or_introl eq_refl)) as [[Hd Td]|[Hd Td]];
  destruct (validator_null_or_truthy _ (Auth.username (auth w))
              (or_intror (or_introl eq_refl))) as [[Hu Tu]|[Hu Tu]];
  destruct (validator_null_or_truthy _ (Auth.password (auth w))
              (or_intror (or_intror eq_refl))) as [[Hp Tp]|[Hp Tp]];
  destruct (Auth.isLogin (auth w)); cbn [negb];
  rewrite ?Td, ?Tu, ?Tp;
  (split; [intros He; try (exfalso; exact (insert_non_empty _ _ _ He));
           repeat split; try assumption; try discriminate; try (intros _; assumption)
          |intros (H1 & H2 & H3);
           try reflexivity; try congruence;
           exfalso; auto]).
Qed.

(** C7. When a validator that applies to the submitted form (the id and
    password ones always, the username one in registration mode) reports
    an error, [handleSubmit] returns without issuing any HTTP request and
    without touching the stored token, the default headers or the
    provider state. *)
Theorem handleSubmit_gated (net : server) (BACKEND_URL : jsval) (w : World) :
  validateDiscordUserId (Auth.discordUserId (auth w)) <> JNull
  \/ (Auth.isLogin (auth w) = false
      /\ validateUsername (Auth.username (auth w)) <> JNull)
  \/ validatePassword (Auth.password (auth w)) <> JNull ->
  sent (exec (Revised.handleSubmit net BACKEND_URL) w) = sent w
  /\ eval (Revised.handleSubmit net BACKEND_URL) w = Returned tt
  /\ localStorage (exec (Revised.handleSubmit net BACKEND_URL) w) = localStorage w
  /\ headers_common (exec (Revised.handleSubmit net BACKEND_URL) w)
     = headers_common w
  /\ provider (exec (Revised.handleSubmit net BACKEND_URL) w) = provider w.
Proof.
  intros Herr. unfold Revised.handleSubmit. eff_run.
  set (w2 := with_auth _ (with_auth _ w)).
  destruct (validateForm_valid_iff w2) as (errors & Hrun & Hiff).
  rewrite Hrun. cbn [auth with_auth w2] in Hiff. cbn in Hiff.
  destruct (Nat.eqb (size errors) 0).
  - exfalso. destruct Hiff as [Hall _].
    destruct (Hall eq_refl) as (Hd & Hu & Hp).
    destruct Herr as [H | [[Hl H] | H]]; auto.
  - cbn. repeat split.
Qed.

(** The gate lets a form through when every applicable validator passes:
    the one request is then the [login] or [register] of the trimmed
    fields. *)
Lemma handleSubmit_valid_sends (net : server) (BACKEND_URL : jsval) (w : World) :
  validateDiscordUserId (Auth.discordUserId (auth w)) = JNull ->
  (Auth.isLogin (auth w) = false ->
   validateUsername (Auth.username (auth w)) = JNull) ->
  validatePassword (Auth.password (auth w)) = JNull ->
  exists r, sent (exec (Revised.handleSubmit net BACKEND_URL) w) = sent w ++ [r]
    /\ req_method r = POST
    /\ req_data r =
       if Auth.isLogin (auth w)
       then JObj [("discord_user_id"%string, JStr (trim (Auth.discordUserId (auth w))));
                  ("password"%string, JStr (Auth.password (auth w)))]
       else JObj [("discord_user_id"%string, JStr (trim (Auth.discordUserId (auth w))));
                  ("username"%string, JStr (trim (Auth.username (auth w))));
                  ("password"%string, JStr (Auth.password (auth w)))].
Proof.
  intros Hd Hu Hp. unfold Revised.handleSubmit. eff_run.
  set (w2 := with_auth _ (with_auth _ w)).
  destruct (validateForm_valid_iff w2) as (errors & Hrun & Hiff).
  rewrite Hrun. cbn [auth with_auth w2] in Hiff. cbn in Hiff.
  destruct (Nat.eqb (size errors) 0);
    [|destruct Hiff as [_ Hall]; discriminate (Hall (conj Hd (conj Hu Hp)))].
  cbn [negb]. set (w3 := with_auth (Auth.setLoading true) _).
  destruct (Auth.isLogin (auth w)).
  - rewrite login_run. cbv zeta.
    exists (login_request BACKEND_URL (trim (Auth.discordUserId (auth w)))
              (Auth.password (auth w)) w3).
    destruct (net _ _) as [data|e];
      [destruct (get_prop data "access_token")|]; cbn; repeat split.
  - rewrite register_run. cbv zeta.
    exists (register_request BACKEND_URL (trim (Auth.discordUserId (auth w)))
              (trim (Auth.username (auth w))) (Auth.password (auth w)) w3).
    destruct (net _ _) as [data|e];
      [destruct (get_prop data "access_token")|]; cbn; repeat split.
Qed.

(** ** The dashboard *)

(** C8. [fetchNotes] issues one [GET /notes]; its query parameters are
    [search], holding the term as given, exactly when the term is a
    non-empty string, and none otherwise; a call with the empty string is
    the call with no argument. *)
Theorem fetchNotes_search_param (net : server) (BACKEND_URL : jsval)
        (arg : option jsstring) (w : World) :
  (exists r,
      sent (exec (Revised.fetchNotes net BACKEND_URL arg) w) = sent w ++ [r]
      /\ req_method r = GET
      /\ req_url r = Revised.API BACKEND_URL ++ lit "/notes"
      /\ (req_params r = [("search"%string, JStr (default [] arg))]
          <-> default [] arg <> [])
      /\ (req_params r = [] <-> default [] arg = []))
  /\ Revised.fetchNotes net BACKEND_URL (Some []) w
     = Revised.fetchNotes net BACKEND_URL None w.
Proof.
  split; [|reflexivity].
  unfold exec. rewrite fetchNotes_run. cbv zeta. cbn [snd].
  eexists. split; [destruct (net _ _); reflexivity|].
  cbn [req_method req_url req_params notes_request].
  repeat split; destruct (default [] arg); cbn; congruence.
Qed.

(** ** The two revisions *)

(** C10. For every id and password, the [login] of the first revision and
    the [login] of the current one send the same single request, the POST
    of [{discord_user_id, password}] to [/auth/login], and when it
    resolves they leave the same world, with the token stored, installed
    as [Bearer <token>] and set as the provider's [token]. The two
    functions in fact agree on every outcome: the longer expression of
    the current revision always yields the message of the first one. *)
Theorem login_revisions_agree (net : server) (BACKEND_URL : jsval)
        (discordUserId password : jsstring) (w : World) :
  let old := Original.login net BACKEND_URL discordUserId password in
  let new := Revised.login net BACKEND_URL discordUserId password in
  let req := login_request BACKEND_URL discordUserId password w in
  sent (exec old w) = sent w ++ [req]
  /\ sent (exec new w) = sent w ++ [req]
  /\ (forall data access_token,
         net (length (sent w)) req = Resolved data ->
         get_prop data "access_token" = Some access_token ->
         exec old w = exec new w
         /\ eval old w = Returned {| success := true; error := JUndefined |}
         /\ eval new w = Returned {| success := true; error := JUndefined |}
         /\ localStorage (exec new w) !! "token"%string
            = Some (to_string access_token)
         /\ headers_common (exec new w) !! "Authorization"%string
            = Some (bearer (to_string access_token))
         /\ AuthProvider.token (provider (exec new w)) = access_token)
  /\ old w = new w.
Proof.
  cbv zeta. unfold exec, eval.
  rewrite original_login_run, login_run. cbv zeta.
  repeat split.
  - destruct (net _ _) as [data|e];
      [destruct (get_prop data "access_token")|]; reflexivity.
  - destruct (net _ _) as [data|e];
      [destruct (get_prop data "access_token")|]; reflexivity.
  - rewrite H, H0. reflexivity.
  - rewrite H, H0. reflexivity.
  - rewrite H, H0. cbn. apply lookup_insert_eq.
  - rewrite H, H0. cbn. apply lookup_insert_eq.
  - rewrite H, H0. reflexivity.
Qed.

(** ** The bearer credential *)

(** C5. When [login] or [register] succeeds with token [a], the token is
    stored under [token] and installed as the default header
    [Authorization: Bearer <a>]; the request of the effect that follows
    carries it, and so does every request made from the dashboard while
    the credential stays installed. On startup with a non-empty token in
    [localStorage], the effect installs the same header before the
    current-account fetch, which carries it, and it stays installed when
    that fetch resolves. *)
Theorem bearer_token_carried (net : server) (BACKEND_URL : jsval) (w : World) :
  (forall discordUserId password data a,
      net (length (sent w)) (login_request BACKEND_URL discordUserId password w)
      = Resolved data ->
      get_prop data "access_token" = Some a ->
      let w1 := exec (Revised.login net BACKEND_URL discordUserId password) w in
      let w2 := exec (Revised.useEffect_token net BACKEND_URL) w1 in
      installed (to_string a) w1
      /\ (exists new, sent w2 = sent w1 ++ new
                      /\ Forall (carries (to_string a)) new)
      /\ dashboard_carries net BACKEND_URL (to_string a) w1
      /\ dashboard_carries net BACKEND_URL (to_string a) w2)
  /\ (forall discordUserId username password data a,
      net (length (sent w))
        (register_request BACKEND_URL discordUserId username password w)
      = Resolved data ->
      get_prop data "access_token" = Some a ->
      let w1 := exec (Revised.register net BACKEND_URL
                        discordUserId username password) w in
      let w2 := exec (Revised.useEffect_token net BACKEND_URL) w1 in
      installed (to_string a) w1
      /\ (exists new, sent w2 = sent w1 ++ new
                      /\ Forall (carries (to_string a)) new)
      /\ dashboard_carries net BACKEND_URL (to_string a) w1
      /\ dashboard_carries net BACKEND_URL (to_string a) w2)
  /\ (forall s,
      localStorage w !! "token"%string = Some s -> s <> [] ->
      let w2 := exec (Revised.mount net BACKEND_URL) w in
      (exists r, sent w2 = sent w ++ [r]
                 /\ req_method r = GET
                 /\ req_url r = Revised.API BACKEND_URL ++ lit "/auth/me"
                 /\ carries s r
                 /\ (forall data, net (length (sent w)) r = Resolved data ->
                                  installed s w2))
      /\ dashboard_carries net BACKEND_URL s w2).
Proof.
  assert (Heffect : forall (a : jsval) (w1 : World),
             installed (to_string a) w1 ->
             AuthProvider.token (provider w1) = a ->
             exists new,
               sent (exec (Revised.useEffect_token net BACKEND_URL) w1)
               = sent w1 ++ new
               /\ Forall (carries (to_string a)) new).
  { intros a w1 [Hl Hh] Ht. unfold exec. rewrite useEffect_token_run, Ht.
    destruct (truthy a).
    - set (w1' := with_headers _ w1).
      assert (Hh' : headers_common w1' !! "Authorization"%string
                    = Some (bearer (to_string a))).
      { cbn. apply lookup_insert_eq. }
      destruct (fetchUser_carries net BACKEND_URL _ w1' Hh')
        as [(r & Hs & _ & Hr) _].
      exists [r]. split; [exact Hs|]. repeat constructor. exact Hr.
    - exists []. split; [symmetry; apply app_nil_r|constructor]. }
  split; [|split].
  - intros discordUserId password data a Hnet Ha. cbv zeta.
    assert (Hw1 : exec (Revised.login net BACKEND_URL discordUserId password) w
                  = snd (Revised.login net BACKEND_URL discordUserId password w))
      by reflexivity.
    rewrite login_run in Hw1. cbv zeta in Hw1. rewrite Hnet, Ha in Hw1.
    cbn [snd] in Hw1. rewrite Hw1.
    set (w1 := with_provider _ _).
    assert (Hi : installed (to_string a) w1).
    { split; cbn; apply lookup_insert_eq. }
    split; [exact Hi|]. split; [apply Heffect; [exact Hi|reflexivity]|].
    split; apply dashboard_carries_holds.
  - intros discordUserId username password data a Hnet Ha. cbv zeta.
    assert (Hw1 : exec (Revised.register net BACKEND_URL
                          discordUserId username password) w
                  = snd (Revised.register net BACKEND_URL
                           discordUserId username password w))
      by reflexivity.
    rewrite register_run in Hw1. cbv zeta in Hw1. rewrite Hnet, Ha in Hw1.
    cbn [snd] in Hw1. rewrite Hw1.
    set (w1 := with_provider _ _).
    assert (Hi : installed (to_string a) w1).
    { split; cbn; apply lookup_insert_eq. }
    split; [exact Hi|]. split; [apply Heffect; [exact Hi|reflexivity]|].
    split; apply dashboard_carries_holds.
  - intros s Hs Hne. cbv zeta. split; [|apply dashboard_carries_holds].
    unfold exec. rewrite mount_run, useEffect_token_run.
    cbn [provider with_provider Revised.AuthProvider_init AuthProvider.token].
    unfold getItem. rewrite Hs.
    replace (truthy (JStr s)) with true by (destruct s; [congruence|reflexivity]).
    set (w1 := with_headers _ _).
    assert (Hh : headers_common w1 !! "Authorization"%string = Some (bearer s)).
    { cbn. apply lookup_insert_eq. }
    destruct (fetchUser_carries net BACKEND_URL s w1 Hh)
      as [(r & Hsent & Hr & Hc) Hres].
    exists r. split; [exact Hsent|]. subst r.
    split; [reflexivity|]. split; [reflexivity|]. split; [exact Hc|].
    intros data Hd. destruct (Hres data Hd) as (Hl' & Hh' & _).
    unfold exec in Hl', Hh'. split.
    + rewrite Hl'. exact Hs.
    + rewrite Hh'. exact Hh.
Qed.

(** ** The bot delete endpoint *)

Import NoteAccess.

(** C1. [bot_delete_note] removes any stored note by its id, whoever owns
    it and whoever calls (the operation takes neither an account nor a
    credential): the result is the store without that note and with every
    other note as before. It never fails with [Forbidden], on any store
    and any id, where [delete_note] refuses every account but the
    owner. *)
Theorem bot_delete_no_ownership_check (store : gmap string Note)
        (note_id : string) (note : Note) :
  store !! note_id = Some note ->
  bot_delete_note note_id store = Ok (delete note_id store)
  /\ delete note_id store !! note_id = None
  /\ (forall other, other <> note_id ->
                    delete note_id store !! other = store !! other)
  /\ (forall store' id', bot_delete_note id' store' <> Err Forbidden)
  /\ (forall account, account <> owner_external_id note ->
                      delete_note account note_id store = Err Forbidden).
Proof.
  intros Hn. unfold bot_delete_note, delete_note. rewrite Hn.
  split; [reflexivity|]. split; [apply lookup_delete_eq|].
  split; [intros other Ho; apply lookup_delete_ne; congruence|].
  split.
  - intros store' id'. destruct (store' !! id'); discriminate.
  - intros account Ha.
    destruct (String.eqb_spec (owner_external_id note) account); congruence.
Qed.

(** ** The properties on sample data *)

Import Samples.

(** A refused login on the freshly loaded page leaves its storage as it
    was and reports the server's message. *)
Lemma login_failure_leaves_state_witness :
  refusing (length (sent (signed_out fresh_form)))
    (login_request backend alice_id (lit "wrong-password") (signed_out fresh_form))
  = Rejected unauthorized
  /\ localStorage (exec (Revised.login refusing backend alice_id
                           (lit "wrong-password")) (signed_out fresh_form))
     = localStorage (signed_out fresh_form).
Proof.
  assert (H : refusing (length (sent (signed_out fresh_form)))
                (login_request backend alice_id (lit "wrong-password")
                   (signed_out fresh_form))
              = Rejected unauthorized) by reflexivity.
  split; [exact H|].
  exact (proj1 (proj2 (login_failure_leaves_state refusing backend alice_id
                         (lit "wrong-password") (signed_out fresh_form)
                         unauthorized H))).
Defined.

(** A granted login takes [tok-1] from the response. *)
Lemma credentials_requests_witness :
  granting 0%nat (login_request backend alice_id (lit "secret1")
                    (signed_out fresh_form))
  = Resolved token_response
  /\ get_prop token_response "access_token" = Some (JStr (lit "tok-1"))
  /\ exists r,
      sent (exec (Revised.login granting backend alice_id (lit "secret1"))
              (signed_out fresh_form))
      = sent (signed_out fresh_form) ++ [r]
      /\ req_data r = JObj [("discord_user_id"%string, JStr alice_id);
                            ("password"%string, JStr (lit "secret1"))].
Proof.
  split; [reflexivity|]. split; [reflexivity|].
  destruct (proj2 (credentials_requests granting backend alice_id []
                     (lit "secret1") (signed_out fresh_form)))
    as (r & Hs & _ & _ & Hd & _).
  exists r. split; [exact Hs|exact Hd].
Defined.


(** The registration form with a five-digit id sends nothing. *)
Lemma handleSubmit_gated_witness :
  validateDiscordUserId (Auth.discordUserId (auth (signed_out short_id_form)))
  <> JNull
  /\ sent (exec (Revised.handleSubmit granting backend) (signed_out short_id_form))
     = sent (signed_out short_id_form).
Proof.
  assert (H : validateDiscordUserId
                (Auth.discordUserId (auth (signed_out short_id_form))) <> JNull).
  { vm_compute. discriminate. }
  split; [exact H|].
  exact (proj1 (handleSubmit_gated granting backend (signed_out short_id_form)
                  (or_introl H))).
Defined.

(** Both revisions store [tok-1] on a granted login. *)
Lemma login_revisions_agree_witness :
  granting (length (sent (signed_out fresh_form)))
    (login_request backend alice_id (lit "secret1") (signed_out fresh_form))
  = Resolved token_response
  /\ get_prop token_response "access_token" = Some (JStr (lit "tok-1"))
  /\ exec (Original.login granting backend alice_id (lit "secret1"))
       (signed_out fresh_form)
     = exec (Revised.login granting backend alice_id (lit "secret1"))
         (signed_out fresh_form).
Proof.
  assert (H1 : granting (length (sent (signed_out fresh_form)))
                 (login_request backend alice_id (lit "secret1")
                    (signed_out fresh_form))
               = Resolved token_response) by reflexivity.
  assert (H2 : get_prop token_response "access_token"
               = Some (JStr (lit "tok-1"))) by reflexivity.
  split; [exact H1|]. split; [exact H2|].
  destruct (login_revisions_agree granting backend alice_id (lit "secret1")
              (signed_out fresh_form)) as (_ & _ & Hok & _).
  exact (proj1 (Hok token_response (JStr (lit "tok-1")) H1 H2)).
Defined.

(** A granted login installs [Bearer tok-1], and a reload finds it. *)
Lemma bearer_token_carried_witness :
  granting (length (sent (signed_out fresh_form)))
    (login_request backend alice_id (lit "secret1") (signed_out fresh_form))
  = Resolved token_response
  /\ get_prop token_response "access_token" = Some (JStr (lit "tok-1"))
  /\ installed (lit "tok-1")
       (exec (Revised.login granting backend alice_id (lit "secret1"))
          (signed_out fresh_form)).
Proof.
  assert (H1 : granting (length (sent (signed_out fresh_form)))
                 (login_request backend alice_id (lit "secret1")
                    (signed_out fresh_form))
               = Resolved token_response) by reflexivity.
  assert (H2 : get_prop token_response "access_token"
               = Some (JStr (lit "tok-1"))) by reflexivity.
  split; [exact H1|]. split; [exact H2|].
  exact (proj1 (proj1 (bearer_token_carried granting backend
                         (signed_out fresh_form))
                  alice_id (lit "secret1") token_response
                  (JStr (lit "tok-1")) H1 H2)).
Defined.

(** Anyone may delete the milk note. *)
Lemma bot_delete_no_ownership_check_witness :
  one_note !! "n1"%string = Some milk
  /\ bot_delete_note "n1" one_note = Ok (delete "n1"%string one_note).
Proof.
  assert (H : one_note !! "n1"%string = Some milk) by (vm_compute; reflexivity).
  split; [exact H|].
  exact (proj1 (bot_delete_no_ownership_check one_note "n1" milk H)).
Defined.

(** * Further properties of the client *)

(** ** Trimming *)

Section TrimFacts.

Lemma trimStart_snoc (a : jsstring) (c : N) :
  is_whitespace c = false -> trimStart (a ++ [c]) = trimStart a ++ [c].
Proof.
  intros Hc. induction a as [|x a IH]; cbn [trimStart app].
  - rewrite Hc. reflexivity.
  - destruct (is_whitespace x); [exact IH|reflexivity].
Qed.

Lemma trimStart_head (s : jsstring) :
  trimStart s = []
  \/ exists c r, trimStart s = c :: r /\ is_whitespace c = false.
Proof.
  induction s as [|x s IH]; cbn [trimStart]; [left; reflexivity|].
  destruct (is_whitespace x) eqn:Hx; [exact IH|].
  right. exists x, s. split; [reflexivity|exact Hx].
Qed.

Lemma trimStart_fixed (c : N) (r : jsstring) :
  is_whitespace c = false -> trimStart (c :: r) = c :: r.
Proof. intros Hc. cbn [trimStart]. rewrite Hc. reflexivity. Qed.

Lemma trimEnd_cons (c : N) (r : jsstring) :
  is_whitespace c = false -> trimEnd (c :: r) = c :: trimEnd r.
Proof.
  intros Hc. unfold trimEnd. cbn [rev].
  rewrite (trimStart_snoc _ _ Hc), rev_app_distr. reflexivity.
Qed.

Lemma trimEnd_last (t : jsstring) :
  trimEnd t = []
  \/ exists u c, trimEnd t = u ++ [c] /\ is_whitespace c = false.
Proof.
  unfold trimEnd.
  destruct (trimStart_head (rev t)) as [-> | (c & r & -> & Hc)];
    [left; reflexivity|].
  right. exists (rev r), c. split; [reflexivity|exact Hc].
Qed.

Lemma trimEnd_fixed (u : jsstring) (c : N) :
  is_whitespace c = false -> trimEnd (u ++ [c]) = u ++ [c].
Proof.
  intros Hc. unfold trimEnd. rewrite rev_app_distr. cbn [rev app].
  rewrite (trimStart_fixed _ _ Hc). cbn [rev].
  rewrite rev_involutive. reflexivity.
Qed.

Lemma trim_idempotent (s : jsstring) : trim (trim s) = trim s.
Proof.
  unfold trim at 2 3.
  destruct (trimStart_head s) as [-> | (c & r & -> & Hc)]; [reflexivity|].
  rewrite (trimEnd_cons _ _ Hc). unfold trim.
  rewrite (trimStart_fixed _ _ Hc), <- (trimEnd_cons _ _ Hc).
  destruct (trimEnd_last (c :: r)) as [-> | (u & d & -> & Hd)]; [reflexivity|].
  apply trimEnd_fixed. exact Hd.
Qed.

Lemma trim_nil_of_nil (s : jsstring) : s = [] -> trim s = [].
Proof. intros ->. reflexivity. Qed.

Lemma required_check_trim (s : jsstring) :
  negb (truthy (JStr s)) || negb (truthy (JStr (trim s)))
  = negb (truthy (JStr (trim s))).
Proof.
  destruct s as [|c r]; [reflexivity|]. reflexivity.
Qed.

End TrimFacts.

(** ** More on the validators *)

(** X1. [validatePassword] accepts a password exactly when it is at least
    six code units long; it does not trim, so blanks count. A shorter one,
    the empty one included, gets a non-empty message. *)
Theorem validatePassword_null_iff (password : jsstring) :
  (validatePassword password = JNull <-> (6 <= length password)%nat)
  /\ ((length password < 6)%nat ->
      exists msg, validatePassword password = JStr msg /\ msg <> []).
Proof.
  unfold validatePassword.
  destruct password as [|c r] eqn:Hp.
  - cbn. split; [split; [discriminate|lia]|].
    intros _. eexists. split; [reflexivity|discriminate].
  - cbn [truthy negb].
    destruct (Nat.ltb_spec (length (c :: r)) 6) as [H|H].
    + split; [split; [discriminate|lia]|].
      intros _. eexists. split; [reflexivity|discriminate].
    + split; [split; [intros _; exact H|reflexivity]|lia].
Qed.

Lemma validatePassword_null_iff_witness :
  (length (lit "12345") < 6)%nat
  /\ exists msg, validatePassword (lit "12345") = JStr msg /\ msg <> [].
Proof.
  assert (H : (length (lit "12345") < 6)%nat) by (vm_compute; lia).
  split; [exact H|].
  exact (proj2 (validatePassword_null_iff (lit "12345")) H).
Defined.

(** X2. White space around the input never changes the verdict of the id
    and username validators: each gives on the trimmed input what it gives
    on the input. *)
Theorem validators_ignore_outer_whitespace (s : jsstring) :
  validateDiscordUserId (trim s) = validateDiscordUserId s
  /\ validateUsername (trim s) = validateUsername s.
Proof.
  unfold validateDiscordUserId, validateUsername.
  rewrite !required_check_trim, !trim_idempotent. split; reflexivity.
Qed.

(** ** Signing in and out *)

Lemma World_ext (w w' : World) :
  localStorage w = localStorage w' ->
  headers_common w = headers_common w' ->
  provider w = provider w' ->
  auth w = auth w' ->
  dashboard w = dashboard w' ->
  sent w = sent w' ->
  console w = console w' ->
  w = w'.
Proof.
  destruct w, w'. cbn [localStorage headers_common provider auth dashboard
                         sent console].
  intros -> -> -> -> -> -> ->. reflexivity.
Qed.

(** Reduces the projections of a world built by the [with_...]
    transformers, and nothing else. *)
Ltac world_proj :=
  cbn [localStorage headers_common provider auth dashboard sent console
       with_localStorage with_headers with_provider with_auth with_dashboard
       with_sent with_console].

Lemma logout_run (w : World) :
  Revised.logout w =
  (tt,
   with_provider (AuthProvider.setUser JNull)
     (with_provider (AuthProvider.setToken JNull)
        (with_headers (fun m => delete "Authorization"%string m)
           (with_localStorage (fun m => delete "token"%string m) w)))).
Proof. reflexivity. Qed.

(** X3. When the POST of [register] is rejected, [register] returns
    [{success: false, error}] with a non-empty [error] (the [detail] of
    the response, else [Registration failed]) and changes nothing but the
    request log: no token is stored, no header installed, the provider
    state is as before. *)
Theorem register_failure_leaves_state (net : server) (BACKEND_URL : jsval)
        (discordUserId username password : jsstring) (w : World)
        (e : AxiosError) :
  net (length (sent w))
    (register_request BACKEND_URL discordUserId username password w)
  = Rejected e ->
  let run := Revised.register net BACKEND_URL discordUserId username password in
  (exists msg, eval run w = Returned {| success := false; error := msg |}
               /\ truthy msg = true
               /\ msg = js_or_else (Revised.detail_of e)
                          (JStr (lit "Registration failed")))
  /\ exec run w
     = with_sent
         (fun l => l ++ [register_request BACKEND_URL discordUserId username
                           password w]) w.
Proof.
  intros Hnet. cbv zeta. unfold eval, exec. rewrite register_run. cbv zeta.
  rewrite Hnet. cbn [fst snd]. split; [|reflexivity].
  eexists. split; [reflexivity|]. split; [|reflexivity].
  unfold js_or_else.
  destruct (truthy (Revised.detail_of e)) eqn:Ht; [exact Ht|reflexivity].
Qed.

Lemma register_failure_leaves_state_witness :
  refusing (length (sent (signed_out short_id_form)))
    (register_request backend alice_id (lit "alice") (lit "secret1")
       (signed_out short_id_form))
  = Rejected unauthorized
  /\ exec (Revised.register refusing backend alice_id (lit "alice")
             (lit "secret1")) (signed_out short_id_form)
     = with_sent
         (fun l => l ++ [register_request backend alice_id (lit "alice")
                           (lit "secret1") (signed_out short_id_form)])
         (signed_out short_id_form).
Proof.
  assert (H : refusing (length (sent (signed_out short_id_form)))
                (register_request backend alice_id (lit "alice") (lit "secret1")
                   (signed_out short_id_form))
              = Rejected unauthorized) by reflexivity.
  split; [exact H|].
  exact (proj2 (register_failure_leaves_state refusing backend alice_id
                  (lit "alice") (lit "secret1") (signed_out short_id_form)
                  unauthorized H)).
Defined.

(** X4. [login] never raises: whatever the server answers it returns a
    result, whose [error] is truthy exactly when [success] is false. It
    reports success exactly when the POST resolves with a body that is
    neither [null] nor [undefined]; a resolved response with such an empty
    body is reported as [Login failed] and changes nothing but the
    request log. *)
Theorem login_outcomes (net : server) (BACKEND_URL : jsval)
        (discordUserId password : jsstring) (w : World) :
  let run := Revised.login net BACKEND_URL discordUserId password in
  let req := login_request BACKEND_URL discordUserId password w in
  (exists result, eval run w = Returned result
                  /\ truthy (error result) = negb (success result))
  /\ (eval run w = Returned {| success := true; error := JUndefined |}
      <-> exists data, net (length (sent w)) req = Resolved data
                       /\ is_nullish data = false)
  /\ (forall data, net (length (sent w)) req = Resolved data ->
                   is_nullish data = true ->
                   eval run w = Returned {| success := false;
                                            error := JStr (lit "Login failed") |}
                   /\ exec run w = with_sent (fun l => l ++ [req]) w).
Proof.
  cbv zeta. unfold eval, exec. rewrite login_run. cbv zeta.
  assert (Hmsg : forall e,
             truthy (js_or_else (Revised.detail_of e) (JStr (lit "Login failed")))
             = true).
  { intros e. unfold js_or_else.
    destruct (truthy (Revised.detail_of e)) eqn:Ht; [exact Ht|reflexivity]. }
  destruct (net _ _) as [data|e].
  - destruct data; cbn [get_prop fst snd];
      (split; [eexists; split; [reflexivity|reflexivity]|]);
      (split; [split; [intros H; try discriminate H; eexists; split; reflexivity
                      |intros (d & Hd & Hn); inversion Hd; subst d;
                       try discriminate Hn; reflexivity]|]);
      intros d Hd Hn; inversion Hd; subst d; try discriminate Hn;
      split; reflexivity.
  - cbn [fst snd]. split; [eexists; split; [reflexivity|apply Hmsg]|].
    split; [split; [discriminate|intros (d & Hd & _); discriminate]|].
    intros d Hd. discriminate.
Qed.

Lemma login_outcomes_witness :
  (fun _ _ => Resolved JNull) (length (sent (signed_out fresh_form)))
    (login_request backend alice_id (lit "secret1") (signed_out fresh_form))
  = Resolved JNull
  /\ is_nullish JNull = true
  /\ eval (Revised.login (fun _ _ => Resolved JNull) backend alice_id
             (lit "secret1")) (signed_out fresh_form)
     = Returned {| success := false; error := JStr (lit "Login failed") |}.
Proof.
  split; [reflexivity|]. split; [reflexivity|].
  exact (proj1 (proj2 (proj2 (login_outcomes (fun _ _ => Resolved JNull)
                                backend alice_id (lit "secret1")
                                (signed_out fresh_form)))
                  JNull eq_refl eq_refl)).
Defined.

(** X5. A resolved response whose body has no [access_token] still counts
    as a successful login: the text [undefined] is stored as the token and
    installed as [Bearer undefined], the provider's [token] becomes
    [undefined], and the effect that follows, finding it falsy, fetches no
    account, so nothing is sent and [user] stays as it was. *)
Theorem login_without_token_field (net : server) (BACKEND_URL : jsval)
        (discordUserId password : jsstring) (w : World) (data : jsval) :
  net (length (sent w)) (login_request BACKEND_URL discordUserId password w)
  = Resolved data ->
  get_prop data "access_token" = Some JUndefined ->
  let w1 := exec (Revised.login net BACKEND_URL discordUserId password) w in
  let w2 := exec (Revised.useEffect_token net BACKEND_URL) w1 in
  eval (Revised.login net BACKEND_URL discordUserId password) w
  = Returned {| success := true; error := JUndefined |}
  /\ localStorage w1 !! "token"%string = Some (lit "undefined")
  /\ headers_common w1 !! "Authorization"%string
     = Some (lit "Bearer undefined")
  /\ AuthProvider.token (provider w1) = JUndefined
  /\ sent w2 = sent w1
  /\ AuthProvider.user (provider w2) = AuthProvider.user (provider w).
Proof.
  intros Hnet Ha. cbv zeta.
  assert (Hw1 : Revised.login net BACKEND_URL discordUserId password w
                = Revised.login net BACKEND_URL discordUserId password w)
    by reflexivity.
  rewrite login_run in Hw1 at 2. cbv zeta in Hw1. rewrite Hnet, Ha in Hw1.
  unfold eval, exec. rewrite !Hw1. cbn [fst snd].
  split; [reflexivity|]. split; [cbn; apply lookup_insert_eq|].
  split; [cbn; apply lookup_insert_eq|]. split; [reflexivity|].
  rewrite useEffect_token_run. cbn. split; reflexivity.
Qed.

Lemma login_without_token_field_witness :
  (fun _ _ => Resolved (JObj [])) (length (sent (signed_out fresh_form)))
    (login_request backend alice_id (lit "secret1") (signed_out fresh_form))
  = Resolved (JObj [])
  /\ get_prop (JObj []) "access_token" = Some JUndefined
  /\ localStorage
       (exec (Revised.login (fun _ _ => Resolved (JObj [])) backend alice_id
                (lit "secret1")) (signed_out fresh_form))
     !! "token"%string = Some (lit "undefined").
Proof.
  split; [reflexivity|]. split; [reflexivity|].
  exact (proj1 (proj2 (login_without_token_field (fun _ _ => Resolved (JObj []))
                         backend alice_id (lit "secret1")
                         (signed_out fresh_form) (JObj []) eq_refl eq_refl))).
Defined.

(** X6. [logout] removes the stored token and the default credential and
    resets the provider's [token] and [user] to [null]; every other key of
    [localStorage] and every other default header stays, nothing is sent,
    and a second [logout] changes nothing. *)
Theorem logout_clears_only_credentials (w : World) :
  let w' := exec Revised.logout w in
  localStorage w' !! "token"%string = None
  /\ headers_common w' !! "Authorization"%string = None
  /\ (forall k, k <> "token"%string -> localStorage w' !! k = localStorage w !! k)
  /\ (forall k, k <> "Authorization"%string ->
                headers_common w' !! k = headers_common w !! k)
  /\ AuthProvider.token (provider w') = JNull
  /\ AuthProvider.user (provider w') = JNull
  /\ AuthProvider.loading (provider w') = AuthProvider.loading (provider w)
  /\ sent w' = sent w
  /\ exec Revised.logout w' = w'.
Proof.
  cbv zeta. unfold exec. rewrite !logout_run. cbn [snd].
  split; [cbn; apply lookup_delete_eq|].
  split; [cbn; apply lookup_delete_eq|].
  split; [intros k Hk; cbn; apply lookup_delete_ne; congruence|].
  split; [intros k Hk; cbn; apply lookup_delete_ne; congruence|].
  repeat (split; [reflexivity|]).
  apply World_ext; world_proj; try reflexivity;
    apply delete_id, lookup_delete_eq.
Qed.

(** X7. Signing in and out again leaves no trace in the browser: from a
    world with no stored token and no default credential, a successful
    [login] followed by [logout] gives back the same [localStorage] and
    the same default headers, with [token] and [user] [null]. *)
Theorem login_then_logout_restores (net : server) (BACKEND_URL : jsval)
        (discordUserId password : jsstring) (w : World) (data a : jsval) :
  localStorage w !! "token"%string = None ->
  headers_common w !! "Authorization"%string = None ->
  net (length (sent w)) (login_request BACKEND_URL discordUserId password w)
  = Resolved data ->
  get_prop data "access_token" = Some a ->
  let w2 := exec Revised.logout
              (exec (Revised.login net BACKEND_URL discordUserId password) w) in
  localStorage w2 = localStorage w
  /\ headers_common w2 = headers_common w
  /\ AuthProvider.token (provider w2) = JNull
  /\ AuthProvider.user (provider w2) = JNull.
Proof.
  intros Hl Hh Hnet Ha. cbv zeta. unfold exec.
  rewrite login_run. cbv zeta. rewrite Hnet, Ha. cbn [snd].
  rewrite logout_run. cbn.
  split; [apply delete_insert_id; exact Hl|].
  split; [apply delete_insert_id; exact Hh|]. split; reflexivity.
Qed.

Lemma login_then_logout_restores_witness :
  localStorage (signed_out fresh_form) !! "token"%string = None
  /\ headers_common (signed_out fresh_form) !! "Authorization"%string = None
  /\ granting (length (sent (signed_out fresh_form)))
       (login_request backend alice_id (lit "secret1") (signed_out fresh_form))
     = Resolved token_response
  /\ get_prop token_response "access_token" = Some (JStr (lit "tok-1"))
  /\ localStorage
       (exec Revised.logout
          (exec (Revised.login granting backend alice_id (lit "secret1"))
             (signed_out fresh_form)))
     = localStorage (signed_out fresh_form).
Proof.
  assert (H1 : localStorage (signed_out fresh_form) !! "token"%string = None)
    by (vm_compute; reflexivity).
  assert (H2 : headers_common (signed_out fresh_form) !! "Authorization"%string
               = None) by (vm_compute; reflexivity).
  split; [exact H1|]. split; [exact H2|].
  split; [reflexivity|]. split; [reflexivity|].
  exact (proj1 (login_then_logout_restores granting backend alice_id
                  (lit "secret1") (signed_out fresh_form) token_response
                  (JStr (lit "tok-1")) H1 H2 eq_refl eq_refl)).
Defined.

(** ** The form *)

Lemma validateDiscordUserId_null_inv (id : jsstring) :
  validateDiscordUserId id = JNull ->
  trim id <> [] /\ forallb is_digit (trim id) = true
  /\ (17 <= length (trim id) <= 19)%nat.
Proof.
  unfold validateDiscordUserId. rewrite required_check_trim.
  destruct (trim id) as [|t ts] eqn:Ht; [discriminate|].
  cbn [truthy negb].
  destruct (matches_digits (t :: ts)) eqn:Hm; cbn [negb]; [|discriminate].
  destruct (Nat.ltb_spec (length (t :: ts)) 17); cbn [orb]; [discriminate|].
  destruct (Nat.ltb_spec 19 (length (t :: ts))); [discriminate|].
  intros _. split; [discriminate|]. split; [exact Hm|lia].
Qed.

Lemma validateUsername_null_inv (username : jsstring) :
  validateUsername username = JNull ->
  (2 <= length (trim username) <= 32)%nat.
Proof.
  unfold validateUsername. rewrite required_check_trim.
  destruct (trim username) as [|t ts] eqn:Ht; [discriminate|].
  cbn [truthy negb].
  destruct (Nat.ltb_spec (length (t :: ts)) 2); [discriminate|].
  destruct (Nat.ltb_spec 32 (length (t :: ts))); [discriminate|].
  intros _. lia.
Qed.

Lemma validatePassword_null_inv (password : jsstring) :
  validatePassword password = JNull -> (6 <= length password)%nat.
Proof.
  unfold validatePassword. destruct password as [|c r]; [discriminate|].
  cbn [truthy negb].
  destruct (Nat.ltb_spec (length (c :: r)) 6); [discriminate|].
  intros _. assumption.
Qed.

(** X8. [validateForm] changes nothing but [fieldErrors], which it
    replaces by an object with one entry per failing field: under
    [discordUserId], [username] (in registration mode only) and
    [password] is the message of that field's validator when it reports
    one, and no entry otherwise. The form is valid exactly when all three
    entries are absent. *)
Theorem validateForm_reports_each_field (w : World) :
  let form := auth w in
  let errors := Auth.fieldErrors (auth (exec Revised.validateForm w)) in
  let report (v : jsval) := if truthy v then Some v else None in
  exec Revised.validateForm w = with_auth (Auth.setFieldErrors errors) w
  /\ errors !! "discordUserId"%string
     = report (validateDiscordUserId (Auth.discordUserId form))
  /\ errors !! "username"%string
     = (if Auth.isLogin form then None
        else report (validateUsername (Auth.username form)))
  /\ errors !! "password"%string
     = report (validatePassword (Auth.password form))
  /\ (eval Revised.validateForm w = true <->
      errors !! "discordUserId"%string = None
      /\ errors !! "username"%string = None
      /\ errors !! "password"%string = None).
Proof.
  cbv zeta. unfold Revised.validateForm. eff_run. cbn [auth with_auth Auth.fieldErrors Auth.setFieldErrors].
  split; [reflexivity|].
  destruct (truthy (validateDiscordUserId (Auth.discordUserId (auth w))));
    destruct (Auth.isLogin (auth w)); cbn [negb];
    destruct (truthy (validateUsername (Auth.username (auth w))));
    destruct (truthy (validatePassword (Auth.password (auth w))));
    (split; [by simplify_map_eq|]);
    (split; [by simplify_map_eq|]);
    (split; [by simplify_map_eq|]);
    rewrite Nat.eqb_eq, map_size_empty_iff;
    (split; [intros He; try (exfalso; exact (insert_non_empty _ _ _ He));
             repeat split; by simplify_map_eq
            |intros (H1 & H2 & H3); try reflexivity;
             exfalso; by simplify_map_eq]).
Qed.

(** X9. A form that passes its validators sends exactly one request, the
    [login] or [register] of the trimmed id (and trimmed username) with
    the password as typed, and [handleSubmit] returns with the form no
    longer loading and without field errors. If the server rejects, the
    form's [error] is the server's [detail], or the fallback text of the
    mode, and no credential is stored; if it grants token [a], [error]
    stays empty and [a] is stored and installed. *)
Theorem handleSubmit_valid_outcome (net : server) (BACKEND_URL : jsval)
        (w : World) :
  validateDiscordUserId (Auth.discordUserId (auth w)) = JNull ->
  (Auth.isLogin (auth w) = false ->
   validateUsername (Auth.username (auth w)) = JNull) ->
  validatePassword (Auth.password (auth w)) = JNull ->
  let form := auth w in
  let req := if Auth.isLogin form
             then login_request BACKEND_URL (trim (Auth.discordUserId form))
                    (Auth.password form) w
             else register_request BACKEND_URL (trim (Auth.discordUserId form))
                    (trim (Auth.username form)) (Auth.password form) w in
  let fallback := if Auth.isLogin form then "Login failed"%string
                  else "Registration failed"%string in
  let w' := exec (Revised.handleSubmit net BACKEND_URL) w in
  sent w' = sent w ++ [req]
  /\ eval (Revised.handleSubmit net BACKEND_URL) w = Returned tt
  /\ Auth.loading (auth w') = false
  /\ Auth.fieldErrors (auth w') = ∅
  /\ (forall e, net (length (sent w)) req = Rejected e ->
                Auth.error (auth w')
                = js_or_else (Revised.detail_of e) (JStr (lit fallback))
                /\ localStorage w' = localStorage w
                /\ headers_common w' = headers_common w
                /\ provider w' = provider w)
  /\ (forall data a, net (length (sent w)) req = Resolved data ->
                     get_prop data "access_token" = Some a ->
                     Auth.error (auth w') = JStr []
                     /\ installed (to_string a) w'
                     /\ AuthProvider.token (provider w') = a).
Proof.
  intros Hd Hu Hp. cbv zeta. unfold eval, exec, Revised.handleSubmit. eff_run.
  set (w2 := with_auth _ (with_auth _ w)).
  destruct (validateForm_valid_iff w2) as (errors & Hrun & Hiff).
  rewrite Hrun. cbn [auth with_auth w2] in Hiff. cbn in Hiff.
  destruct (Nat.eqb (size errors) 0) eqn:Hsz;
    [|destruct Hiff as [_ Hall]; discriminate (Hall (conj Hd (conj Hu Hp)))].
  apply Nat.eqb_eq, map_size_empty_iff in Hsz. subst errors.
  cbn [negb]. set (w3 := with_auth (Auth.setLoading true) _).
  destruct (Auth.isLogin (auth w)).
  - rewrite login_run. cbv zeta.
    change (login_request BACKEND_URL (trim (Auth.discordUserId (auth w)))
              (Auth.password (auth w)) w3)
      with (login_request BACKEND_URL (trim (Auth.discordUserId (auth w)))
              (Auth.password (auth w)) w).
    change (sent w3) with (sent w).
    destruct (net _ _) as [data|e].
    + destruct (get_prop data "access_token") as [a|] eqn:Ha; cbn;
        repeat (split; [reflexivity|]);
        (split; [intros e He; discriminate He|]);
        intros d a' Hd' Ha'; inversion Hd'; subst d;
        rewrite Ha in Ha'; inversion Ha'; subst a'.
      split; [reflexivity|]. split; [|reflexivity].
      split; cbn; apply lookup_insert_eq.
    + cbn. repeat (split; [reflexivity|]).
      split; [|intros d a Hd'; discriminate Hd'].
      intros e' He'. inversion He'; subst e'. repeat split.
  - rewrite register_run. cbv zeta.
    change (register_request BACKEND_URL (trim (Auth.discordUserId (auth w)))
              (trim (Auth.username (auth w))) (Auth.password (auth w)) w3)
      with (register_request BACKEND_URL (trim (Auth.discordUserId (auth w)))
              (trim (Auth.username (auth w))) (Auth.password (auth w)) w).
    change (sent w3) with (sent w).
    destruct (net _ _) as [data|e].
    + destruct (get_prop data "access_token") as [a|] eqn:Ha; cbn;
        repeat (split; [reflexivity|]);
        (split; [intros e He; discriminate He|]);
        intros d a' Hd' Ha'; inversion Hd'; subst d;
        rewrite Ha in Ha'; inversion Ha'; subst a'.
      split; [reflexivity|]. split; [|reflexivity].
      split; cbn; apply lookup_insert_eq.
    + cbn. repeat (split; [reflexivity|]).
      split; [|intros d a Hd'; discriminate Hd'].
      intros e' He'. inversion He'; subst e'. repeat split.
Qed.

Lemma handleSubmit_valid_outcome_witness :
  validateDiscordUserId (Auth.discordUserId (auth (signed_out fresh_form))) = JNull
  /\ (Auth.isLogin (auth (signed_out fresh_form)) = false ->
      validateUsername (Auth.username (auth (signed_out fresh_form))) = JNull)
  /\ validatePassword (Auth.password (auth (signed_out fresh_form))) = JNull
  /\ sent (exec (Revised.handleSubmit granting backend) (signed_out fresh_form))
     = sent (signed_out fresh_form)
       ++ [login_request backend (trim alice_id) (lit "secret1")
             (signed_out fresh_form)].
Proof.
  assert (H1 : validateDiscordUserId
                 (Auth.discordUserId (auth (signed_out fresh_form))) = JNull)
    by (vm_compute; reflexivity).
  assert (H2 : Auth.isLogin (auth (signed_out fresh_form)) = false ->
               validateUsername (Auth.username (auth (signed_out fresh_form)))
               = JNull) by (intros H; discriminate H).
  assert (H3 : validatePassword (Auth.password (auth (signed_out fresh_form)))
               = JNull) by (vm_compute; reflexivity).
  split; [exact H1|]. split; [exact H2|]. split; [exact H3|].
  exact (proj1 (handleSubmit_valid_outcome granting backend
                  (signed_out fresh_form) H1 H2 H3)).
Defined.

Lemma handleSubmit_invalid_no_request (net : server) (BACKEND_URL : jsval)
      (w : World) :
  validateDiscordUserId (Auth.discordUserId (auth w)) <> JNull
  \/ (Auth.isLogin (auth w) = false
      /\ validateUsername (Auth.username (auth w)) <> JNull)
  \/ validatePassword (Auth.password (auth w)) <> JNull ->
  sent (exec (Revised.handleSubmit net BACKEND_URL) w) = sent w.
Proof.
  intros Herr. unfold Revised.handleSubmit. eff_run.
  set (w2 := with_auth _ (with_auth _ w)).
  destruct (validateForm_valid_iff w2) as (errors & Hrun & Hiff).
  rewrite Hrun. cbn [auth with_auth w2] in Hiff. cbn in Hiff.
  destruct (Nat.eqb (size errors) 0).
  - exfalso. destruct Hiff as [Hall _].
    destruct (Hall eq_refl) as (Hd & Hu & Hp).
    destruct Herr as [H | [[Hl H] | H]]; auto.
  - reflexivity.
Qed.

Lemma form_valid_or_not (w : World) :
  (validateDiscordUserId (Auth.discordUserId (auth w)) = JNull
   /\ (Auth.isLogin (auth w) = false ->
       validateUsername (Auth.username (auth w)) = JNull)
   /\ validatePassword (Auth.password (auth w)) = JNull)
  \/ (validateDiscordUserId (Auth.discordUserId (auth w)) <> JNull
      \/ (Auth.isLogin (auth w) = false
          /\ validateUsername (Auth.username (auth w)) <> JNull)
      \/ validatePassword (Auth.password (auth w)) <> JNull).
Proof.
  destruct (validator_null_or_truthy _ (Auth.discordUserId (auth w))
              (or_introl eq_refl)) as [[Hd _]|[Hd _]]; [|right; left; exact Hd].
  destruct (validator_null_or_truthy _ (Auth.password (auth w))
              (or_intror (or_intror eq_refl))) as [[Hp _]|[Hp _]];
    [|right; right; right; exact Hp].
  destruct (Auth.isLogin (auth w)) eqn:Hl.
  - left. split; [exact Hd|]. split; [discriminate|exact Hp].
  - destruct (validator_null_or_truthy _ (Auth.username (auth w))
                (or_intror (or_introl eq_refl))) as [[Hu _]|[Hu _]].
    + left. split; [exact Hd|]. split; [intros _; exact Hu|exact Hp].
    + right. right. left. split; [reflexivity|exact Hu].
Qed.

(** X10. Whatever [handleSubmit] sends is well formed: if it issues a
    request at all, it issues exactly one, a POST whose [discord_user_id]
    is a string of 17 to 19 digits without surrounding white space and
    whose [password] has at least six code units; in registration mode its
    [username] is trimmed and 2 to 32 code units long. *)
Theorem handleSubmit_sends_wellformed (net : server) (BACKEND_URL : jsval)
        (w : World) :
  sent (exec (Revised.handleSubmit net BACKEND_URL) w) <> sent w ->
  exists r id pw,
    sent (exec (Revised.handleSubmit net BACKEND_URL) w) = sent w ++ [r]
    /\ req_method r = POST
    /\ opt_prop (req_data r) "discord_user_id" = JStr id
    /\ forallb is_digit id = true
    /\ (17 <= length id <= 19)%nat
    /\ trim id = id
    /\ opt_prop (req_data r) "password" = JStr pw
    /\ pw = Auth.password (auth w)
    /\ (6 <= length pw)%nat
    /\ (Auth.isLogin (auth w) = false ->
        exists un, opt_prop (req_data r) "username" = JStr un
                   /\ trim un = un
                   /\ (2 <= length un <= 32)%nat).
Proof.
  intros Hsent.
  destruct (form_valid_or_not w) as [(Hd & Hu & Hp)|Hbad];
    [|exfalso; apply Hsent;
      exact (handleSubmit_invalid_no_request net BACKEND_URL w Hbad)].
  destruct (handleSubmit_valid_sends net BACKEND_URL w Hd Hu Hp)
    as (r & Hs & Hm & Hdata).
  destruct (validateDiscordUserId_null_inv _ Hd) as (_ & Hdig & Hlen).
  pose proof (validatePassword_null_inv _ Hp) as Hpl.
  exists r, (trim (Auth.discordUserId (auth w))), (Auth.password (auth w)).
  split; [exact Hs|]. split; [exact Hm|]. rewrite Hdata.
  destruct (Auth.isLogin (auth w)) eqn:Hl.
  - split; [reflexivity|]. split; [exact Hdig|]. split; [exact Hlen|].
    split; [apply trim_idempotent|]. split; [reflexivity|].
    split; [reflexivity|]. split; [exact Hpl|]. intros H; discriminate H.
  - split; [reflexivity|]. split; [exact Hdig|]. split; [exact Hlen|].
    split; [apply trim_idempotent|]. split; [reflexivity|].
    split; [reflexivity|]. split; [exact Hpl|].
    intros _. exists (trim (Auth.username (auth w))).
    split; [reflexivity|]. split; [apply trim_idempotent|].
    apply validateUsername_null_inv, Hu. reflexivity.
Qed.

Lemma handleSubmit_sends_wellformed_witness :
  sent (exec (Revised.handleSubmit granting backend) (signed_out fresh_form))
  <> sent (signed_out fresh_form)
  /\ exists r id pw,
      sent (exec (Revised.handleSubmit granting backend) (signed_out fresh_form))
      = sent (signed_out fresh_form) ++ [r]
      /\ req_method r = POST
      /\ opt_prop (req_data r) "discord_user_id" = JStr id
      /\ forallb is_digit id = true
      /\ (17 <= length id <= 19)%nat
      /\ trim id = id
      /\ opt_prop (req_data r) "password" = JStr pw
      /\ pw = Auth.password (auth (signed_out fresh_form))
      /\ (6 <= length pw)%nat
      /\ (Auth.isLogin (auth (signed_out fresh_form)) = false ->
          exists un, opt_prop (req_data r) "username" = JStr un
                     /\ trim un = un
                     /\ (2 <= length un <= 32)%nat).
Proof.
  assert (H : sent (exec (Revised.handleSubmit granting backend)
                      (signed_out fresh_form))
              <> sent (signed_out fresh_form)).
  { intros Heq. vm_compute in Heq. discriminate Heq. }
  split; [exact H|].
  exact (handleSubmit_sends_wellformed granting backend (signed_out fresh_form) H).
Defined.

(** X11. Switching mode empties the form: after [toggleMode] the id, the
    username and the password are empty, the error and the field errors
    are cleared and the mode is the other one, a second [toggleMode]
    bringing the first mode back. A submit right after a switch therefore
    sends nothing. *)
Theorem toggleMode_then_submit (net : server) (BACKEND_URL : jsval) (w : World) :
  let w' := exec Revised.toggleMode w in
  Auth.isLogin (auth w') = negb (Auth.isLogin (auth w))
  /\ Auth.discordUserId (auth w') = []
  /\ Auth.username (auth w') = []
  /\ Auth.password (auth w') = []
  /\ Auth.error (auth w') = JStr []
  /\ Auth.fieldErrors (auth w') = ∅
  /\ Auth.isLogin (auth (exec Revised.toggleMode w')) = Auth.isLogin (auth w)
  /\ sent (exec (Revised.handleSubmit net BACKEND_URL) w') = sent w
  /\ localStorage (exec (Revised.handleSubmit net BACKEND_URL) w') = localStorage w.
Proof.
  cbv zeta.
  assert (Hbad : validateDiscordUserId
                   (Auth.discordUserId (auth (exec Revised.toggleMode w)))
                 <> JNull) by discriminate.
  repeat (split; [reflexivity|]).
  split; [cbn; apply negb_involutive|].
  split.
  - rewrite (handleSubmit_invalid_no_request net BACKEND_URL _ (or_introl Hbad)).
    reflexivity.
  - unfold Revised.handleSubmit. eff_run.
    set (w2 := with_auth _ (with_auth _ _)).
    destruct (validateForm_valid_iff w2) as (errors & Hrun & Hiff).
    rewrite Hrun. cbn [auth with_auth w2] in Hiff. cbn in Hiff.
    destruct (Nat.eqb (size errors) 0); [|reflexivity].
    destruct Hiff as [Hall _]. destruct (Hall eq_refl) as (Hd & _).
    discriminate Hd.
Qed.

(** X12. Typing in a field stores the new value and clears that field's
    error only: afterwards the field's own entry of [fieldErrors] is
    falsy, the entries of the other fields are what they were, and the
    other inputs are untouched. *)
Theorem onChange_clears_own_error (value : jsstring) (w : World) :
  let w1 := exec (Revised.onChange_discordUserId value) w in
  let w2 := exec (Revised.onChange_username value) w in
  let w3 := exec (Revised.onChange_password value) w in
  (Auth.discordUserId (auth w1) = value
   /\ truthy (Revised.field_error (Auth.fieldErrors (auth w1)) "discordUserId")
      = false
   /\ (forall k, k <> "discordUserId"%string ->
                 Auth.fieldErrors (auth w1) !! k = Auth.fieldErrors (auth w) !! k)
   /\ Auth.username (auth w1) = Auth.username (auth w)
   /\ Auth.password (auth w1) = Auth.password (auth w))
  /\ (Auth.username (auth w2) = value
      /\ truthy (Revised.field_error (Auth.fieldErrors (auth w2)) "username")
         = false
      /\ (forall k, k <> "username"%string ->
                    Auth.fieldErrors (auth w2) !! k = Auth.fieldErrors (auth w) !! k)
      /\ Auth.discordUserId (auth w2) = Auth.discordUserId (auth w)
      /\ Auth.password (auth w2) = Auth.password (auth w))
  /\ (Auth.password (auth w3) = value
      /\ truthy (Revised.field_error (Auth.fieldErrors (auth w3)) "password")
         = false
      /\ (forall k, k <> "password"%string ->
                    Auth.fieldErrors (auth w3) !! k = Auth.fieldErrors (auth w) !! k)
      /\ Auth.discordUserId (auth w3) = Auth.discordUserId (auth w)
      /\ Auth.username (auth w3) = Auth.username (auth w)).
Proof.
  cbv zeta.
  unfold Revised.onChange_discordUserId, Revised.onChange_username,
    Revised.onChange_password. eff_run.
  split; [|split].
  - destruct (truthy (Revised.field_error (Auth.fieldErrors (auth w))
                        "discordUserId")) eqn:Ht; cbn.
    + repeat split.
      * unfold Revised.field_error. rewrite lookup_insert_eq. reflexivity.
      * intros k Hk. apply lookup_insert_ne. congruence.
    + repeat split. exact Ht.
  - destruct (truthy (Revised.field_error (Auth.fieldErrors (auth w))
                        "username")) eqn:Ht; cbn.
    + repeat split.
      * unfold Revised.field_error. rewrite lookup_insert_eq. reflexivity.
      * intros k Hk. apply lookup_insert_ne. congruence.
    + repeat split. exact Ht.
  - destruct (truthy (Revised.field_error (Auth.fieldErrors (auth w))
                        "password")) eqn:Ht; cbn.
    + repeat split.
      * unfold Revised.field_error. rewrite lookup_insert_eq. reflexivity.
      * intros k Hk. apply lookup_insert_ne. congruence.
    + repeat split. exact Ht.
Qed.

(** ** Startup and the way to the dashboard *)

(** X13. What the app shows after mounting. With no token in
    [localStorage], or an empty one, it asks the server nothing and shows
    the Auth screen. With a non-empty token it fetches the current
    account: if the fetch resolves, [user] is the body of the response,
    the token stays stored, and the dashboard is shown exactly when that
    body is truthy; if it is rejected, the token is removed and the Auth
    screen is shown. *)
Theorem startup_screen (net : server) (BACKEND_URL : jsval) (w : World) :
  let w' := exec (Revised.mount net BACKEND_URL) w in
  (localStorage w !! "token"%string = None
   \/ localStorage w !! "token"%string = Some [] ->
   sent w' = sent w
   /\ headers_common w' = headers_common w
   /\ localStorage w' = localStorage w
   /\ Revised.AppRouter w' = AuthScreen)
  /\ (forall s, localStorage w !! "token"%string = Some s -> s <> [] ->
        let req := me_request BACKEND_URL
                     (with_headers
                        (fun m => <["Authorization"%string := bearer s]> m) w) in
        sent w' = sent w ++ [req]
        /\ (forall data, net (length (sent w)) req = Resolved data ->
              AuthProvider.user (provider w') = data
              /\ localStorage w' = localStorage w
              /\ Revised.AppRouter w'
                 = (if truthy data then DashboardScreen else AuthScreen))
        /\ (forall e, net (length (sent w)) req = Rejected e ->
              localStorage w' !! "token"%string = None
              /\ headers_common w' !! "Authorization"%string = None
              /\ Revised.AppRouter w' = AuthScreen)).
Proof.
  cbv zeta. unfold exec. rewrite mount_run, useEffect_token_run.
  cbn [provider with_provider Revised.AuthProvider_init AuthProvider.token].
  unfold getItem. split.
  - intros [-> | ->]; cbn; repeat split.
  - intros s Hs Hne. rewrite Hs.
    replace (truthy (JStr s)) with true by (destruct s; [congruence|reflexivity]).
    rewrite fetchUser_run. cbv zeta. cbn [snd].
    set (w1 := with_headers _ (with_provider _ w)).
    set (req := me_request BACKEND_URL (with_headers _ w)).
    change (me_request BACKEND_URL w1) with req.
    change (sent w1) with (sent w).
    split; [destruct (net _ _); reflexivity|].
    split.
    + intros data Hd. rewrite Hd.
      split; [reflexivity|]. split; [reflexivity|]. reflexivity.
    + intros e He. rewrite He.
      split; [apply lookup_delete_eq|]. split; [apply lookup_delete_eq|].
      reflexivity.
Qed.

Lemma startup_screen_witness :
  localStorage returning !! "token"%string = Some (lit "tok-1")
  /\ lit "tok-1" <> []
  /\ sent (exec (Revised.mount refusing backend) returning)
     = sent returning
       ++ [me_request backend
             (with_headers
                (fun m => <["Authorization"%string := bearer (lit "tok-1")]> m)
                returning)].
Proof.
  assert (H1 : localStorage returning !! "token"%string = Some (lit "tok-1"))
    by (vm_compute; reflexivity).
  assert (H2 : lit "tok-1" <> []) by discriminate.
  split; [exact H1|]. split; [exact H2|].
  exact (proj1 (proj2 (startup_screen refusing backend returning)
                  (lit "tok-1") H1 H2)).
Defined.

(** X14. Signing in end to end. From a login form that passes its
    validators, when the server grants a truthy token [a] and then
    resolves the current-account fetch with a truthy body, the submit,
    the token effect and the first effect of the dashboard send exactly
    three requests: the login POST, [GET /auth/me] and [GET /notes]
    without query, the last two carrying [Bearer a]; [user] is the
    account and the router shows the dashboard. *)
Theorem sign_in_reaches_dashboard (net : server) (BACKEND_URL : jsval)
        (w : World) (data a account : jsval) :
  Auth.isLogin (auth w) = true ->
  validateDiscordUserId (Auth.discordUserId (auth w)) = JNull ->
  validatePassword (Auth.password (auth w)) = JNull ->
  let headers := <["Authorization"%string := bearer (to_string a)]>
                   (headers_common w) in
  let post := login_request BACKEND_URL (trim (Auth.discordUserId (auth w)))
                (Auth.password (auth w)) w in
  let me := me_request BACKEND_URL (with_headers (fun _ => headers) w) in
  let list := notes_request BACKEND_URL [] (with_headers (fun _ => headers) w) in
  net (length (sent w)) post = Resolved data ->
  get_prop data "access_token" = Some a ->
  truthy a = true ->
  net (S (length (sent w))) me = Resolved account ->
  truthy account = true ->
  let w1 := exec (Revised.handleSubmit net BACKEND_URL) w in
  let w2 := exec (Revised.useEffect_token net BACKEND_URL) w1 in
  let w3 := exec (Revised.useEffect_dashboard net BACKEND_URL) w2 in
  sent w3 = sent w ++ [post; me; list]
  /\ carries (to_string a) me
  /\ carries (to_string a) list
  /\ AuthProvider.user (provider w2) = account
  /\ Revised.AppRouter w2 = DashboardScreen
  /\ Revised.AppRouter w3 = DashboardScreen
  /\ installed (to_string a) w3.
Proof.
  intros Hl Hd Hp. cbv zeta. intros Hpost Ha Hta Hme Hacc.
  assert (Hw1 : exec (Revised.handleSubmit net BACKEND_URL) w
                = with_auth (Auth.setLoading false)
                    (with_provider (AuthProvider.setToken a)
                       (with_headers
                          (fun m => <["Authorization"%string :=
                                       lit "Bearer " ++ to_string a]> m)
                          (with_localStorage
                             (fun m => <["token"%string := to_string a]> m)
                             (with_sent
                                (fun l => l ++ [login_request BACKEND_URL
                                                  (trim (Auth.discordUserId (auth w)))
                                                  (Auth.password (auth w)) w])
                                (with_auth (Auth.setLoading true)
                                   (with_auth (Auth.setFieldErrors ∅)
                                      (with_auth (Auth.setFieldErrors ∅)
                                         (with_auth (Auth.setError (JStr [])) w))))))))).
  { unfold exec, Revised.handleSubmit. eff_run.
    set (w2 := with_auth _ (with_auth _ w)).
    destruct (validateForm_valid_iff w2) as (errors & Hrun & Hiff).
    rewrite Hrun. cbn [auth with_auth w2] in Hiff. cbn in Hiff.
    destruct (Nat.eqb (size errors) 0) eqn:Hsz.
    2:{ destruct Hiff as [_ Hall].
        assert (Hu : Auth.isLogin (auth w) = false ->
                     validateUsername (Auth.username (auth w)) = JNull)
          by (rewrite Hl; discriminate).
        discriminate (Hall (conj Hd (conj Hu Hp))). }
    apply Nat.eqb_eq, map_size_empty_iff in Hsz. subst errors.
    cbn [negb]. rewrite Hl. set (w3 := with_auth (Auth.setLoading true) _).
    rewrite login_run. cbv zeta.
    change (login_request BACKEND_URL (trim (Auth.discordUserId (auth w)))
              (Auth.password (auth w)) w3)
      with (login_request BACKEND_URL (trim (Auth.discordUserId (auth w)))
              (Auth.password (auth w)) w).
    change (sent w3) with (sent w).
    rewrite Hpost, Ha. reflexivity. }
  rewrite Hw1. clear Hw1. set (w1 := with_auth (Auth.setLoading false) _).
  set (me := me_request BACKEND_URL (with_headers _ w)) in *.
  set (list := notes_request BACKEND_URL [] (with_headers _ w)).
  assert (Hw2 : exec (Revised.useEffect_token net BACKEND_URL) w1
                = with_provider (AuthProvider.setLoading false)
                    (with_provider (AuthProvider.setUser account)
                       (with_sent (fun l => l ++ [me]) w1))).
  { unfold exec. rewrite useEffect_token_run.
    change (AuthProvider.token (provider w1)) with a. rewrite Hta.
    rewrite fetchUser_run. cbv zeta. cbn [snd].
    set (w1' := with_headers _ w1).
    assert (Hreq : me_request BACKEND_URL w1' = me).
    { unfold me_request, me, w1', w1, bearer.
      cbn [headers_common with_headers with_provider with_auth
           with_localStorage with_sent].
      rewrite insert_insert_eq. reflexivity. }
    rewrite Hreq.
    replace (length (sent w1')) with (S (length (sent w)))
      by (unfold w1', w1; cbn [sent with_headers with_provider with_auth
                                 with_localStorage with_sent];
          rewrite length_app, Nat.add_1_r; reflexivity).
    rewrite Hme.
    apply World_ext; unfold w1'; world_proj; try reflexivity.
    unfold w1. world_proj. apply insert_insert_eq. }
  rewrite Hw2. clear Hw2. set (w2 := with_provider _ (with_provider _ _)).
  assert (Hs2 : sent w2
                = sent w ++ [login_request BACKEND_URL
                               (trim (Auth.discordUserId (auth w)))
                               (Auth.password (auth w)) w; me]).
  { unfold w2, w1.
    cbn [sent with_headers with_provider with_auth with_localStorage with_sent].
    rewrite <- app_assoc. reflexivity. }
  assert (Hh2 : headers_common w2
                = <["Authorization"%string := bearer (to_string a)]>
                    (headers_common w)) by reflexivity.
  assert (Hi2 : installed (to_string a) w2).
  { split; [|rewrite Hh2]; [|apply lookup_insert_eq].
    unfold w2, w1. cbn [localStorage with_headers with_provider with_auth
                          with_localStorage with_sent].
    apply lookup_insert_eq. }
  assert (Hr2 : Revised.AppRouter w2 = DashboardScreen).
  { unfold Revised.AppRouter, w2.
    cbn [provider with_provider AuthProvider.loading AuthProvider.user
         AuthProvider.setLoading AuthProvider.setUser].
    rewrite Hacc. reflexivity. }
  pose proof (fetchNotes_same_credentials net BACKEND_URL None w2)
    as (Hl3 & Hh3 & Hp3 & _).
  unfold Revised.useEffect_dashboard.
  split.
  { unfold exec. rewrite fetchNotes_run. cbv zeta. cbn [snd].
    assert (Hreq : notes_request BACKEND_URL [] w2 = list) by reflexivity.
    change (default [] None) with (@nil N). cbn [truthy].
    rewrite Hreq.
    transitivity (sent w2 ++ [list]);
      [destruct (net (length (sent w2)) list); reflexivity|].
    rewrite Hs2, <- app_assoc. reflexivity. }
  split; [unfold carries, me, me_request; cbn [req_headers headers_common
            with_headers]; apply lookup_insert_eq|].
  split; [unfold carries, list, notes_request; cbn [req_headers headers_common
            with_headers]; apply lookup_insert_eq|].
  split; [reflexivity|]. split; [exact Hr2|].
  split.
  { unfold Revised.AppRouter in *. rewrite Hp3. exact Hr2. }
  destruct Hi2 as [Hi2l Hi2h]. split; [rewrite Hl3|rewrite Hh3]; assumption.
Qed.

(** ** More on the dashboard *)

(** X15. A fetch of the notes never loses the list on failure: when
    [GET /notes] is rejected, [notes] is what it was and the failure goes
    to the console; when it resolves, [notes] is the body of the response,
    whatever it is. Either way both loading flags end [false] and the
    search term and the editor are untouched. *)
Theorem fetchNotes_outcome (net : server) (BACKEND_URL : jsval)
        (arg : option jsstring) (w : World) :
  let search := default [] arg in
  let req := notes_request BACKEND_URL
               (if truthy (JStr search)
                then [("search"%string, JStr search)] else []) w in
  let w' := exec (Revised.fetchNotes net BACKEND_URL arg) w in
  Dashboard.loading (dashboard w') = false
  /\ Dashboard.searchLoading (dashboard w') = false
  /\ Dashboard.searchTerm (dashboard w') = Dashboard.searchTerm (dashboard w)
  /\ Dashboard.editingNote (dashboard w') = Dashboard.editingNote (dashboard w)
  /\ Dashboard.editContent (dashboard w') = Dashboard.editContent (dashboard w)
  /\ (forall e, net (length (sent w)) req = Rejected e ->
                Dashboard.notes (dashboard w') = Dashboard.notes (dashboard w)
                /\ console w' = console w ++ ["Failed to fetch notes:"%string])
  /\ (forall data, net (length (sent w)) req = Resolved data ->
                   Dashboard.notes (dashboard w') = data
                   /\ console w' = console w).
Proof.
  cbv zeta. unfold exec. rewrite fetchNotes_run. cbv zeta. cbn [snd].
  set (req := notes_request _ _ w).
  change (notes_request BACKEND_URL
            (if truthy (JStr (default [] arg))
             then [("search"%string, JStr (default [] arg))] else [])
            w) with req.
  destruct (net (length (sent w)) req) as [data|e];
    repeat (split; [reflexivity|]).
  - split; [intros e He; discriminate He|].
    intros d Hd. inversion Hd; subst d. split; reflexivity.
  - split; [|intros d Hd; discriminate Hd].
    intros e' _. split; reflexivity.
Qed.

(** X16. [handleDelete] asks before it acts. Without confirmation it
    changes nothing. With it, it sends one DELETE to [/notes/<id>]; if
    that is rejected nothing else is sent and the list is as before; if
    it resolves, the list is fetched again under the current search
    term, so exactly two requests go out. *)
Theorem handleDelete_requests (net : server) (BACKEND_URL : jsval)
        (noteId : jsval) (w : World) :
  let del := {| req_method := DELETE;
                req_url := Revised.API BACKEND_URL ++ lit "/notes/"
                             ++ to_string noteId;
                req_data := JUndefined;
                req_params := [];
                req_headers := headers_common w |} in
  let term := Dashboard.searchTerm (dashboard w) in
  let list := notes_request BACKEND_URL
                (if truthy (JStr term)
                 then [("search"%string, JStr term)] else []) w in
  exec (Revised.handleDelete net BACKEND_URL false noteId) w = w
  /\ (forall e, net (length (sent w)) del = Rejected e ->
        let w' := exec (Revised.handleDelete net BACKEND_URL true noteId) w in
        sent w' = sent w ++ [del]
        /\ dashboard w' = dashboard w
        /\ console w' = console w ++ ["Failed to delete note:"%string])
  /\ (forall data, net (length (sent w)) del = Resolved data ->
        let w' := exec (Revised.handleDelete net BACKEND_URL true noteId) w in
        sent w' = sent w ++ [del; list]
        /\ w' = exec (Revised.fetchNotes net BACKEND_URL (Some term))
                  (with_sent (fun l => l ++ [del]) w)).
Proof.
  cbv zeta. split; [|split].
  - unfold exec, Revised.handleDelete. eff_run. destruct w; reflexivity.
  - intros e He. unfold exec, Revised.handleDelete. eff_run.
    rewrite He. cbn [snd]. repeat split.
  - intros data Hd. unfold exec, Revised.handleDelete. eff_run.
    rewrite Hd.
    set (w2 := with_sent _ w).
    pose proof (fetchNotes_run net BACKEND_URL
                  (Some (Dashboard.searchTerm (dashboard w))) w2) as Hf.
    cbv zeta in Hf.
    change (default [] (Some (Dashboard.searchTerm (dashboard w))))
      with (Dashboard.searchTerm (dashboard w)) in Hf.
    set (params := if truthy _ then _ else _) in *.
    assert (Hreq : notes_request BACKEND_URL params w2
                   = notes_request BACKEND_URL params w) by reflexivity.
    rewrite Hreq in Hf.
    destruct (Revised.fetchNotes net BACKEND_URL
                (Some (Dashboard.searchTerm (dashboard w))) w2) as [[] w3].
    cbv beta iota. cbn [snd].
    split; [|reflexivity].
    apply (f_equal snd) in Hf. cbn [snd] in Hf. subst w3.
    transitivity (sent w2 ++ [notes_request BACKEND_URL params w]);
      [destruct (net (length (sent w2))
                     (notes_request BACKEND_URL params w)); reflexivity|].
    unfold w2. world_proj. rewrite <- app_assoc. reflexivity.
Qed.

(** X17. [handleSaveEdit] sends one PUT to [/notes/<id>] whose body is
    exactly [{content}], the text in the editor. If it is rejected the
    editor stays open with its text, nothing else is sent and the list is
    as before; if it resolves, the editor is closed and the list is
    fetched again under the current search term. *)
Theorem handleSaveEdit_requests (net : server) (BACKEND_URL : jsval)
        (noteId : jsval) (w : World) :
  let put := {| req_method := PUT;
                req_url := Revised.API BACKEND_URL ++ lit "/notes/"
                             ++ to_string noteId;
                req_data := JObj [("content"%string,
                                   Dashboard.editContent (dashboard w))];
                req_params := [];
                req_headers := headers_common w |} in
  let term := Dashboard.searchTerm (dashboard w) in
  let list := notes_request BACKEND_URL
                (if truthy (JStr term)
                 then [("search"%string, JStr term)] else []) w in
  let w' := exec (Revised.handleSaveEdit net BACKEND_URL noteId) w in
  (forall e, net (length (sent w)) put = Rejected e ->
     sent w' = sent w ++ [put]
     /\ dashboard w' = dashboard w
     /\ console w' = console w ++ ["Failed to update note:"%string])
  /\ (forall data, net (length (sent w)) put = Resolved data ->
        sent w' = sent w ++ [put; list]
        /\ Dashboard.editingNote (dashboard w') = JNull
        /\ Dashboard.editContent (dashboard w')
           = Dashboard.editContent (dashboard w)).
Proof.
  cbv zeta. split.
  - intros e He. unfold exec, Revised.handleSaveEdit. eff_run.
    rewrite He. cbn [snd]. repeat split.
  - intros data Hd. unfold exec, Revised.handleSaveEdit. eff_run.
    rewrite Hd.
    set (w2 := with_dashboard _ (with_sent _ w)).
    pose proof (fetchNotes_run net BACKEND_URL
                  (Some (Dashboard.searchTerm (dashboard w))) w2) as Hf.
    cbv zeta in Hf.
    change (default [] (Some (Dashboard.searchTerm (dashboard w))))
      with (Dashboard.searchTerm (dashboard w)) in Hf.
    set (params := if truthy _ then _ else _) in *.
    assert (Hreq : notes_request BACKEND_URL params w2
                   = notes_request BACKEND_URL params w) by reflexivity.
    rewrite Hreq in Hf.
    destruct (Revised.fetchNotes net BACKEND_URL
                (Some (Dashboard.searchTerm (dashboard w))) w2) as [[] w3].
    cbv beta iota. cbn [snd].
    apply (f_equal snd) in Hf. cbn [snd] in Hf. subst w3.
    split.
    { transitivity (sent w2 ++ [notes_request BACKEND_URL params w]);
        [destruct (net (length (sent w2))
                     (notes_request BACKEND_URL params w)); reflexivity|].
      unfold w2. world_proj. rewrite <- app_assoc. reflexivity. }
    destruct (net (length (sent w2)) (notes_request BACKEND_URL params w));
      split; reflexivity.
Qed.

(** X18. Opening a note in the editor and saving it unchanged sends the
    note's own content back to the note's own address: after
    [handleEdit(note)], [handleSaveEdit(note.id)] issues a PUT to
    [/notes/<note.id>] with body [{content: note.content}]. On a note
    that is [null] or [undefined], [handleEdit] raises and changes
    nothing. *)
Theorem edit_then_save_round_trip (net : server) (BACKEND_URL : jsval)
        (note id content : jsval) (w : World) :
  get_prop note "id" = Some id ->
  get_prop note "content" = Some content ->
  let w1 := exec (Revised.handleEdit note) w in
  let w2 := exec (Revised.handleSaveEdit net BACKEND_URL id) w1 in
  eval (Revised.handleEdit note) w = Returned tt
  /\ Dashboard.editingNote (dashboard w1) = id
  /\ sent w1 = sent w
  /\ (exists r rest,
         sent w2 = sent w ++ r :: rest
         /\ req_method r = PUT
         /\ req_url r = Revised.API BACKEND_URL ++ lit "/notes/" ++ to_string id
         /\ req_data r = JObj [("content"%string, content)])
  /\ (forall bad, is_nullish bad = true ->
        Revised.handleEdit bad w = (Threw, w)).
Proof.
  intros Hid Hc. cbv zeta.
  assert (Hw1 : Revised.handleEdit note w
                = (Returned tt,
                   with_dashboard (Dashboard.setEditContent content)
                     (with_dashboard (Dashboard.setEditingNote id) w))).
  { unfold Revised.handleEdit. rewrite Hid, Hc. reflexivity. }
  unfold eval, exec at 1 2 4. rewrite !Hw1. cbn [fst snd].
  repeat (split; [reflexivity|]). split.
  - set (w1 := with_dashboard _ _).
    unfold exec, Revised.handleSaveEdit. eff_run.
    set (put := Build_request PUT _ _ _ _).
    exists put.
    destruct (net (length (sent w1)) put) as [data|e].
    + set (w2 := with_dashboard _ (with_sent _ w1)).
      pose proof (fetchNotes_same_credentials net BACKEND_URL
                    (Some (Dashboard.searchTerm (dashboard w1))) w2)
        as (_ & _ & _ & new & Hs & _).
      unfold exec in Hs.
      destruct (Revised.fetchNotes net BACKEND_URL _ w2) as [u w3].
      cbn [snd] in *. exists new.
      split; [rewrite Hs; unfold w2; cbn [sent with_sent with_dashboard];
              rewrite <- app_assoc; reflexivity|].
      repeat split.
    + exists []. cbn [snd]. repeat split.
  - intros bad Hb. destruct bad; try discriminate Hb; reflexivity.
Qed.

(** ** The first revision *)

(** X19. The [register] of the first revision and the current one are the
    same function of the world: same request, same writes on success,
    same message on failure, the array branch of the current [catch]
    block never being taken. *)
Theorem register_revisions_agree (net : server) (BACKEND_URL : jsval)
        (discordUserId username password : jsstring) (w : World) :
  Original.register net BACKEND_URL discordUserId username password w
  = Revised.register net BACKEND_URL discordUserId username password w
  /\ sent (exec (Original.register net BACKEND_URL discordUserId username
                   password) w)
     = sent w ++ [register_request BACKEND_URL discordUserId username password w].
Proof.
  rewrite register_run. unfold exec, Original.register, register_request.
  cbv zeta. eff_run.
  destruct (net _ _) as [data|e]; [|split; reflexivity].
  destruct (get_prop data "access_token"); split; reflexivity.
Qed.

(** X20. The form of the first revision checks for blanks only. If the
    trimmed id or the trimmed password is empty, or in registration mode
    the trimmed username, [handleSubmit] sends nothing and shows an error;
    otherwise it sends one request with the id, the username and the
    password exactly as typed, untrimmed. In both cases the form ends not
    loading. *)
Theorem original_handleSubmit_gate (net : server) (BACKEND_URL : jsval)
        (w : World) :
  let form := auth w in
  let w' := exec (Original.handleSubmit net BACKEND_URL) w in
  (trim (Auth.discordUserId form) = []
   \/ trim (Auth.password form) = []
   \/ (Auth.isLogin form = false /\ trim (Auth.username form) = []) ->
   sent w' = sent w
   /\ truthy (Auth.error (auth w')) = true
   /\ Auth.loading (auth w') = false
   /\ localStorage w' = localStorage w
   /\ headers_common w' = headers_common w)
  /\ (trim (Auth.discordUserId form) <> [] ->
      trim (Auth.password form) <> [] ->
      (Auth.isLogin form = false -> trim (Auth.username form) <> []) ->
      sent w' = sent w
                ++ [if Auth.isLogin form
                    then login_request BACKEND_URL (Auth.discordUserId form)
                           (Auth.password form) w
                    else register_request BACKEND_URL (Auth.discordUserId form)
                           (Auth.username form) (Auth.password form) w]
      /\ Auth.loading (auth w') = false).
Proof.
  cbv zeta.
  assert (Ht : forall s : jsstring,
             negb (truthy (JStr s)) = true <-> s = []).
  { intros [|c r]; cbn; split; congruence. }
  unfold exec, Original.handleSubmit. eff_run.
  destruct (negb (truthy (JStr (trim (Auth.discordUserId (auth w))))))
    eqn:Hid.
  { apply Ht in Hid. split; [intros _; repeat split|intros H; contradiction]. }
  destruct (negb (truthy (JStr (trim (Auth.password (auth w)))))) eqn:Hpw.
  { apply Ht in Hpw. split; [intros _; repeat split|intros _ H; contradiction]. }
  assert (Hid' : trim (Auth.discordUserId (auth w)) <> []).
  { intros H. apply Ht in H. congruence. }
  assert (Hpw' : trim (Auth.password (auth w)) <> []).
  { intros H. apply Ht in H. congruence. }
  set (w2 := with_auth (Auth.setLoading true) _).
  destruct (Auth.isLogin (auth w)) eqn:Hl.
  - rewrite original_login_run. cbv zeta.
    change (login_request BACKEND_URL (Auth.discordUserId (auth w))
              (Auth.password (auth w)) w2)
      with (login_request BACKEND_URL (Auth.discordUserId (auth w))
              (Auth.password (auth w)) w).
    change (sent w2) with (sent w).
    split.
    + intros [H | [H | [H _]]]; [contradiction|contradiction|discriminate H].
    + intros _ _ _.
      destruct (net _ _) as [data|e];
        [destruct (get_prop data "access_token")|]; split; reflexivity.
  - destruct (negb (truthy (JStr (trim (Auth.username (auth w)))))) eqn:Hun.
    { apply Ht in Hun. split; [intros _; repeat split|].
      intros _ _ H. exfalso. exact (H eq_refl Hun). }
    assert (Hun' : trim (Auth.username (auth w)) <> []).
    { intros H. apply Ht in H. congruence. }
    pose proof (register_run net BACKEND_URL (Auth.discordUserId (auth w))
                  (Auth.username (auth w)) (Auth.password (auth w)) w2) as Hr.
    cbv zeta in Hr.
    assert (Ho : Original.register net BACKEND_URL (Auth.discordUserId (auth w))
                   (Auth.username (auth w)) (Auth.password (auth w)) w2
                 = Revised.register net BACKEND_URL (Auth.discordUserId (auth w))
                     (Auth.username (auth w)) (Auth.password (auth w)) w2).
    { rewrite register_run. unfold Original.register, register_request.
      cbv zeta. eff_run.
      destruct (net _ _) as [data|e]; [|reflexivity].
      destruct (get_prop data "access_token"); reflexivity. }
    rewrite Ho, Hr.
    change (register_request BACKEND_URL (Auth.discordUserId (auth w))
              (Auth.username (auth w)) (Auth.password (auth w)) w2)
      with (register_request BACKEND_URL (Auth.discordUserId (auth w))
              (Auth.username (auth w)) (Auth.password (auth w)) w).
    change (sent w2) with (sent w).
    split.
    + intros [H | [H | [_ H]]]; contradiction.
    + intros _ _ _.
      destruct (net _ _) as [data|e];
        [destruct (get_prop data "access_token")|]; split; reflexivity.
Qed.

(** X21. Fetching the notes is the same in both revisions but for the
    flag the current one adds: on every input, the current [fetchNotes]
    leaves the world the first one leaves, with [searchLoading]
    [false]. In particular both send the same request and end with the
    same [notes]. *)
Theorem fetchNotes_revisions_agree (net : server) (BACKEND_URL : jsval)
        (arg : option jsstring) (w : World) :
  exec (Revised.fetchNotes net BACKEND_URL arg) w
  = with_dashboard (Dashboard.setSearchLoading false)
      (exec (Original.fetchNotes net BACKEND_URL arg) w).
Proof.
  unfold exec. rewrite fetchNotes_run. cbv zeta.
  unfold Original.fetchNotes, notes_request. eff_run.
  destruct (net _ _); reflexivity.
Qed.

(** X22. On a form that the current validators accept, whose id and
    username carry no surrounding white space and whose password is not
    blank, [handleSubmit] does in both revisions the same thing: the
    current one leaves the world the first one leaves, with [fieldErrors]
    emptied. So both send the same request, store the same credential
    and show the same error. *)
Theorem handleSubmit_revisions_agree (net : server) (BACKEND_URL : jsval)
        (w : World) :
  validateDiscordUserId (Auth.discordUserId (auth w)) = JNull ->
  (Auth.isLogin (auth w) = false ->
   validateUsername (Auth.username (auth w)) = JNull) ->
  validatePassword (Auth.password (auth w)) = JNull ->
  trim (Auth.discordUserId (auth w)) = Auth.discordUserId (auth w) ->
  (Auth.isLogin (auth w) = false ->
   trim (Auth.username (auth w)) = Auth.username (auth w)) ->
  trim (Auth.password (auth w)) <> [] ->
  exec (Revised.handleSubmit net BACKEND_URL) w
  = with_auth (Auth.setFieldErrors ∅)
      (exec (Original.handleSubmit net BACKEND_URL) w)
  /\ eval (Revised.handleSubmit net BACKEND_URL) w
     = eval (Original.handleSubmit net BACKEND_URL) w.
Proof.
  intros Hd Hu Hp Htid Htun Hpw.
  destruct (validateDiscordUserId_null_inv _ Hd) as (Hne & _ & _).
  unfold eval, exec, Revised.handleSubmit, Original.handleSubmit. eff_run.
  set (w2 := with_auth _ (with_auth _ w)).
  destruct (validateForm_valid_iff w2) as (errors & Hrun & Hiff).
  rewrite Hrun. cbn [auth with_auth w2] in Hiff. cbn in Hiff.
  destruct (Nat.eqb (size errors) 0) eqn:Hsz;
    [|destruct Hiff as [_ Hall]; discriminate (Hall (conj Hd (conj Hu Hp)))].
  apply Nat.eqb_eq, map_size_empty_iff in Hsz. subst errors.
  cbn [negb].
  replace (truthy (JStr (trim (Auth.discordUserId (auth w))))) with true
    by (destruct (trim (Auth.discordUserId (auth w))); [congruence|reflexivity]).
  replace (truthy (JStr (trim (Auth.password (auth w))))) with true
    by (destruct (trim (Auth.password (auth w))); [congruence|reflexivity]).
  cbn [negb]. rewrite Htid.
  destruct (Auth.isLogin (auth w)) eqn:Hl.
  - rewrite login_run, original_login_run. cbv zeta.
    destruct (net _ _) as [data|e];
      [destruct (get_prop data "access_token")|]; split; reflexivity.
  - pose proof (validateUsername_null_inv _ (Hu eq_refl)) as Hlen.
    replace (truthy (JStr (trim (Auth.username (auth w))))) with true
      by (destruct (trim (Auth.username (auth w))); [cbn in Hlen; lia|reflexivity]).
    cbn [negb]. rewrite (Htun eq_refl).
    set (wo := with_auth (Auth.setLoading true) (with_auth (Auth.setError (JStr [])) w)).
    assert (Ho : Original.register net BACKEND_URL (Auth.discordUserId (auth w))
                   (Auth.username (auth w)) (Auth.password (auth w)) wo
                 = Revised.register net BACKEND_URL (Auth.discordUserId (auth w))
                     (Auth.username (auth w)) (Auth.password (auth w)) wo).
    { rewrite register_run. unfold Original.register, register_request.
      cbv zeta. eff_run.
      destruct (net _ _) as [data|e]; [|reflexivity].
      destruct (get_prop data "access_token"); reflexivity. }
    rewrite Ho, !register_run. cbv zeta.
    destruct (net _ _) as [data|e];
      [destruct (get_prop data "access_token")|]; split; reflexivity.
Qed.

Lemma sign_in_reaches_dashboard_witness :
  Auth.isLogin (auth (signed_out fresh_form)) = true
  /\ validateDiscordUserId (Auth.discordUserId (auth (signed_out fresh_form)))
     = JNull
  /\ validatePassword (Auth.password (auth (signed_out fresh_form))) = JNull
  /\ truthy (JStr (lit "tok-1")) = true
  /\ truthy Scenes.alice_account = true
  /\ Revised.AppRouter
       (exec (Revised.useEffect_token Scenes.welcoming backend)
          (exec (Revised.handleSubmit Scenes.welcoming backend)
             (signed_out fresh_form)))
     = DashboardScreen.
Proof.
  assert (H1 : validateDiscordUserId
                 (Auth.discordUserId (auth (signed_out fresh_form))) = JNull)
    by (vm_compute; reflexivity).
  assert (H2 : validatePassword (Auth.password (auth (signed_out fresh_form)))
               = JNull) by (vm_compute; reflexivity).
  split; [reflexivity|]. split; [exact H1|]. split; [exact H2|].
  split; [reflexivity|]. split; [reflexivity|].
  exact (proj1 (proj2 (proj2 (proj2 (proj2
           (sign_in_reaches_dashboard Scenes.welcoming backend
              (signed_out fresh_form) token_response (JStr (lit "tok-1"))
              Scenes.alice_account eq_refl H1 H2 eq_refl eq_refl eq_refl
              eq_refl eq_refl)))))).
Defined.

Lemma edit_then_save_round_trip_witness :
  get_prop (JObj [("id"%string, JStr (lit "n1"));
                  ("content"%string, JStr (lit "buy milk"))]) "id"
  = Some (JStr (lit "n1"))
  /\ get_prop (JObj [("id"%string, JStr (lit "n1"));
                     ("content"%string, JStr (lit "buy milk"))]) "content"
     = Some (JStr (lit "buy milk"))
  /\ Dashboard.editingNote
       (dashboard
          (exec (Revised.handleEdit
                   (JObj [("id"%string, JStr (lit "n1"));
                          ("content"%string, JStr (lit "buy milk"))]))
             (signed_out fresh_form)))
     = JStr (lit "n1").
Proof.
  split; [reflexivity|]. split; [reflexivity|].
  exact (proj1 (proj2 (edit_then_save_round_trip granting backend
                         (JObj [("id"%string, JStr (lit "n1"));
                                ("content"%string, JStr (lit "buy milk"))])
                         (JStr (lit "n1")) (JStr (lit "buy milk"))
                         (signed_out fresh_form) eq_refl eq_refl))).
Defined.

Lemma handleSubmit_revisions_agree_witness :
  validateDiscordUserId (Auth.discordUserId (auth (signed_out fresh_form))) = JNull
  /\ validatePassword (Auth.password (auth (signed_out fresh_form))) = JNull
  /\ trim (Auth.discordUserId (auth (signed_out fresh_form)))
     = Auth.discordUserId (auth (signed_out fresh_form))
  /\ trim (Auth.password (auth (signed_out fresh_form))) <> []
  /\ eval (Revised.handleSubmit granting backend) (signed_out fresh_form)
     = eval (Original.handleSubmit granting backend) (signed_out fresh_form).
Proof.
  assert (H1 : validateDiscordUserId
                 (Auth.discordUserId (auth (signed_out fresh_form))) = JNull)
    by (vm_compute; reflexivity).
  assert (H2 : Auth.isLogin (auth (signed_out fresh_form)) = false ->
               validateUsername (Auth.username (auth (signed_out fresh_form)))
               = JNull) by (intros H; discriminate H).
  assert (H3 : validatePassword (Auth.password (auth (signed_out fresh_form)))
               = JNull) by (vm_compute; reflexivity).
  assert (H4 : trim (Auth.discordUserId (auth (signed_out fresh_form)))
               = Auth.discordUserId (auth (signed_out fresh_form)))
    by (vm_compute; reflexivity).
  assert (H5 : Auth.isLogin (auth (signed_out fresh_form)) = false ->
               trim (Auth.username (auth (signed_out fresh_form)))
               = Auth.username (auth (signed_out fresh_form)))
    by (intros H; discriminate H).
  assert (H6 : trim (Auth.password (auth (signed_out fresh_form))) <> []).
  { intros H. vm_compute in H. discriminate H. }
  split; [exact H1|]. split; [exact H3|]. split; [exact H4|]. split; [exact H6|].
  exact (proj2 (handleSubmit_revisions_agree granting backend
                  (signed_out fresh_form) H1 H2 H3 H4 H5 H6)).
Defined.

(** * Properties of the bot *)

(** ** Built-ins *)

Section BotBuiltins.

Lemma hex_digit_unreserved (n : N) :
  (n < 16)%N -> Bot.is_unreserved (Bot.hex_digit n) = true.
Proof.
  intros H. unfold Bot.hex_digit, Bot.is_unreserved.
  destruct (N.ltb_spec n 10) as [Hlt | Hge].
  - (* a decimal digit, '0' to '9' *)
    assert (Hlo : (48 <=? 48 + n)%N = true) by (apply N.leb_le; lia).
    assert (Hhi : (48 + n <=? 57)%N = true) by (apply N.leb_le; lia).
    rewrite Hlo, Hhi. cbn [andb]. rewrite !orb_true_r. reflexivity.
  - (* a letter, 'A' to 'F' *)
    assert (Hlo : (65 <=? 55 + n)%N = true) by (apply N.leb_le; lia).
    assert (Hhi : (55 + n <=? 90)%N = true) by (apply N.leb_le; lia).
    rewrite Hlo, Hhi. reflexivity.
Qed.

Lemma percent_safe (b : N) : (b < 256)%N -> Forall Bot.uri_safe (Bot.percent b).
Proof.
  intros Hb. unfold Bot.percent.
  apply Forall_cons. split; [right; reflexivity|].
  apply Forall_cons. split.
  { left. apply hex_digit_unreserved.
    apply N.Div0.div_lt_upper_bound. lia. }
  apply Forall_cons. split; [|constructor].
  left. apply hex_digit_unreserved. apply N.mod_lt. lia.
Qed.

Lemma utf8_octets (v : N) :
  (v < 1114112)%N -> Forall (fun b => (b < 256)%N) (Bot.utf8 v).
Proof.
  intros Hv. unfold Bot.utf8.
  assert (H64 : forall x, (128 + x mod 64 < 256)%N).
  { intros x. pose proof (N.mod_lt x 64 ltac:(lia)). lia. }
  destruct (N.ltb_spec v 128).
  { apply Forall_cons. split; [lia|constructor]. }
  destruct (N.ltb_spec v 2048).
  { assert (v / 64 < 32)%N by (apply N.Div0.div_lt_upper_bound; lia).
    repeat (apply Forall_cons; split; [first [apply H64|lia]|]).
    constructor. }
  destruct (N.ltb_spec v 65536).
  { assert (v / 4096 < 16)%N by (apply N.Div0.div_lt_upper_bound; lia).
    repeat (apply Forall_cons; split; [first [apply H64|lia]|]).
    constructor. }
  assert (v / 262144 < 5)%N by (apply N.Div0.div_lt_upper_bound; lia).
  repeat (apply Forall_cons; split; [first [apply H64|lia]|]).
  constructor.
Qed.

Lemma escape_safe (v : N) :
  (v < 1114112)%N -> Forall Bot.uri_safe (concat (map Bot.percent (Bot.utf8 v))).
Proof.
  intros Hv. pose proof (utf8_octets v Hv) as Ho.
  induction Ho as [|b l Hb _ IH]; cbn [map concat]; [constructor|].
  apply Forall_app. split; [apply percent_safe, Hb|exact IH].
Qed.

Lemma encodeURIComponent_cons (c : N) (r : jsstring) :
  Bot.encodeURIComponent (c :: r) =
  if Bot.is_unreserved c
  then option_map (cons c) (Bot.encodeURIComponent r)
  else if Bot.is_low_surrogate c then None
  else if Bot.is_high_surrogate c
  then match r with
       | k :: r' =>
           if Bot.is_low_surrogate k
           then option_map
                  (app (concat (map Bot.percent
                                  (Bot.utf8 ((c - 55296) * 1024
                                             + (k - 56320) + 65536)%N))))
                  (Bot.encodeURIComponent r')
           else None
       | [] => None
       end
  else option_map (app (concat (map Bot.percent (Bot.utf8 c))))
         (Bot.encodeURIComponent r).
Proof. destruct r; reflexivity. Qed.

Lemma option_map_Some {A B} (f : A -> B) (o : option A) (y : B) :
  option_map f o = Some y -> exists x, o = Some x /\ y = f x.
Proof.
  destruct o as [x|]; cbn; [|discriminate].
  intros H; inversion H. exists x. split; reflexivity.
Qed.

Lemma encodeURIComponent_safe_pair (s : jsstring) :
  (Forall (fun c => (c < 65536)%N) s ->
   forall e, Bot.encodeURIComponent s = Some e -> Forall Bot.uri_safe e)
  /\ (forall c, Forall (fun c => (c < 65536)%N) (c :: s) ->
        forall e, Bot.encodeURIComponent (c :: s) = Some e ->
                  Forall Bot.uri_safe e).
Proof.
  induction s as [|a s [IH0 IH1]].
  - split; [intros _ e He; inversion He; constructor|].
    intros c Hc e. rewrite encodeURIComponent_cons.
    apply Forall_cons in Hc as [Hc _].
    destruct (Bot.is_unreserved c) eqn:Hu.
    { intros He; inversion He.
      apply Forall_cons. split; [left; exact Hu|constructor]. }
    destruct (Bot.is_low_surrogate c); [discriminate|].
    destruct (Bot.is_high_surrogate c); [discriminate|].
    intros He; inversion He. rewrite app_nil_r. apply escape_safe. lia.
  - split; [intros H; exact (IH1 a H)|].
    intros c Hc e.
    apply Forall_cons in Hc as [Hc Has].
    pose proof Has as Has'. apply Forall_cons in Has' as [Ha Hs].
    rewrite encodeURIComponent_cons.
    destruct (Bot.is_unreserved c) eqn:Hu.
    { intros (e' & He' & ->)%option_map_Some.
      apply Forall_cons. split; [left; exact Hu|].
      exact (IH1 a Has e' He'). }
    destruct (Bot.is_low_surrogate c); [discriminate|].
    destruct (Bot.is_high_surrogate c) eqn:Hh.
    + destruct (Bot.is_low_surrogate a) eqn:Hl; [|discriminate].
      intros (e' & He' & ->)%option_map_Some.
      apply Forall_app. split; [|exact (IH0 Hs e' He')].
      apply escape_safe.
      unfold Bot.is_high_surrogate in Hh. unfold Bot.is_low_surrogate in Hl.
      apply andb_prop in Hh as [Hh1%N.leb_le Hh2%N.leb_le].
      apply andb_prop in Hl as [Hl1%N.leb_le Hl2%N.leb_le]. lia.
    + intros (e' & He' & ->)%option_map_Some.
      apply Forall_app. split; [apply escape_safe; lia|].
      exact (IH1 a Has e' He').
Qed.

Lemma encodeURIComponent_unreserved (s : jsstring) :
  forallb Bot.is_unreserved s = true -> Bot.encodeURIComponent s = Some s.
Proof.
  induction s as [|c s IH]; [reflexivity|].
  cbn [forallb]. intros [Hc Hs]%andb_prop.
  cbn [Bot.encodeURIComponent]. rewrite Hc, (IH Hs). reflexivity.
Qed.

End BotBuiltins.

(** What [encodeURIComponent] returns is made of unreserved
    characters and percent signs only, so it contains none of
    [& = ? # /] nor a space; a string of unreserved characters is returned
    as it is. *)
Lemma encodeURIComponent_safe (s e : jsstring) :
  Forall (fun c => (c < 65536)%N) s ->
  Bot.encodeURIComponent s = Some e ->
  Forall Bot.uri_safe e
  /\ (forall c, In c e ->
        c <> 38%N /\ c <> 61%N /\ c <> 63%N /\ c <> 35%N /\ c <> 47%N
        /\ c <> 32%N)
  /\ (forallb Bot.is_unreserved s = true -> e = s).
Proof.
  intros Hs He.
  pose proof (proj1 (encodeURIComponent_safe_pair s) Hs e He) as Hsafe.
  split; [exact Hsafe|]. split.
  - intros c Hc. rewrite Forall_forall in Hsafe.
    destruct (Hsafe c ltac:(apply list_elem_of_In; exact Hc)) as [Hu | ->];
      [|repeat split; discriminate].
    repeat split; intros ->; discriminate Hu.
  - intros Hu. rewrite (encodeURIComponent_unreserved s Hu) in He.
    inversion He. reflexivity.
Qed.

Lemma encodeURIComponent_safe_witness :
  Forall (fun c => (c < 65536)%N) (lit "milk & eggs")
  /\ Bot.encodeURIComponent (lit "milk & eggs") = Some (lit "milk%20%26%20eggs")
  /\ Forall Bot.uri_safe (lit "milk%20%26%20eggs").
Proof.
  assert (H1 : Forall (fun c => (c < 65536)%N) (lit "milk & eggs")).
  { apply Forall_forall. intros c Hc. apply list_elem_of_In in Hc.
    vm_compute in Hc.
    repeat (destruct Hc as [<- | Hc]; [reflexivity|]). destruct Hc. }
  assert (H2 : Bot.encodeURIComponent (lit "milk & eggs")
               = Some (lit "milk%20%26%20eggs")) by (vm_compute; reflexivity).
  split; [exact H1|]. split; [exact H2|].
  exact (proj1 (encodeURIComponent_safe _ _ H1 H2)).
Defined.

(** ** The methods of NotesBot *)




(** X25. [addNote] posts to [/notes] a body of exactly six fields, the
    user id and the content as given and the four context tags read from
    [serverInfo], which are all [undefined] when [serverInfo] is omitted;
    it returns the body of the response, or [null] when the request is
    rejected. Given [null] for [serverInfo] it sends nothing and returns
    [null]. *)
Theorem addNote_body (net : server) (userId content : jsval)
        (fields : list (string * jsval)) (w : Bot.BotWorld) :
  let post (info : list (string * jsval)) :=
    {| req_method := POST;
       req_url := Bot.API_BASE ++ lit "/notes";
       req_data := JObj [("discord_user_id"%string, userId);
                         ("content"%string, content);
                         ("server_id"%string, assoc "serverId" info);
                         ("server_name"%string, assoc "serverName" info);
                         ("channel_id"%string, assoc "channelId" info);
                         ("channel_name"%string, assoc "channelName" info)];
       req_params := [];
       req_headers := Bot.bot_headers w |} in
  (let run := Bot.addNote net userId content (JObj fields) in
   Bot.bot_sent (Bot.run run w) = Bot.bot_sent w ++ [post fields]
   /\ (forall data, net (length (Bot.bot_sent w)) (post fields) = Resolved data ->
                    Bot.value run w = data)
   /\ (forall e, net (length (Bot.bot_sent w)) (post fields) = Rejected e ->
                 Bot.value run w = JNull))
  /\ (let run := Bot.addNote net userId content JUndefined in
      Bot.bot_sent (Bot.run run w) = Bot.bot_sent w ++ [post []]
      /\ req_data (post [])
         = JObj [("discord_user_id"%string, userId);
                 ("content"%string, content);
                 ("server_id"%string, JUndefined);
                 ("server_name"%string, JUndefined);
                 ("channel_id"%string, JUndefined);
                 ("channel_name"%string, JUndefined)])
  /\ (let run := Bot.addNote net userId content JNull in
      Bot.bot_sent (Bot.run run w) = Bot.bot_sent w
      /\ Bot.value run w = JNull).
Proof.
  cbv zeta. unfold Bot.addNote. cbn [Bot.default_param get_prop mbind option_bind].
  split; [|split].
  - bot_run. cbn [get_prop option_bind].
    destruct (net _ _) as [data|e];
      (split; [reflexivity|]); split; intros x Hx; inversion Hx; reflexivity.
  - bot_run. cbn [get_prop option_bind assoc].
    destruct (net _ _) as [data|e]; split; reflexivity.
  - bot_run. cbn [get_prop option_bind]. split; reflexivity.
Qed.

(** ** The message handler *)

Section BotHandler.

Variable net : server.
Variable toLowerCase : jsstring -> jsstring.

Lemma split_space_cons (s : jsstring) :
  exists piece pieces, Bot.split_space s = piece :: pieces.
Proof.
  induction s as [|c r (p & ps & IH)]; cbn [Bot.split_space]; [eauto|].
  destruct (c =? 32)%N; [eauto|]. rewrite IH. eauto.
Qed.

Lemma split_space_prefix (cmd rest : jsstring) :
  Bot.no_space cmd ->
  Bot.split_space (cmd ++ 32%N :: rest) = cmd :: Bot.split_space rest.
Proof.
  unfold Bot.no_space. induction cmd as [|c cmd IH]; cbn [forallb app Bot.split_space].
  - intros _. reflexivity.
  - intros [Hc Hcmd]%andb_prop. apply negb_true_iff in Hc. rewrite Hc.
    rewrite (IH Hcmd). reflexivity.
Qed.

Lemma split_space_word (cmd : jsstring) :
  Bot.no_space cmd -> Bot.split_space cmd = [cmd].
Proof.
  unfold Bot.no_space. induction cmd as [|c cmd IH]; cbn [forallb Bot.split_space].
  - intros _. reflexivity.
  - intros [Hc Hcmd]%andb_prop. apply negb_true_iff in Hc. rewrite Hc.
    rewrite (IH Hcmd). reflexivity.
Qed.

Lemma join_cons_str (sep piece : jsstring) (pieces : list jsstring) :
  join sep (map JStr (piece :: pieces))
  = piece ++ match pieces with
             | [] => []
             | _ => sep ++ join sep (map JStr pieces)
             end.
Proof. destruct pieces; reflexivity. Qed.

Lemma join_split_space (s : jsstring) :
  join [32%N] (map JStr (Bot.split_space s)) = s.
Proof.
  induction s as [|c r IH]; [reflexivity|].
  cbn [Bot.split_space].
  destruct (split_space_cons r) as (p & ps & Hr).
  destruct (N.eqb_spec c 32) as [-> | Hc].
  - rewrite join_cons_str. rewrite Hr in *. rewrite IH. reflexivity.
  - rewrite Hr in *. rewrite join_cons_str. rewrite join_cons_str in IH.
    rewrite <- app_comm_cons, IH. reflexivity.
Qed.

End BotHandler.

Lemma get_prop_defined (v : jsval) (k : string) :
  is_nullish v = false -> get_prop v k = Some (opt_prop v k).
Proof. destruct v; cbn; intros H; try discriminate H; reflexivity. Qed.

(** X26. The text of a note survives the command line. For a message
    [<cmd> add <text>] that is not from a bot, where [<cmd>] is a word
    that lower-cases to [!note], the handler posts one note whose
    [content] is [<text>] exactly, spaces and all, for the author of the
    message, tagged with the guild (if any) and the channel, and answers
    once: with the id of the saved note when the response has a truthy
    body, with the failure text otherwise. *)
Theorem note_add_round_trip (net : server) (toLowerCase : jsstring -> jsstring)
        (message : Bot.Message) (cmd text : jsstring) (w : Bot.BotWorld) :
  truthy (Bot.author_bot message) = false ->
  Bot.content message = cmd ++ lit " add " ++ text ->
  Bot.no_space cmd ->
  toLowerCase cmd = lit "!note" ->
  is_nullish (Bot.channel message) = false ->
  let run := Bot.on_messageCreate net toLowerCase message in
  let post :=
    {| req_method := POST;
       req_url := Bot.API_BASE ++ lit "/notes";
       req_data :=
         JObj [("discord_user_id"%string, Bot.author_id message);
               ("content"%string, JStr text);
               ("server_id"%string, opt_prop (Bot.guild message) "id");
               ("server_name"%string, opt_prop (Bot.guild message) "name");
               ("channel_id"%string, opt_prop (Bot.channel message) "id");
               ("channel_name"%string, opt_prop (Bot.channel message) "name")];
       req_params := [];
       req_headers := Bot.bot_headers w |} in
  let failed := Bot.cross_mark ++ lit " Failed to save note." in
  Bot.value run w = Returned tt
  /\ Bot.bot_sent (Bot.run run w) = Bot.bot_sent w ++ [post]
  /\ (forall data, net (length (Bot.bot_sent w)) post = Resolved data ->
        Bot.replies (Bot.run run w)
        = Bot.replies w
          ++ [if truthy data
              then Bot.check_mark ++ lit " Note saved! ID: "
                     ++ to_string (opt_prop data "id")
              else failed])
  /\ (forall e, net (length (Bot.bot_sent w)) post = Rejected e ->
        Bot.replies (Bot.run run w) = Bot.replies w ++ [failed]).
Proof.
  intros Hbot Hcontent Hcmd Hlower Hchan. cbv zeta.
  unfold Bot.on_messageCreate. rewrite Hbot, Hcontent.
  change (cmd ++ lit " add " ++ text)
    with (cmd ++ 32%N :: (lit "add" ++ 32%N :: text)).
  rewrite (split_space_prefix cmd _ Hcmd).
  rewrite (split_space_prefix (lit "add") text eq_refl).
  change ((cmd :: lit "add" :: Bot.split_space text) !! 0%nat) with (Some cmd).
  change (default [] (Some cmd)) with cmd. rewrite Hlower.
  rewrite (bool_decide_eq_true_2 _ eq_refl).
  unfold Bot.on_note.
  change ((cmd :: lit "add" :: Bot.split_space text) !! 1%nat)
    with (Some (lit "add")).
  rewrite (bool_decide_eq_true_2 _ eq_refl).
  destruct (split_space_cons text) as (p & ps & Hsplit).
  pose proof (join_split_space text) as Hjoin.
  rewrite Hsplit in *.
  change (2 <? length (cmd :: lit "add" :: p :: ps))%nat with true.
  cbn [andb drop]. change (lit " ") with [32%N]. rewrite Hjoin.
  rewrite !(get_prop_defined _ _ Hchan).
  cbn [mbind option_bind].
  set (gid := opt_prop (Bot.guild message) "id").
  set (gname := opt_prop (Bot.guild message) "name").
  set (cid := opt_prop (Bot.channel message) "id").
  set (cname := opt_prop (Bot.channel message) "name").
  unfold Bot.addNote.
  cbn [Bot.default_param get_prop assoc String.eqb Ascii.eqb Bool.eqb
       mbind option_bind].
  bot_run.
  destruct (net _ _) as [data|e].
  - split; [destruct (truthy data); reflexivity|].
    split; [destruct (truthy data); reflexivity|].
    split; [|intros e He; discriminate He].
    intros d Hd. inversion Hd; subst d.
    destruct (truthy data); reflexivity.
  - cbn [truthy]. split; [reflexivity|]. split; [reflexivity|].
    split; [intros d Hd; discriminate Hd|]. intros e' _. reflexivity.
Qed.

Lemma note_add_round_trip_witness :
  truthy (Bot.author_bot (Scenes.typed "!NOTE add buy  milk")) = false
  /\ Bot.content (Scenes.typed "!NOTE add buy  milk")
     = lit "!NOTE" ++ lit " add " ++ lit "buy  milk"
  /\ Bot.no_space (lit "!NOTE")
  /\ Scenes.ascii_lower (lit "!NOTE") = lit "!note"
  /\ is_nullish (Bot.channel (Scenes.typed "!NOTE add buy  milk")) = false
  /\ Bot.value (Bot.on_messageCreate Scenes.storing Scenes.ascii_lower
                  (Scenes.typed "!NOTE add buy  milk")) Scenes.bot_start
     = Returned tt.
Proof.
  assert (H3 : Bot.no_space (lit "!NOTE")) by (vm_compute; reflexivity).
  assert (H4 : Scenes.ascii_lower (lit "!NOTE") = lit "!note")
    by (vm_compute; reflexivity).
  split; [reflexivity|]. split; [reflexivity|]. split; [exact H3|].
  split; [exact H4|]. split; [reflexivity|].
  exact (proj1 (note_add_round_trip Scenes.storing Scenes.ascii_lower
                  (Scenes.typed "!NOTE add buy  milk") (lit "!NOTE")
                  (lit "buy  milk") Scenes.bot_start
                  eq_refl eq_refl H3 H4 eq_refl)).
Defined.

Section BotFrames.

Variable net : server.

Lemma api_call_none (w : Bot.BotWorld) (f : list string -> list string) :
  Bot.api_call w
    {| Bot.bot_headers := Bot.bot_headers w; Bot.bot_sent := Bot.bot_sent w;
       Bot.bot_console := f (Bot.bot_console w); Bot.replies := Bot.replies w |}.
Proof.
  split; [reflexivity|]. split; [reflexivity|].
  exists []. split; [symmetry; apply app_nil_r|]. split; [cbn; lia|constructor].
Qed.

Lemma api_call_one (w : Bot.BotWorld) (f : list string -> list string)
      (r : request) :
  req_headers r = Bot.bot_headers w ->
  Bot.api_call w
    {| Bot.bot_headers := Bot.bot_headers w;
       Bot.bot_sent := Bot.bot_sent w ++ [r];
       Bot.bot_console := f (Bot.bot_console w); Bot.replies := Bot.replies w |}.
Proof.
  intros Hr. split; [reflexivity|]. split; [reflexivity|].
  exists [r]. split; [reflexivity|]. split; [cbn; lia|].
  apply Forall_cons. split; [exact Hr|constructor].
Qed.

Lemma deleteNote_api_call (noteId : jsval) (w : Bot.BotWorld) :
  Bot.api_call w (Bot.run (Bot.deleteNote net noteId) w).
Proof.
  unfold Bot.deleteNote. bot_run.
  destruct (net _ _).
  - apply (api_call_one w (fun l => l)). reflexivity.
  - apply (api_call_one w (fun l => l ++ _)). reflexivity.
Qed.

Lemma getUserNotes_api_call (userId limit : jsval) (w : Bot.BotWorld) :
  Bot.api_call w (Bot.run (Bot.getUserNotes net userId limit) w).
Proof.
  unfold Bot.getUserNotes. bot_run.
  destruct (net _ _).
  - apply (api_call_one w (fun l => l)). reflexivity.
  - apply (api_call_one w (fun l => l ++ _)). reflexivity.
Qed.

Lemma searchNotes_api_call (userId query limit : jsval) (w : Bot.BotWorld) :
  Bot.api_call w (Bot.run (Bot.searchNotes net userId query limit) w).
Proof.
  unfold Bot.searchNotes.
  destruct (Bot.encodeURIComponent (to_string query)); bot_run.
  - destruct (net _ _).
    + apply (api_call_one w (fun l => l)). reflexivity.
    + apply (api_call_one w (fun l => l ++ _)). reflexivity.
  - apply (api_call_none w (fun l => l ++ _)).
Qed.

Lemma addNote_api_call (userId content serverInfo : jsval) (w : Bot.BotWorld) :
  Bot.api_call w (Bot.run (Bot.addNote net userId content serverInfo) w).
Proof.
  unfold Bot.addNote.
  destruct (get_prop (Bot.default_param (JObj []) serverInfo) "serverId"
              ≫= _); bot_run.
  - destruct (net _ _).
    + apply (api_call_one w (fun l => l)). reflexivity.
    + apply (api_call_one w (fun l => l ++ _)). reflexivity.
  - apply (api_call_none w (fun l => l ++ _)).
Qed.

Lemma handled_unchanged (w : Bot.BotWorld) (result : completion unit) :
  Bot.handled w w result.
Proof.
  split; [reflexivity|].
  split; [exists []; split; [symmetry; apply app_nil_r|];
          split; [cbn; lia|constructor]|].
  split; [exists []; split; [symmetry; apply app_nil_r|cbn; lia]|].
  intros _ H. contradiction.
Qed.

Lemma handled_threw (w w1 : Bot.BotWorld) :
  Bot.api_call w w1 -> Bot.handled w w1 Threw.
Proof.
  intros (Hh & Hr & Hs). split; [exact Hh|]. split; [exact Hs|].
  split; [exists []; rewrite Hr; split; [symmetry; apply app_nil_r|cbn; lia]|].
  intros H. discriminate H.
Qed.

Lemma handled_reply (w w1 : Bot.BotWorld) (text : jsstring)
      (result : completion unit) :
  Bot.api_call w w1 -> Bot.handled w (Bot.run (Bot.reply text) w1) result.
Proof.
  intros (Hh & Hr & Hs). unfold Bot.run, Bot.reply. cbn [snd Bot.bot_headers
    Bot.bot_sent Bot.replies].
  split; [exact Hh|]. split; [exact Hs|].
  split; [exists [text]; rewrite Hr; split; [reflexivity|cbn; lia]|].
  intros _ _. exists text. rewrite Hr. reflexivity.
Qed.

End BotFrames.

Section BotDiscipline.

Variable net : server.
Variable toLowerCase : jsstring -> jsstring.

Lemma on_note_handled (message : Bot.Message) (args : list jsstring)
      (w : Bot.BotWorld) :
  Bot.handled w (Bot.run (Bot.on_note net message args) w)
    (Bot.value (Bot.on_note net message args) w).
Proof.
  unfold Bot.on_note.
  destruct (_ && _); [|apply handled_unchanged].
  destruct (get_prop (Bot.channel message) "id" ≫= _) as [info|];
    [|apply handled_unchanged].
  pose proof (addNote_api_call net (Bot.author_id message)
                (JStr (join (lit " ") (map JStr (drop 2 args)))) info w) as Hc.
  unfold Bot.run, Bot.value in *. cbv beta iota zeta delta [mbind Bot.BotEff_bind
    mret Bot.BotEff_ret fst snd] in *.
  destruct (Bot.addNote _ _ _ _ w) as [note w1].
  destruct (truthy note);
    exact (handled_reply w w1 _ (Returned tt) Hc).
Qed.

Lemma on_notes_handled (message : Bot.Message) (w : Bot.BotWorld) :
  Bot.handled w (Bot.run (Bot.on_notes net message) w)
    (Bot.value (Bot.on_notes net message) w).
Proof.
  unfold Bot.on_notes.
  pose proof (getUserNotes_api_call net (Bot.author_id message) (JNum 5) w) as Hc.
  unfold Bot.run, Bot.value in *. cbv beta iota zeta delta [mbind Bot.BotEff_bind
    mret Bot.BotEff_ret fst snd] in *.
  destruct (Bot.getUserNotes _ _ _ w) as [notes w1].
  destruct (Bot.js_length notes) as [len|]; [|exact (handled_threw w w1 Hc)].
  destruct (Bot.is_zero len);
    [exact (handled_reply w w1 _ (Returned tt) Hc)|].
  destruct notes; try exact (handled_threw w w1 Hc).
  destruct (Bot.map_indexed _ _ _); [|exact (handled_threw w w1 Hc)].
  exact (handled_reply w w1 _ (Returned tt) Hc).
Qed.

Lemma on_search_handled (message : Bot.Message) (args : list jsstring)
      (w : Bot.BotWorld) :
  Bot.handled w (Bot.run (Bot.on_search net message args) w)
    (Bot.value (Bot.on_search net message args) w).
Proof.
  unfold Bot.on_search.
  destruct (1 <? length args)%nat; [|apply handled_unchanged].
  pose proof (searchNotes_api_call net (Bot.author_id message)
                (JStr (join (lit " ") (map JStr (drop 1 args)))) JUndefined w)
    as Hc.
  unfold Bot.run, Bot.value in *. cbv beta iota zeta delta [mbind Bot.BotEff_bind
    mret Bot.BotEff_ret fst snd] in *.
  destruct (Bot.searchNotes _ _ _ _ w) as [results w1].
  destruct (Bot.js_length results) as [len|]; [|exact (handled_threw w w1 Hc)].
  destruct (Bot.is_zero len);
    [exact (handled_reply w w1 _ (Returned tt) Hc)|].
  destruct results; try exact (handled_threw w w1 Hc).
  destruct (Bot.map_indexed _ _ _); [|exact (handled_threw w w1 Hc)].
  exact (handled_reply w w1 _ (Returned tt) Hc).
Qed.

Lemma on_delete_handled (message : Bot.Message) (args : list jsstring)
      (w : Bot.BotWorld) :
  Bot.handled w (Bot.run (Bot.on_delete net message args) w)
    (Bot.value (Bot.on_delete net message args) w).
Proof.
  unfold Bot.on_delete.
  destruct (1 <? length args)%nat; [|apply handled_unchanged].
  pose proof (deleteNote_api_call net
                (JStr (default [] (args !! 1%nat))) w) as Hc.
  unfold Bot.run, Bot.value in *. cbv beta iota zeta delta [mbind Bot.BotEff_bind
    mret Bot.BotEff_ret fst snd] in *.
  destruct (Bot.deleteNote _ _ w) as [success w1].
  destruct (truthy success);
    exact (handled_reply w w1 _ (Returned tt) Hc).
Qed.

End BotDiscipline.

(** X27. One message, at most one request and one reply. Whatever the
    message and whatever the server answers, the handler leaves the axios
    defaults alone, sends at most one request, under those defaults,
    replies at most once, and when it has sent a request and returns it
    has replied. A message from a bot, and a message whose first word is
    none of the four commands, change nothing at all. *)
Theorem handler_discipline (net : server) (toLowerCase : jsstring -> jsstring)
        (message : Bot.Message) (w : Bot.BotWorld) :
  let run := Bot.on_messageCreate net toLowerCase message in
  let command := toLowerCase
                   (default [] (Bot.split_space (Bot.content message) !! 0%nat)) in
  Bot.handled w (Bot.run run w) (Bot.value run w)
  /\ (truthy (Bot.author_bot message) = true ->
      run w = (Returned tt, w))
  /\ (command <> lit "!note" -> command <> lit "!notes" ->
      command <> lit "!search" -> command <> lit "!delete" ->
      run w = (Returned tt, w)).
Proof.
  cbv zeta. unfold Bot.on_messageCreate.
  destruct (truthy (Bot.author_bot message)).
  { split; [apply handled_unchanged|]. split; reflexivity. }
  split; [|split; [discriminate|]].
  - repeat case_bool_decide.
    + apply on_note_handled.
    + apply on_notes_handled.
    + apply on_search_handled.
    + apply on_delete_handled.
    + apply handled_unchanged.
  - intros H1 H2 H3 H4.
    rewrite !bool_decide_eq_false_2 by assumption. reflexivity.
Qed.

(** X28. [!delete] deletes the note named by the second word of the
    message. For a message [<cmd> <id>], possibly followed by more words,
    that is not from a bot and whose [<cmd>] lower-cases to [!delete],
    the handler sends one DELETE to [/bot/notes/<id>], with no credential
    beyond the axios defaults and with no check of who wrote the message,
    and answers once: success when the request resolves, failure when it
    is rejected. *)
Theorem delete_command (net : server) (toLowerCase : jsstring -> jsstring)
        (message : Bot.Message) (cmd id more : jsstring) (w : Bot.BotWorld) :
  truthy (Bot.author_bot message) = false ->
  Bot.content message = cmd ++ 32%N :: id ++ more ->
  Bot.no_space cmd ->
  Bot.no_space id ->
  (more = [] \/ exists rest, more = 32%N :: rest) ->
  toLowerCase cmd = lit "!delete" ->
  let run := Bot.on_messageCreate net toLowerCase message in
  let del := {| req_method := DELETE;
                req_url := Bot.API_BASE ++ lit "/bot/notes/" ++ id;
                req_data := JUndefined;
                req_params := [];
                req_headers := Bot.bot_headers w |} in
  Bot.value run w = Returned tt
  /\ Bot.bot_sent (Bot.run run w) = Bot.bot_sent w ++ [del]
  /\ (forall data, net (length (Bot.bot_sent w)) del = Resolved data ->
        Bot.replies (Bot.run run w)
        = Bot.replies w
          ++ [Bot.check_mark ++ lit " Note deleted successfully!"])
  /\ (forall e, net (length (Bot.bot_sent w)) del = Rejected e ->
        Bot.replies (Bot.run run w)
        = Bot.replies w
          ++ [Bot.cross_mark ++ lit " Failed to delete note. Check the note ID."]).
Proof.
  intros Hbot Hcontent Hcmd Hid Hmore Hlower. cbv zeta.
  unfold Bot.on_messageCreate. rewrite Hbot, Hcontent.
  rewrite (split_space_prefix cmd _ Hcmd).
  assert (Hargs : exists others, Bot.split_space (id ++ more) = id :: others).
  { destruct Hmore as [-> | (rest & ->)].
    - rewrite app_nil_r, (split_space_word id Hid). eauto.
    - rewrite (split_space_prefix id rest Hid). eauto. }
  destruct Hargs as (others & ->).
  change ((cmd :: id :: others) !! 0%nat) with (Some cmd).
  change (default [] (Some cmd)) with cmd. rewrite Hlower.
  rewrite (bool_decide_eq_false_2 (lit "!delete" = lit "!note"))
    by discriminate.
  rewrite (bool_decide_eq_false_2 (lit "!delete" = lit "!notes"))
    by discriminate.
  rewrite (bool_decide_eq_false_2 (lit "!delete" = lit "!search"))
    by discriminate.
  rewrite (bool_decide_eq_true_2 _ eq_refl).
  unfold Bot.on_delete.
  change (1 <? length (cmd :: id :: others))%nat with true.
  change ((cmd :: id :: others) !! 1%nat) with (Some id).
  change (default [] (Some id)) with id.
  unfold Bot.deleteNote. cbn [to_string]. bot_run.
  destruct (net _ _) as [data|e]; cbn [truthy].
  - split; [reflexivity|]. split; [reflexivity|].
    split; [intros; reflexivity|intros e He; discriminate He].
  - split; [reflexivity|]. split; [reflexivity|].
    split; [intros d Hd; discriminate Hd|intros; reflexivity].
Qed.

Lemma delete_command_witness :
  truthy (Bot.author_bot (Scenes.typed "!delete n1 please")) = false
  /\ Bot.content (Scenes.typed "!delete n1 please")
     = lit "!delete" ++ 32%N :: lit "n1" ++ lit " please"
  /\ Bot.no_space (lit "!delete")
  /\ Bot.no_space (lit "n1")
  /\ Scenes.ascii_lower (lit "!delete") = lit "!delete"
  /\ Bot.value (Bot.on_messageCreate refusing Scenes.ascii_lower
                  (Scenes.typed "!delete n1 please")) Scenes.bot_start
     = Returned tt.
Proof.
  assert (H3 : Bot.no_space (lit "!delete")) by (vm_compute; reflexivity).
  assert (H4 : Bot.no_space (lit "n1")) by (vm_compute; reflexivity).
  assert (H5 : lit " please" = [] \/ exists rest, lit " please" = 32%N :: rest).
  { right. exists (lit "please"). reflexivity. }
  assert (H6 : Scenes.ascii_lower (lit "!delete") = lit "!delete")
    by (vm_compute; reflexivity).
  split; [reflexivity|]. split; [reflexivity|]. split; [exact H3|].
  split; [exact H4|]. split; [exact H6|].
  exact (proj1 (delete_command refusing Scenes.ascii_lower
                  (Scenes.typed "!delete n1 please") (lit "!delete") (lit "n1")
                  (lit " please") Scenes.bot_start
                  eq_refl eq_refl H3 H4 H5 H6)).
Defined.
